(** * ProductScraper: a shallow embedding of [scraper.py]

    The development follows the class [ProductScraper]: the price
    normaliser, the page-URL builder, the three extraction strategies
    (JSON-LD, containers, single product page) and the two pagination
    loops ([scrape_products] and [scrape_products_with_progress]).

    Python values are kept as Python has them: a [str] is a sequence of
    code points, a [dict] is a finite map from keys to values, and the
    libraries the scraper calls (BeautifulSoup, [json], [re], [urllib],
    SQLAlchemy) appear through the results of the calls the scraper makes. *)

From Stdlib Require Import ZArith NArith List Bool Lia Ascii String DecimalString.
From stdpp Require Import base option list gmap strings.
From Stdlib Require DecimalPos.
Import ListNotations.

Local Open Scope Z_scope.
Set Warnings "-register-all,-clear-no-such-hyp".

(** ** Python strings *)

(** A Python [str]: the sequence of its code points. *)
Definition pystr := list N.

(** A literal of the source, written as a Rocq string. *)
Definition u (s : string) : pystr :=
  List.map N_of_ascii (list_ascii_of_string s).

Definition pystr_eqb (a b : pystr) : bool := bool_decide (a = b).

(** [c in s] for a single character [c]. *)
Definition char_in (c : N) (s : pystr) : bool := existsb (N.eqb c) s.

(** [s.endswith(c)] for a single character [c]. *)
Definition endswith_char (s : pystr) (c : N) : bool :=
  match last s with
  | Some d => N.eqb d c
  | None => false
  end.

(** The characters [str.strip()] removes (CPython's [Py_UNICODE_ISSPACE]). *)
Definition py_isspace (c : N) : bool :=
  ((9 <=? c) && (c <=? 13))%N || ((28 <=? c) && (c <=? 32))%N
  || (c =? 133)%N || (c =? 160)%N || (c =? 5760)%N
  || ((8192 <=? c) && (c <=? 8202))%N
  || (c =? 8232)%N || (c =? 8233)%N || (c =? 8239)%N
  || (c =? 8287)%N || (c =? 12288)%N.

Fixpoint lstrip (s : pystr) : pystr :=
  match s with
  | c :: s' => if py_isspace c then lstrip s' else s
  | [] => []
  end.

Definition rstrip (s : pystr) : pystr := rev (lstrip (rev s)).

(** [s.strip()] *)
Definition strip (s : pystr) : pystr := rstrip (lstrip s).

(** [str(n)] for an [int]. *)
Definition str_of_int (n : Z) : pystr :=
  u (NilZero.string_of_int (Z.to_int n)).

Definition ascii_digit (c : N) : bool := ((48 <=? c) && (c <=? 57))%N.

(** ** Python values *)

(** A [float] is an IEEE double: a dyadic rational, an infinity or NaN.
    The scraper does no arithmetic on floats; it stores and tests them. *)
Inductive pyfloat : Type :=
| FloatFinite (m e : Z)            (* m * 2^e *)
| FloatInf (negative : bool)
| FloatNaN.

(** The values [json.loads] produces and product records hold. *)
Inductive value : Type :=
| VNone
| VBool (b : bool)
| VInt (n : Z)
| VFloat (f : pyfloat)
| VStr (s : pystr)
| VList (l : list value)
| VDict (d : gmap string value).

(** A product record: the [dict] the strategies build. *)
Abbreviation product := (gmap string value).

(** Truth value of a Python object, as [if x:] tests it. *)
Definition truthy (v : value) : bool :=
  match v with
  | VNone => false
  | VBool b => b
  | VInt n => negb (n =? 0)
  | VFloat (FloatFinite m _) => negb (m =? 0)
  | VFloat _ => true
  | VStr s => negb (bool_decide (s = []))
  | VList l => negb (bool_decide (length l = 0%nat))
  | VDict d => negb (bool_decide (size d = 0%nat))
  end.

(** [v == lit] for a [str] literal [lit]. *)
Definition eq_str (v : value) (lit : pystr) : bool :=
  match v with
  | VStr s => pystr_eqb s lit
  | _ => false
  end.

(** [d.get(k, dflt)] *)
Definition dict_get (d : gmap string value) (k : string) (dflt : value) : value :=
  default dflt (d !! k).

(** The receiver of a [.get] call: anything but a [dict] raises
    [AttributeError]. *)
Definition as_dict (v : value) : option (gmap string value) :=
  match v with
  | VDict d => Some d
  | _ => None
  end.

(** ** The interpreter's tables and library functions

    The scraper relies on a few functions of the Python runtime whose
    tables are not part of the repository.  They are gathered in one
    record; the scraper is defined over any such record. *)

Record Runtime : Type := {
  (** membership of a non-ASCII code point in Unicode category Nd, as
      the [re] module's [\d] sees it for [str] patterns *)
  unicode_nd : N -> bool;
  (** the decimal value of such a digit, as [int()] reads it *)
  unicode_digit_value : N -> Z;
  (** [float(s)] on the text of a decimal number *)
  float_of_str : pystr -> pyfloat;
  (** [str(v)] on a float, a list or a dict *)
  str_of_compound : value -> pystr;
  (** [urllib.parse.urljoin]; [None] when it raises [ValueError] *)
  urljoin : pystr -> pystr -> option pystr
}.

(** What [\d] matches: an ASCII digit or a member of Nd outside ASCII. *)
Definition re_digit (R : Runtime) (c : N) : bool :=
  ascii_digit c || ((128 <=? c)%N && unicode_nd R c).

(** What the class [[^\d.,]] does NOT match: digits, [.] and [,]. *)
Definition price_char (R : Runtime) (c : N) : bool :=
  re_digit R c || (c =? 46)%N || (c =? 44)%N.

(** [str(v)] *)
Definition py_str (R : Runtime) (v : value) : pystr :=
  match v with
  | VStr s => s
  | VNone => u "None"
  | VBool true => u "True"
  | VBool false => u "False"
  | VInt n => str_of_int n
  | _ => str_of_compound R v
  end.

(** ** [_clean_price] *)

Definition _clean_price (R : Runtime) (price_text : pystr) : pystr :=
  match price_text with
  | [] => []                                   (* if not price_text: return '' *)
  | _ => strip (List.filter (price_char R) price_text)
  end.

(** ** [_build_page_url]

    The list [patterns] the source builds first is never read. *)

Definition _build_page_url (base_url : pystr) (page_number : Z) : pystr :=
  if page_number =? 1 then base_url
  else if char_in 63 base_url then
    base_url ++ u "&page=" ++ str_of_int page_number
  else if endswith_char base_url 47 then
    base_url ++ u "page/" ++ str_of_int page_number ++ u "/"
  else
    base_url ++ u "/page/" ++ str_of_int page_number ++ u "/".

(** ** The parsed page

    A [Tag] is an element of the BeautifulSoup tree, seen through the
    calls the scraper makes on it: its stripped text, its attributes and,
    for each CSS selector, the descendants that selector matches, in
    document order. *)

Inductive Tag : Type := mkTag {
  text_stripped : pystr;                      (* get_text(strip=True) *)
  attrs : gmap string pystr;                  (* tag.get(name) *)
  matches : gmap string (list Tag)            (* tag.select(selector) *)
}.

Definition select (t : Tag) (selector : string) : list Tag :=
  default [] (matches t !! selector).

Definition select_one (t : Tag) (selector : string) : option Tag :=
  head (select t selector).

(** One [<script type="application/ld+json">] element, seen through
    [json.loads(script.string)]. *)
Inductive Script : Type :=
| ScriptJson (data : value)   (* the text decodes to [data] *)
| ScriptMalformed             (* the text is rejected: JSONDecodeError *)
| ScriptNoString              (* [script.string] is None (an element with no
                                 child or several): json.loads raises TypeError *)
| ScriptOtherError.           (* json.loads raises another exception that is no
                                 JSONDecodeError: ValueError for an integer of
                                 more digits than [int] reads, RecursionError
                                 for brackets nested too deep *)

Record Soup : Type := {
  ld_json_scripts : list Script;   (* find_all('script', type='application/ld+json') *)
  root : Tag
}.

(** ** The extraction strategies *)

Section Strategies.

Variable R : Runtime.

(** *** Strategy 1: JSON-LD *)

(** [data.get('brand', {}).get('name', '') if isinstance(data.get('brand'), dict)
    else str(data.get('brand', ''))] *)
Definition ld_brand (d : gmap string value) : value :=
  match d !! "brand" with
  | Some (VDict b) => dict_get b "name" (VStr [])
  | Some v => VStr (py_str R v)
  | None => VStr (py_str R (VStr []))
  end.

(** The record [_parse_json_ld_product] starts from. *)
Definition ld_base (d : gmap string value) : product :=
  <["image_urls" := VList []]>
  (<["sku" := dict_get d "sku" (VStr [])]>
  (<["brand" := ld_brand d]>
  (<["description" := dict_get d "description" (VStr [])]>
  (<["title" := dict_get d "name" (VStr [])]> ∅)))).

(** [# Extract price information]; [None] when [offers.get] raises. *)
Definition ld_offers (d : gmap string value) (p : product) : option product :=
  let offers := dict_get d "offers" (VDict ∅) in
  if truthy offers then
    o ← as_dict (match offers with
                 | VList l => List.nth 0 l VNone      (* offers[0] *)
                 | _ => offers
                 end);
    Some (<["availability" := dict_get o "availability" (VStr [])]>
         (<["currency" := dict_get o "priceCurrency" (VStr [])]>
         (<["price" := dict_get o "price" (VStr [])]> p)))
  else Some p.

(** [# Extract images] *)
Definition ld_images (d : gmap string value) (p : product) : product :=
  match d !! "image" with
  | Some (VStr images) =>
      <["main_image_url" := VStr images]>
      (<["image_urls" := VList [VStr images]]> p)
  | Some (VList images) =>
      <["main_image_url" := match images with
                            | i :: _ => i
                            | [] => VStr []
                            end]>
      (<["image_urls" := VList images]> p)
  | _ => p
  end.

(** [# Extract rating]; [None] when [rating_data.get] raises. *)
Definition ld_rating (d : gmap string value) (p : product) : option product :=
  let rating_data := dict_get d "aggregateRating" (VDict ∅) in
  if truthy rating_data then
    r ← as_dict rating_data;
    Some (<["review_count" := dict_get r "reviewCount" VNone]>
         (<["rating" := dict_get r "ratingValue" VNone]> p))
  else Some p.

(** [_parse_json_ld_product].  The whole body runs under
    [try ... except Exception], which makes the function return [None];
    so does a [data] whose [@type] is not ['Product'].  [None] below is
    that [None]; the first [.get] already raises on a [data] that is no
    [dict]. *)
Definition _parse_json_ld_product (data : value) : option product :=
  d ← as_dict data;
  if negb (eq_str (dict_get d "@type" VNone) (u "Product")) then None else
  product1 ← ld_offers d (ld_base d);
  ld_rating d (ld_images d product1).

(** [if product: products.append(product)] on what a strategy returned:
    [None] and an empty [dict] are both false. *)
Definition if_product (r : option product) : list product :=
  match r with
  | Some p => if truthy (VDict p) then [p] else []
  | None => []
  end.

(** The products one decoded block contributes: [data] itself or, when
    it is a list, each of its items. *)
Definition block_products (data : value) : list product :=
  match data with
  | VList items => flat_map (fun item => if_product (_parse_json_ld_product item)) items
  | _ => if_product (_parse_json_ld_product data)
  end.

(** The loop of [_extract_json_ld_products] over the script elements
    still to visit, [products] being the list built so far.  A
    [JSONDecodeError] is caught inside the loop ([continue]); any other
    exception leaves the loop for the outer handler, which logs it, and
    the function returns [products] as it stands. *)
Fixpoint json_ld_loop (json_scripts : list Script) (products : list product)
  : list product :=
  match json_scripts with
  | [] => products
  | ScriptJson data :: rest => json_ld_loop rest (products ++ block_products data)
  | ScriptMalformed :: rest => json_ld_loop rest products
  | ScriptNoString :: _ => products
  | ScriptOtherError :: _ => products
  end.

Definition _extract_json_ld_products (soup : Soup) : list product :=
  json_ld_loop (ld_json_scripts soup) [].

(** *** Strategy 2: product containers *)

(** [for selector in selectors: e = t.select_one(selector); if e: ...; break]:
    the element the first matching selector finds. *)
Fixpoint first_match (t : Tag) (selectors : list string) : option Tag :=
  match selectors with
  | [] => None
  | selector :: rest =>
      match select_one t selector with
      | Some e => Some e
      | None => first_match t rest
      end
  end.

(** [a or b] on two attribute look-ups. *)
Definition attr_or (a b : option pystr) : option pystr :=
  match a with
  | Some (_ :: _) => a
  | _ => b
  end.

(** [img.get('src') or img.get('data-src')], kept when it is true. *)
Definition img_src_of (img : Tag) : option pystr :=
  match attr_or (attrs img !! "src") (attrs img !! "data-src") with
  | Some (c :: s) => Some (c :: s)
  | _ => None
  end.

(** [re.search(r'(\d+(?:\.\d+)?)', s)]: the leftmost run of digits,
    with a fraction when a period and a digit follow it. *)
Fixpoint digits_prefix (s : pystr) : pystr * pystr :=
  match s with
  | c :: s' =>
      if re_digit R c then
        let '(ds, rest) := digits_prefix s' in (c :: ds, rest)
      else ([], s)
  | [] => ([], [])
  end.

Definition number_at (s : pystr) : option pystr :=
  match digits_prefix s with
  | ([], _) => None
  | (ds, 46%N :: rest) =>
      match digits_prefix rest with
      | ([], _) => Some ds
      | (fs, _) => Some (ds ++ 46%N :: fs)
      end
  | (ds, _) => Some ds
  end.

Fixpoint search_number (s : pystr) : option pystr :=
  match number_at s with
  | Some tok => Some tok
  | None =>
      match s with
      | _ :: s' => search_number s'
      | [] => None
      end
  end.

Definition title_selectors : list string :=
  [".product-title"; ".product-name"; "h2"; "h3"; "h4";
   ".title"; ".name"; "[data-product-title]"]%string.

Definition price_selectors : list string :=
  [".price"; ".product-price"; ".cost"; ".amount";
   "[data-price]"; ".price-current"; ".sale-price"]%string.

Definition original_price_selectors : list string :=
  [".original-price"; ".regular-price"; ".was-price";
   ".price-old"; ".strike-through"]%string.

(** The record [_extract_product_from_container] starts from. *)
Definition container_defaults : product :=
  <["review_count" := VNone]>
  (<["rating" := VNone]>
  (<["main_image_url" := VStr []]>
  (<["image_urls" := VList []]>
  (<["category" := VStr []]>
  (<["brand" := VStr []]>
  (<["original_price" := VStr []]>
  (<["price" := VStr []]>
  (<["description" := VStr []]>
  (<["title" := VStr []]> ∅))))))))).

(** [elem = ...; if elem: product[key] = f(elem)]: a field set from
    the element found for it, and left as it is when none was found. *)
Definition set_if_found {A} (found : option A) (key : string) (f : A -> value)
  (p : product) : product :=
  match found with
  | Some elem => <[key := f elem]> p
  | None => p
  end.

Definition stripped_text (elem : Tag) : value := VStr (text_stripped elem).

Definition cleaned_price (elem : Tag) : value :=
  VStr (_clean_price R (text_stripped elem)).

(** [# Extract main image]; [None] when [urljoin] raises. *)
Definition container_image (container : Tag) (base_url : pystr) (p : product)
  : option product :=
  match select_one container "img" with
  | Some img_elem =>
      match img_src_of img_elem with
      | Some img_src =>
          main ← urljoin R base_url img_src;
          Some (<["image_urls" := VList [VStr main]]>
               (<["main_image_url" := VStr main]> p))
      | None => Some p
      end
  | None => Some p
  end.

(** [# Extract rating] *)
Definition container_rating (container : Tag) (p : product) : product :=
  match select_one container ".rating, .stars, [data-rating]" with
  | Some rating_elem =>
      set_if_found (search_number (text_stripped rating_elem)) "rating"
        (fun tok => VFloat (float_of_str R tok)) p
  | None => p
  end.

(** [return product if product['title'] else None] *)
Definition if_titled (p : product) : option product :=
  if truthy (dict_get p "title" VNone) then Some p else None.

(** [_extract_product_from_container].  [None] is the [None] the
    function returns: for a record without a title, and from the
    handler of its [try] when [urljoin] raises. *)
Definition _extract_product_from_container (container : Tag) (base_url : pystr)
  : option product :=
  let product := container_defaults in
  let product :=
    set_if_found (first_match container title_selectors) "title" stripped_text product in
  let product :=
    set_if_found (first_match container price_selectors) "price" cleaned_price product in
  let product :=
    set_if_found (first_match container original_price_selectors) "original_price"
      cleaned_price product in
  product ← container_image container base_url product;
  let product := container_rating container product in
  if_titled product.

Definition product_selectors : list string :=
  [".product-item"; ".product"; ".product-card"; ".woocommerce-product";
   ".shop-item"; ".product-box"; "[data-product-id]"; ".product-tile";
   ".item-product"]%string.

(** The loop of [_extract_container_products] over the selectors: the
    first selector that matches anything decides, and only its first 20
    elements are read. *)
Fixpoint container_loop (soup : Soup) (base_url : pystr) (selectors : list string)
  : list product :=
  match selectors with
  | [] => []
  | selector :: rest =>
      match select (root soup) selector with
      | [] => container_loop soup base_url rest
      | containers =>
          flat_map
            (fun container => if_product (_extract_product_from_container container base_url))
            (take 20 containers)
      end
  end.

Definition _extract_container_products (soup : Soup) (base_url : pystr) : list product :=
  container_loop soup base_url product_selectors.

(** *** Strategy 3: a single product page *)

Definition single_title_selectors : list string :=
  ["h1.product-title"; "h1.entry-title"; "h1.product_title";
   "h1"; ".product-name h1"; ".product-title"]%string.

Definition desc_selectors : list string :=
  [".product-description"; ".product-details"; ".entry-content";
   ".product-summary"; ".short-description"; "#tab-description"]%string.

Definition single_price_selectors : list string :=
  [".price .amount"; ".product-price"; ".price-current";
   ".sale-price"; ".woocommerce-Price-amount"]%string.

Definition img_selectors : list string :=
  [".product-images img"; ".product-gallery img";
   ".woocommerce-product-gallery img"]%string.

(** The record [_extract_single_product] starts from. *)
Definition single_defaults : product :=
  <["sku" := VStr []]> container_defaults.

(** [for img in img_elements[:5]]: the URLs appended to
    [product['image_urls']]; [None] when [urljoin] raises. *)
Fixpoint gallery_urls (url : pystr) (imgs : list Tag) : option (list value) :=
  match imgs with
  | [] => Some []
  | img :: rest =>
      match img_src_of img with
      | Some img_src =>
          full_url ← urljoin R url img_src;
          urls ← gallery_urls url rest;
          Some (VStr full_url :: urls)
      | None => gallery_urls url rest
      end
  end.

(** The loop over [img_selectors]: the first selector that matches
    anything decides. *)
Fixpoint gallery_loop (soup : Soup) (url : pystr) (selectors : list string)
  (p : product) : option product :=
  match selectors with
  | [] => Some p
  | selector :: rest =>
      match select (root soup) selector with
      | [] => gallery_loop soup url rest p
      | img_elements =>
          urls ← gallery_urls url (take 5 img_elements);
          Some match urls with
               | first :: _ =>
                   <["main_image_url" := first]> (<["image_urls" := VList urls]> p)
               | [] => p
               end
      end
  end.

(** [_extract_single_product]; [None] as for a container. *)
Definition _extract_single_product (soup : Soup) (url : pystr) : option product :=
  let product := single_defaults in
  let product :=
    set_if_found (first_match (root soup) single_title_selectors) "title"
      stripped_text product in
  let product :=
    set_if_found (first_match (root soup) desc_selectors) "description"
      (fun desc_elem => VStr (take 1000 (text_stripped desc_elem))) product in
  let product :=
    set_if_found (first_match (root soup) single_price_selectors) "price"
      cleaned_price product in
  product ← gallery_loop soup url img_selectors product;
  let product :=
    set_if_found (select_one (root soup) ".sku, [data-sku]") "sku" stripped_text product in
  if_titled product.

(** ** Continuation detection *)

(** [int(s)] on a run of decimal digits. *)
Definition digit_value (c : N) : Z :=
  if ascii_digit c then Z.of_N c - 48 else unicode_digit_value R c.

Definition int_of_digits (ds : pystr) : Z :=
  fold_left (fun acc c => 10 * acc + digit_value c) ds 0.

(** The most digits [int(s)] reads: CPython's default
    [sys.int_info.default_max_str_digits].  On a longer run of digits
    it raises [ValueError]. *)
Definition int_max_str_digits : Z := 4300.

(** [int(s)] on a run of decimal digits; [None] when it raises. *)
Definition py_int (ds : pystr) : option Z :=
  if Z.of_nat (length ds) <=? int_max_str_digits then Some (int_of_digits ds) else None.

Fixpoint strip_prefix (prefix s : pystr) : option pystr :=
  match prefix, s with
  | [], _ => Some s
  | p :: prefix', c :: s' => if (p =? c)%N then strip_prefix prefix' s' else None
  | _ :: _, [] => None
  end.

(** A match of [prefix(\d+)] at the start of [s], for one of the
    prefixes: the digits captured. *)
Fixpoint digits_after (prefixes : list pystr) (s : pystr) : option pystr :=
  match prefixes with
  | [] => None
  | prefix :: rest =>
      match strip_prefix prefix s with
      | Some s' =>
          match digits_prefix s' with
          | ([], _) => digits_after rest s
          | (ds, _) => Some ds
          end
      | None => digits_after rest s
      end
  end.

(** [re.search] of such a pattern: the leftmost match. *)
Fixpoint search_digits_after (prefixes : list pystr) (s : pystr) : option pystr :=
  match digits_after prefixes s with
  | Some ds => Some ds
  | None =>
      match s with
      | _ :: s' => search_digits_after prefixes s'
      | [] => None
      end
  end.

(** The three patterns of [_extract_page_number_from_url], in order:
    [/page/(\d+)], [[?&]page=(\d+)], [[?&]paged=(\d+)]. *)
Definition page_patterns : list (list pystr) :=
  [ [u "/page/"]; [u "?page="; u "&page="]; [u "?paged="; u "&paged="] ].

Fixpoint first_pattern (patterns : list (list pystr)) (url : pystr) : option pystr :=
  match patterns with
  | [] => None
  | pattern :: rest =>
      match search_digits_after pattern url with
      | Some ds => Some ds
      | None => first_pattern rest url
      end
  end.

(** [_extract_page_number_from_url]; [None] when [int] raises
    [ValueError], which nothing in the function catches. *)
Definition _extract_page_number_from_url (url : pystr) : option Z :=
  match first_pattern page_patterns url with
  | Some ds => py_int ds
  | None => Some 1
  end.

(** The double-quote character of the attribute selectors. *)
Definition dq : string := String (ascii_of_nat 34) EmptyString.

Definition quoted (before inside after : string) : string :=
  String.append before (String.append dq (String.append inside (String.append dq after))).

Definition next_indicators : list string :=
  [quoted "a[rel=" "next" "]"; "a.next"; "a.next-page"; ".pagination a.next";
   ".wp-pagenavi a.nextpostslink"; ".woocommerce-pagination a.next";
   ".page-numbers.next"; quoted "a[aria-label*=" "Next" "]";
   quoted "a[title*=" "Next" "]"]%string.

(** The loop of [_has_next_page] over the pagination links: it
    returns at the first link to a later page; [None] when the page
    number of a link read before that makes [int] raise. *)
Fixpoint links_loop (current_page_num : Z) (page_links : list Tag) : option bool :=
  match page_links with
  | [] => Some false
  | link :: rest =>
      match attrs link !! "href" with
      | Some (c :: href) =>
          page_num ← _extract_page_number_from_url (c :: href);
          if negb (page_num =? 0) && (current_page_num <? page_num) then Some true
          else links_loop current_page_num rest
      | _ => links_loop current_page_num rest
      end
  end.

(** [_has_next_page]; [None] when the [ValueError] of [int] leaves
    it. *)
Definition _has_next_page (soup : Soup) (current_url : pystr) : option bool :=
  match first_match (root soup) next_indicators with
  | Some _ => Some true
  | None =>
      let page_links := select (root soup) ".pagination a, .page-numbers a, .wp-pagenavi a" in
      current_page_num ← _extract_page_number_from_url current_url;
      links_loop current_page_num page_links
  end.

End Strategies.

(** ** The world around a run

    A run talks to the web site and, in the progress-tracked entry
    point, to the job table.  What they answer is not decided by the
    scraper: it is the [World] a run is executed in.  What the run did
    to them is recorded, in order, in its log. *)

Inductive strategy : Type := JsonLd | Containers | SinglePage.

(** The four places where [scrape_products_with_progress] commits. *)
Inductive commit_site : Type :=
| PageStarted      (* before the fetch of a page, inside try/except *)
| PageFound        (* after a page's products were added, inside try/except *)
| NoNextPage       (* before the break on a page without a next page *)
| FinalUpdate.     (* after the loop *)

Inductive event : Type :=
| Fetched (page_url : pystr)                 (* session.get(page_url, timeout=30) *)
| Ran (s : strategy) (current_page : Z)      (* a strategy was called on the page *)
| Slept                                      (* time.sleep(1) *)
| Queried (current_page : Z)                 (* ScrapingJob.query.get(job_id) *)
| JobSet (field : string) (v : value)        (* job.field = v *)
| Committed (site : commit_site) (current_page : Z)
| CommitFailed (site : commit_site) (current_page : Z)
| RolledBack
| RollbackFailed.

Inductive exn : Type :=
| RequestException      (* session.get or raise_for_status raised *)
| DatabaseError         (* db.session.commit or rollback raised *)
| ValueError.           (* int() raised in _extract_page_number_from_url *)

Record World : Type := {
  (** the page a GET of the URL returns, parsed; [None] when the
      request times out, fails or answers with an error status *)
  site : pystr -> option Soup;
  (** the status of the row of the run's job as read before the given
      page; [None] when [query.get] finds no row (the query itself is
      taken to succeed) *)
  job_status : Z -> option string;
  (** whether the commit at that place, for that page, raises *)
  commit_raises : commit_site -> Z -> bool;
  (** whether the rollback that follows it raises *)
  rollback_raises : commit_site -> Z -> bool
}.

(** How a piece of the function body ends. *)
Inductive outcome (A : Type) : Type :=
| Normal (a : A)                  (* it ran to its end, with value [a] *)
| Returned (v : list product)     (* a [return v] inside it *)
| Raised (e : exn)                (* an exception left it *)
| Unfinished.                     (* the model ran out of fuel *)
Arguments Normal {A} a.
Arguments Returned {A} v.
Arguments Raised {A} e.
Arguments Unfinished {A}.

(** A computation: it extends the log and ends in an outcome. *)
Definition M (A : Type) : Type := list event -> outcome A * list event.

Definition ret {A} (a : A) : M A := fun log => (Normal a, log).

Definition bind {A B} (m : M A) (k : A -> M B) : M B :=
  fun log =>
    match m log with
    | (Normal a, log') => k a log'
    | (Returned v, log') => (Returned v, log')
    | (Raised e, log') => (Raised e, log')
    | (Unfinished, log') => (Unfinished, log')
    end.

Definition emit (e : event) : M unit := fun log => (Normal tt, log ++ [e]).
Definition raise {A} (e : exn) : M A := fun log => (Raised e, log).
Definition return_ {A} (v : list product) : M A := fun log => (Returned v, log).

(** [try: m except Exception: handler] *)
Definition try_except {A} (m : M A) (handler : exn -> M A) : M A :=
  fun log =>
    match m log with
    | (Raised e, log') => handler e log'
    | r => r
    end.

(** The body of a [def]: a [return v] inside it is how it ends. *)
Definition call (m : M (list product)) : M (list product) :=
  fun log =>
    match m log with
    | (Returned v, log') => (Normal v, log')
    | r => r
    end.

Declare Scope scraper_scope.
Delimit Scope scraper_scope with scraper.
Notation "x <~ m ; k" := (bind m (fun x => k))
  (at level 20, m at level 100, k at level 200, only parsing) : scraper_scope.
Notation "' pat <~ m ; k" := (bind m (fun x => match x with pat => k end))
  (at level 20, pat pattern, m at level 100, k at level 200, only parsing) : scraper_scope.
Notation "m ;; k" := (bind m (fun _ => k))
  (at level 100, k at level 200, only parsing, right associativity) : scraper_scope.

(** How one pass through a loop body ends when no exception or
    [return] ends it: at its last statement or at a [break]. *)
Inductive flow (S : Type) : Type :=
| Next (s : S)
| Break (s : S).
Arguments Next {S} s.
Arguments Break {S} s.

(** [while cond: body], with the variables the loop assigns as its
    state [s]. *)
Fixpoint while_ {S} (fuel : nat) (cond : S -> bool) (body : S -> M (flow S)) (s : S)
  : M S :=
  if cond s then
    match fuel with
    | O => fun log => (Unfinished, log)
    | Datatypes.S fuel' =>
        bind (body s) (fun f =>
          match f with
          | Next s' => while_ fuel' cond body s'
          | Break s' => ret s'
          end)
    end
  else ret s.

(** ** The pagination controller *)

Section Controller.

Variable R : Runtime.
Variable W : World.

Local Open Scope scraper_scope.

Definition max_pages : Z := 10.

(** [session.get(page_url, timeout=30)], [raise_for_status()] and the
    parse of the body. *)
Definition fetch_page (page_url : pystr) : M Soup :=
  emit (Fetched page_url) ;;
  match site W page_url with
  | Some soup => ret soup
  | None => raise RequestException
  end.

(** The strategy selection both entry points carry out on a fetched
    page: the statements from [page_products = []] to the last
    [page_products.append(single_product)]. *)
Definition select_strategies (soup : Soup) (page_url : pystr) (current_page : Z)
  : M (list product) :=
  (* Strategy 1 *)
  emit (Ran JsonLd current_page) ;;
  let json_ld_products := _extract_json_ld_products R soup in
  let page_products1 :=
    match json_ld_products with
    | [] => []
    | _ => json_ld_products
    end in
  (* Strategy 2 *)
  page_products2 <~
    match page_products1 with
    | [] =>
        emit (Ran Containers current_page) ;;
        ret (page_products1 ++ _extract_container_products R soup page_url)
    | _ => ret page_products1
    end ;
  (* Strategy 3 *)
  match page_products2 with
  | [] =>
      if current_page =? 1 then
        emit (Ran SinglePage current_page) ;;
        ret (page_products2 ++ if_product (_extract_single_product R soup page_url))
      else ret page_products2
  | _ => ret page_products2
  end.

(** The call [self._has_next_page(soup, page_url)] in the loops: its
    [ValueError] is raised on. *)
Definition next_page_check (soup : Soup) (page_url : pystr) : M bool :=
  match _has_next_page R soup page_url with
  | Some has_next => ret has_next
  | None => raise ValueError
  end.

(** *** [scrape_products] *)

(** The loop assigns [current_page] and [all_products]. *)
Definition scrape_body (url : pystr) (s : Z * list product)
  : M (flow (Z * list product)) :=
  let '(current_page, all_products) := s in
  let page_url := _build_page_url url current_page in
  soup <~ fetch_page page_url ;
  page_products <~ select_strategies soup page_url current_page ;
  match page_products with
  | [] => ret (Break (current_page, all_products))
  | _ =>
      let all_products := all_products ++ page_products in
      has_next <~ next_page_check soup page_url ;
      if negb has_next then
        ret (Break (current_page, all_products))
      else
        emit Slept ;;
        ret (Next (current_page + 1, all_products))
  end.

(** [current_page <= max_pages] *)
Definition scrape_cond (s : Z * list product) : bool := fst s <=? max_pages.

Definition scrape_loop (fuel : nat) (url : pystr) : Z * list product -> M (Z * list product) :=
  while_ fuel scrape_cond (scrape_body url).

(** [scrape_products], run with [fuel] for its loop.  The handler of
    its [try] logs and re-raises. *)
Definition scrape_products_fuel (fuel : nat) (url : pystr) : M (list product) :=
  call (' (_, all_products) <~ scrape_loop fuel url (1, []) ;
        ret all_products).

(** *** [scrape_products_with_progress] *)

Definition stops_run (status : string) : bool :=
  bool_decide (status = "cancelled"%string) || bool_decide (status = "paused"%string).

(** [db.session.commit()] *)
Definition commit (s : commit_site) (current_page : Z) : M unit :=
  if commit_raises W s current_page then
    emit (CommitFailed s current_page) ;; raise DatabaseError
  else emit (Committed s current_page).

(** [db.session.rollback()] in the handler of a failed commit. *)
Definition rollback (s : commit_site) (current_page : Z) : M unit :=
  if rollback_raises W s current_page then
    emit RollbackFailed ;; raise DatabaseError
  else emit RolledBack.

(** [try: db.session.commit() except Exception: db.session.rollback()] *)
Definition guarded_commit (s : commit_site) (current_page : Z) : M unit :=
  try_except (commit s current_page) (fun _ => rollback s current_page).

Definition nat_value (n : nat) : value := VInt (Z.of_nat n).

(** The loop assigns [current_page], [all_products] and [job]; [job]
    is kept as the status read from the row, [None] for no row. *)
Definition progress_state : Type := Z * list product * option string.

Definition progress_body (url : pystr) (s : progress_state) : M (flow progress_state) :=
  let '(current_page, all_products, _) := s in
  (* the check for cancelled/paused before each page *)
  emit (Queried current_page) ;;
  let job := job_status W current_page in
  match job with
  | Some status => if stops_run status then return_ all_products else ret tt
  | None => ret tt
  end ;;
  match job with
  | Some _ =>
      emit (JobSet "current_page" (VInt current_page)) ;;
      emit (JobSet "step_detail"
              (VStr (u "Scraping page " ++ str_of_int current_page ++ u " of website..."))) ;;
      guarded_commit PageStarted current_page
  | None => ret tt
  end ;;
  let page_url := _build_page_url url current_page in
  soup <~ fetch_page page_url ;
  page_products <~ select_strategies soup page_url current_page ;
  match page_products with
  | [] => ret (Break (current_page, all_products, job))
  | _ =>
      let all_products := all_products ++ page_products in
      match job with
      | Some _ =>
          emit (JobSet "total_products_found" (nat_value (length all_products))) ;;
          emit (JobSet "step_detail"
                  (VStr (u "Found " ++ str_of_int (Z.of_nat (length all_products))
                         ++ u " products so far (page " ++ str_of_int current_page ++ u ")"))) ;;
          guarded_commit PageFound current_page
      | None => ret tt
      end ;;
      has_next <~ next_page_check soup page_url ;
      if negb has_next then
        match job with
        | Some _ =>
            emit (JobSet "total_pages" (VInt current_page)) ;;
            commit NoNextPage current_page
        | None => ret tt
        end ;;
        ret (Break (current_page, all_products, job))
      else
        emit Slept ;;
        ret (Next (current_page + 1, all_products, job))
  end.

(** [current_page <= max_pages] *)
Definition progress_cond (s : progress_state) : bool := fst (fst s) <=? max_pages.

Definition progress_loop (fuel : nat) (url : pystr) : progress_state -> M progress_state :=
  while_ fuel progress_cond (progress_body url).

(** The statements after the loop. *)
Definition final_update (s : progress_state) : M (list product) :=
  let '(current_page, all_products, job) := s in
  match job with
  | Some _ =>
      emit (JobSet "total_pages" (VInt current_page)) ;;
      emit (JobSet "total_products_found" (nat_value (length all_products))) ;;
      emit (JobSet "step_detail"
              (VStr (u "Scraping complete: " ++ str_of_int (Z.of_nat (length all_products))
                     ++ u " products found across " ++ str_of_int current_page ++ u " pages"))) ;;
      commit FinalUpdate current_page
  | None => ret tt
  end ;;
  ret all_products.

(** [scrape_products_with_progress], run with [fuel] for its loop.
    [job] is unbound until the first pass through the loop assigns it;
    the loop always makes that pass, and [None] stands for it before. *)
Definition scrape_products_with_progress_fuel (fuel : nat) (url : pystr)
  : M (list product) :=
  call (s <~ progress_loop fuel url (1, [], None) ;
        final_update s).

End Controller.

(** Ten passes through the loop body are the most a run makes. *)
Definition loop_fuel : nat := 10.

Definition scrape_products (R : Runtime) (W : World) (url : pystr)
  : outcome (list product) * list event :=
  scrape_products_fuel R W loop_fuel url [].

Definition scrape_products_with_progress (R : Runtime) (W : World) (url : pystr)
  : outcome (list product) * list event :=
  scrape_products_with_progress_fuel R W loop_fuel url [].

(** ** Sample data

    A runtime and pages on which the model is run in the examples. *)

(** A runtime whose Nd table holds, besides the ASCII digits, the
    Arabic-Indic digits U+0660..U+0669, and whose [urljoin] resolves a
    reference by keeping it (as it does for an absolute URL).  No
    example reads a rating or takes [str] of a compound value, and
    [float_of_str] and [str_of_compound] are constant here. *)
Definition sample_runtime : Runtime := {|
  unicode_nd := fun c => ((1632 <=? c) && (c <=? 1641))%N;
  unicode_digit_value := fun c => Z.of_N c - 1632;
  float_of_str := fun _ => FloatFinite 0 0;
  str_of_compound := fun _ => u "<object>";
  urljoin := fun _ ref => Some ref
|}.

(** [drop_slash] removes one trailing slash: the base URL as the
    path-style page URL continues it. *)
Definition drop_slash (base_url : pystr) : pystr :=
  if endswith_char base_url 47 then removelast base_url else base_url.

(** No member of Nd is white space. *)
Definition nd_not_space (R : Runtime) : Prop :=
  forall c, py_isspace c = true -> unicode_nd R c = false.

Definition str (s : string) : value := VStr (u s).

Definition dict (items : list (string * value)) : value :=
  VDict (list_to_map items).

(** A tag with text only. *)
Definition text_tag (s : string) : Tag :=
  {| text_stripped := u s; attrs := ∅; matches := ∅ |}.

Definition empty_tag : Tag := text_tag "".

(** [{"@type": "Product", "name": "Widget", "offers": {"price": "9.99",
    "priceCurrency": "USD"}, "image": "https://x/img.png"}] *)
Definition widget_ld : value :=
  dict [("@type", str "Product"); ("name", str "Widget");
        ("offers", dict [("price", str "9.99"); ("priceCurrency", str "USD")]);
        ("image", str "https://x/img.png")]%string.

(** [{"@type": "Product", "name": "Widget"}] *)
Definition bare_ld : value :=
  dict [("@type", str "Product"); ("name", str "Widget")]%string.

(** [{"@type": "Product", "sku": "A-1"}]: a product without a name. *)
Definition nameless_ld : value :=
  dict [("@type", str "Product"); ("sku", str "A-1")]%string.

(** A page whose only content is the given JSON-LD script elements. *)
Definition ld_page (scripts : list Script) : Soup :=
  {| ld_json_scripts := scripts; root := empty_tag |}.

(** A product tile: a heading and a price. *)
Definition tile (title price : string) : Tag :=
  {| text_stripped := u title;
     attrs := ∅;
     matches := list_to_map [("h2", [text_tag title]); (".price", [text_tag price])]%string |}.

(** A listing page of tiles matched by [.product], with or without a
    [a.next] link. *)
Definition listing_page (tiles : list Tag) (has_next : bool) : Soup :=
  {| ld_json_scripts := [];
     root := {| text_stripped := [];
                attrs := ∅;
                matches := list_to_map
                  ((".product", tiles) ::
                   if has_next then [("a.next", [text_tag "Next"])] else [])%string |} |}.

(** A product detail page: a [h1] title and a [.sku] element. *)
Definition detail_page (title sku : string) : Soup :=
  {| ld_json_scripts := [];
     root := {| text_stripped := [];
                attrs := ∅;
                matches := list_to_map
                  [("h1", [text_tag title]); (".sku, [data-sku]", [text_tag sku])]%string |} |}.

(** The keys of the records of each strategy. *)
Definition container_keys : gset string :=
  list_to_set ["title"; "description"; "price"; "original_price"; "brand"; "category";
               "image_urls"; "main_image_url"; "rating"; "review_count"]%string.

Definition single_keys : gset string := {["sku"%string]} ∪ container_keys.

Definition ld_base_keys : gset string :=
  list_to_set ["title"; "description"; "brand"; "sku"; "image_urls"]%string.

(** A record with a non-empty title. *)
Definition titled (p : product) : Prop :=
  exists t, p !! "title" = Some (VStr t) /\ t <> [].

(** The fields of [ld_base] that no later stage assigns, and the
    presence of [image_urls]. *)
Definition ld_fixed (R : Runtime) (d : gmap string value) (p : product) : Prop :=
  p !! "title" = Some (dict_get d "name" (VStr [])) /\
  p !! "description" = Some (dict_get d "description" (VStr [])) /\
  p !! "sku" = Some (dict_get d "sku" (VStr [])) /\
  p !! "brand" = Some (ld_brand R d) /\
  is_Some (p !! "image_urls").

(** The record of [widget_ld]. *)
Definition widget_record : product :=
  list_to_map [("title", str "Widget"); ("description", str ""); ("brand", str "");
               ("sku", str ""); ("image_urls", VList [str "https://x/img.png"]);
               ("price", str "9.99"); ("currency", str "USD"); ("availability", str "");
               ("main_image_url", str "https://x/img.png")]%string.

(** The record of [bare_ld]. *)
Definition bare_record : product :=
  list_to_map [("title", str "Widget"); ("description", str ""); ("brand", str "");
               ("sku", str ""); ("image_urls", VList [])]%string.

(** The record of [nameless_ld]. *)
Definition nameless_record : product :=
  list_to_map [("title", str ""); ("description", str ""); ("brand", str "");
               ("sku", str "A-1"); ("image_urls", VList [])]%string.

(** ** Reading a run *)

(** The page URLs a log shows as fetched, in order. *)
Fixpoint fetches (log : list event) : list pystr :=
  match log with
  | [] => []
  | Fetched page_url :: log' => page_url :: fetches log'
  | _ :: log' => fetches log'
  end.

(** The strategies a log shows as called on a page, in order. *)
Fixpoint strategies_of (log : list event) : list strategy :=
  match log with
  | [] => []
  | Ran s _ :: log' => s :: strategies_of log'
  | _ :: log' => strategies_of log'
  end.

(** The products [select_strategies] ends with, and the strategies it
    calls to get them. *)
Definition page_products (R : Runtime) (soup : Soup) (page_url : pystr) (current_page : Z)
  : list product :=
  match _extract_json_ld_products R soup with
  | [] =>
      match _extract_container_products R soup page_url with
      | [] =>
          if current_page =? 1
          then if_product (_extract_single_product R soup page_url)
          else []
      | container_products => container_products
      end
  | json_ld_products => json_ld_products
  end.

Definition strategies_run (R : Runtime) (soup : Soup) (page_url : pystr) (current_page : Z)
  : list strategy :=
  JsonLd ::
  match _extract_json_ld_products R soup with
  | [] =>
      Containers ::
      match _extract_container_products R soup page_url with
      | [] => if current_page =? 1 then [SinglePage] else []
      | _ => []
      end
  | _ => []
  end.

(** The run is at the top of its loop, about to test the condition,
    after [k] complete passes through the body: from state and log
    [(s0, l0)] it has come to [(s, l)]. *)
Inductive reaches {S : Type} (cond : S -> bool) (body : S -> M (flow S))
  : nat -> S * list event -> S * list event -> Prop :=
| reaches_start s l : reaches cond body 0 (s, l) (s, l)
| reaches_pass k s0 l0 s l s' l' :
    reaches cond body k (s0, l0) (s, l) ->
    cond s = true ->
    body s l = (Normal (Next s'), l') ->
    reaches cond body (Datatypes.S k) (s0, l0) (s', l').

(** The pages [1 .. p - 1]. *)
Definition pages_before (p : Z) : list Z :=
  List.map Z.of_nat (seq 1 (Z.to_nat (p - 1))).

(** The products of page [k] of the site, as [select_strategies]
    finds them. *)
Definition products_of_page (R : Runtime) (W : World) (url : pystr) (k : Z) : list product :=
  match site W (_build_page_url url k) with
  | Some soup => page_products R soup (_build_page_url url k) k
  | None => []
  end.

(** The events of one page: the fetch and the strategies called. *)
Definition page_events (R : Runtime) (soup : Soup) (url : pystr) (p : Z) : list event :=
  Fetched (_build_page_url url p) ::
  List.map (fun s => Ran s p) (strategies_run R soup (_build_page_url url p) p).

(** Where a run of [scrape_products] stands after [k] passes: at page
    [k + 1], having fetched the pages before it, each once and in
    order, and holding their products. *)
Definition scrape_inv (R : Runtime) (W : World) (url : pystr) (k : nat)
  (here : Z * list product * list event) : Prop :=
  let '(p, all_products, log) := here in
  p = Z.of_nat k + 1 /\ p <= max_pages + 1 /\
  fetches log = List.map (_build_page_url url) (pages_before p) /\
  all_products = flat_map (products_of_page R W url) (pages_before p).

(** A site with the given pages and nothing else. *)
Fixpoint site_of (pages : list (pystr * Soup)) (page_url : pystr) : option Soup :=
  match pages with
  | [] => None
  | (page_url', soup) :: rest =>
      if pystr_eqb page_url page_url' then Some soup else site_of rest page_url
  end.

(** A world without a job row, in which every commit would succeed. *)
Definition standalone (pages : list (pystr * Soup)) : World := {|
  site := site_of pages;
  job_status := fun _ => None;
  commit_raises := fun _ _ => false;
  rollback_raises := fun _ _ => false
|}.

Definition sample_url : pystr := u "https://shop.example/cat".

(** Page 1 lists two products and links to a next page; page 2 lists
    none and links to a next page all the same. *)
Definition first_listing : Soup := listing_page [tile "Lamp" "12.50"; tile "Desk" "80"] true.
Definition empty_listing : Soup := listing_page [] true.

Definition two_page_world : World :=
  standalone [(sample_url, first_listing);
              (_build_page_url sample_url 2, empty_listing)].

(** Where a run of [scrape_products_with_progress] stands after [k]
    passes. *)
Definition progress_inv (R : Runtime) (W : World) (url : pystr) (k : nat)
  (here : progress_state * list event) : Prop :=
  let '(p, all_products, _, log) := here in
  p = Z.of_nat k + 1 /\ p <= max_pages + 1 /\
  fetches log = List.map (_build_page_url url) (pages_before p) /\
  all_products = flat_map (products_of_page R W url) (pages_before p).

(** A loop body that, whenever it ends at its last statement, has
    moved to the next page, and that fetches at most once. *)
Definition paced {S : Type} (page : S -> Z) (body : S -> M (flow S)) : Prop :=
  forall s log,
    match body s log with
    | (Normal (Next s'), log') =>
        page s' = page s + 1 /\ (length (fetches log') <= length (fetches log) + 1)%nat
    | (Unfinished, _) => False
    | (_, log') => (length (fetches log') <= length (fetches log) + 1)%nat
    end.

(** [current_page] in the state of the progress-tracked loop. *)
Definition progress_page (s : progress_state) : Z := fst (fst s).

(** The passes a loop at page [p] can still make. *)
Definition passes_left (p : Z) : nat := Z.to_nat (max_pages + 1 - p).

(** A site every page of which lists the same two products and links
    to a next page. *)
Definition endless_world : World := {|
  site := fun _ => Some first_listing;
  job_status := fun _ => None;
  commit_raises := fun _ _ => false;
  rollback_raises := fun _ _ => false
|}.

(** A site that always offers a next page, scraped for a running job
    whose commit in the final update raises. *)
Definition capped_job_world : World := {|
  site := fun _ => Some first_listing;
  job_status := fun _ => Some "running"%string;
  commit_raises := fun s _ => match s with FinalUpdate => true | _ => false end;
  rollback_raises := fun _ _ => false
|}.

(** A job that runs while page 1 is scraped and is found cancelled
    before page 2. *)
Definition cancelled_world : World := {|
  site := fun _ => Some first_listing;
  job_status := fun p => if p =? 1 then Some "running"%string else Some "cancelled"%string;
  commit_raises := fun _ _ => false;
  rollback_raises := fun _ _ => false
|}.

(** A one-page shop: a JSON-LD product and no link to a next page. *)
Definition widget_page : Soup := ld_page [ScriptJson widget_ld].

(** A running job whose commits raise at the given places only. *)
Definition failing_commits (fails : commit_site -> bool) : World := {|
  site := fun _ => Some widget_page;
  job_status := fun _ => Some "running"%string;
  commit_raises := fun s _ => fails s;
  rollback_raises := fun _ _ => false
|}.

Definition no_next_commit_fails : World :=
  failing_commits (fun s => match s with NoNextPage => true | _ => false end).

Definition final_commit_fails : World :=
  failing_commits (fun s => match s with FinalUpdate => true | _ => false end).

Definition guarded_commits_fail : World :=
  failing_commits (fun s => match s with PageStarted | PageFound => true | _ => false end).

(** A one-page shop whose JSON-LD product has no name. *)
Definition nameless_world : World :=
  standalone [(sample_url, ld_page [ScriptJson nameless_ld])].

(** [for selector in selectors: elements = t.select(selector); if
    elements: ...; break]: the elements the first selector that
    matches anything finds. *)
Fixpoint first_selected (t : Tag) (selectors : list string) : list Tag :=
  match selectors with
  | [] => []
  | selector :: rest =>
      match select t selector with
      | [] => first_selected t rest
      | elements => elements
      end
  end.

(** ** More sample pages *)

(** An [img] element with a [src]. *)
Definition img_tag (src : string) : Tag :=
  {| text_stripped := []; attrs := {[ "src"%string := u src ]}; matches := ∅ |}.

(** A product detail page with a long description and a gallery of
    seven images. *)
Definition gallery_page : Soup :=
  {| ld_json_scripts := [];
     root := {| text_stripped := [];
                attrs := ∅;
                matches := list_to_map
                  [("h1", [text_tag "Lamp"]);
                   (".product-description",
                    [{| text_stripped := repeat 120%N 1500; attrs := ∅; matches := ∅ |}]);
                   (".product-gallery img",
                    [img_tag "https://x/1.png"; img_tag "https://x/2.png";
                     img_tag "https://x/3.png"; img_tag "https://x/4.png";
                     img_tag "https://x/5.png"; img_tag "https://x/6.png";
                     img_tag "https://x/7.png"])]%string |} |}.

(** A value that is a [str]. *)
Definition is_str (v : value) : Prop := exists s, v = VStr s.

(** An [offers] value [_parse_json_ld_product] can read: one that is
    false (and skipped), a [dict], or a list whose first item is a
    [dict]. *)
Definition readable_offers (offers : value) : Prop :=
  truthy offers = false \/
  (exists o, offers = VDict o) \/
  (exists o rest, offers = VList (VDict o :: rest)).

(** An [aggregateRating] value it can read: a false one or a [dict]. *)
Definition readable_rating (rating_data : value) : Prop :=
  truthy rating_data = false \/ exists r, rating_data = VDict r.

(** A script element at which the loop of [_extract_json_ld_products]
    goes on: [json.loads] returns, or raises [JSONDecodeError]. *)
Definition loads_or_rejects (script : Script) : Prop :=
  match script with
  | ScriptJson _ | ScriptMalformed => True
  | ScriptNoString | ScriptOtherError => False
  end.

(** The fields of [widget_ld] and of its offers. *)
Definition widget_offers : gmap string value :=
  list_to_map [("price", str "9.99"); ("priceCurrency", str "USD")]%string.

Definition widget_fields : gmap string value :=
  list_to_map [("@type", str "Product"); ("name", str "Widget");
               ("offers", VDict widget_offers);
               ("image", str "https://x/img.png")]%string.

(** [{"@type": "Product", "name": "Widget", "offers": "N/A"}]: offers
    that are a string. *)
Definition string_offers_ld : value :=
  dict [("@type", str "Product"); ("name", str "Widget"); ("offers", str "N/A")]%string.

(** ** Substrings *)

(** [s.startswith(prefix)] *)
Definition startswith (s prefix : pystr) : bool :=
  match strip_prefix prefix s with
  | Some _ => true
  | None => false
  end.

(** [needle in hay] for two strings. *)
Fixpoint contains (needle hay : pystr) : bool :=
  startswith hay needle ||
  match hay with
  | [] => false
  | _ :: hay' => contains needle hay'
  end.

(** A string that does not start with one of the letters of [page]. *)
Definition head_clear (s : pystr) : bool :=
  match s with
  | [] => true
  | c :: _ => negb (existsb (N.eqb c) (u "page"))
  end.

(** A literal prefix of the page-number patterns: one character, then
    [page]. *)
Definition page_prefix (prefix : pystr) : Prop :=
  exists c tail, prefix = c :: u "page" ++ tail.


(** A listing page of one tile whose pagination links point to the
    pages 1, 2 and 3 of [sample_url]. *)
Definition link_to (href : pystr) : Tag :=
  {| text_stripped := []; attrs := {[ "href"%string := href ]}; matches := ∅ |}.

Definition paginated_links : list Tag :=
  [link_to (_build_page_url sample_url 1); link_to (_build_page_url sample_url 2);
   link_to (_build_page_url sample_url 3)].

Definition paginated_page : Soup :=
  {| ld_json_scripts := [];
     root := {| text_stripped := [];
                attrs := ∅;
                matches := list_to_map
                  [(".product", [tile "Lamp" "12.50"]);
                   (".pagination a, .page-numbers a, .wp-pagenavi a", paginated_links)]%string |} |}.

(** ** Page numbers [int] reads *)

(** A page number whose decimal text [int] reads back: one of at most
    [int_max_str_digits] digits.  These are the page numbers for which
    the interpreter formats a URL at all. *)
Definition int_readable (n : Z) : bool :=
  Z.of_nat (length (str_of_int n)) <=? int_max_str_digits.

(** A pagination link whose page number has 4301 digits, a listing
    page of one tile with that link, and the shop that serves it as its
    first page. *)
Definition long_link : Tag := link_to (u "/page/" ++ repeat 57%N 4301).

Definition long_link_page : Soup :=
  {| ld_json_scripts := [];
     root := {| text_stripped := [];
                attrs := ∅;
                matches := list_to_map
                  [(".product", [tile "Lamp" "12.50"]);
                   (".pagination a, .page-numbers a, .wp-pagenavi a",
                    [long_link])]%string |} |}.

Definition long_link_world : World := standalone [(sample_url, long_link_page)].

(** ** Where a run stops *)

(** Page [p] ends the run: its fetch fails, it has no product, it
    shows no next page, or the check for a next page raises. *)
Definition stops_at (R : Runtime) (W : World) (url : pystr) (p : Z) : bool :=
  match site W (_build_page_url url p) with
  | None => true
  | Some soup =>
      match page_products R soup (_build_page_url url p) p with
      | [] => true
      | _ =>
          match _has_next_page R soup (_build_page_url url p) with
          | Some true => false
          | _ => true
          end
      end
  end.

(** Page [q] is the first page that ends the run, or page 10 when no
    page before it does. *)
Definition last_page (R : Runtime) (W : World) (url : pystr) (q : Z) : Prop :=
  1 <= q <= max_pages /\
  (forall k, 1 <= k < q -> stops_at R W url k = false) /\
  (q = max_pages \/ stops_at R W url q = true).

(** ** What the progress tracking adds to a run *)

(** The events both entry points share: fetches, strategy calls and
    sleeps. *)
Definition page_event (e : event) : bool :=
  match e with
  | Fetched _ | Ran _ _ | Slept => true
  | _ => false
  end.

Definition page_trace (log : list event) : list event := List.filter page_event log.

(** A job that is never found cancelled or paused, whose rollbacks
    after a failed guarded commit succeed and whose two unguarded
    commits succeed.  The guarded commits may fail. *)
Definition undisturbed (W : World) : Prop :=
  (forall p status, job_status W p = Some status -> stops_run status = false) /\
  (forall p, rollback_raises W PageStarted p = false) /\
  (forall p, rollback_raises W PageFound p = false) /\
  (forall p, commit_raises W NoNextPage p = false) /\
  (forall p, commit_raises W FinalUpdate p = false).

Definition flow_map {A B : Type} (f : A -> B) (x : flow A) : flow B :=
  match x with
  | Next s => Next (f s)
  | Break s => Break (f s)
  end.

(** A result of the progress-tracked code with the job and its events
    left out. *)
Definition page_view {A B : Type} (f : A -> B) (r : outcome A * list event)
  : outcome B * list event :=
  (match fst r with
   | Normal a => Normal (f a)
   | Returned v => Returned v
   | Raised e => Raised e
   | Unfinished => Unfinished
   end, page_trace (snd r)).

(** * The AI enhancer: [ai_enhancer.py]

    The chat completions are the answers of a service outside the
    repository.  Each method reads one answer, for the user message it
    sends; an answer is [None] when the call, or what the method does
    first with its result, raises. *)

Record Client : Type := {
  (** [response.choices[0].message.content] in [_generate_summary] *)
  summary_reply : pystr -> option pystr;
  (** the same in [_normalize_brand] *)
  brand_reply : pystr -> option pystr;
  (** the same in [_normalize_category] *)
  category_reply : pystr -> option pystr;
  (** [json.loads(response.choices[0].message.content)] in
      [_generate_seo_tags] *)
  tags_reply : pystr -> option value
}.

Section Enhancer.

Variable R : Runtime.
Variable C : Client.
(** [str.lower] *)
Variable lower : pystr -> pystr.
(** [json.dumps], on the values of a scraped record *)
Variable json_dumps : value -> pystr.

(** [_generate_summary]; [None] when an exception leaves it, which
    [len(description)] in its handler raises for a description that is
    a number, and [description[:200] + "..."] for a long list or
    dict. *)
Definition _generate_summary (description : value) : option value :=
  match description with
  | VStr s =>
      if bool_decide (s = []) || (length (strip s) <? 50)%nat then Some description
      else
        match summary_reply C (u "Summarize this product description: " ++ take 1000 s) with
        | Some content => Some (VStr (strip content))
        | None => Some (VStr (if (200 <? length s)%nat then take 200 s ++ u "..." else s))
        end
  | _ =>
      if negb (truthy description) then Some description
      else
        (* [description.strip()] raises; the handler runs *)
        match description with
        | VList l => if (200 <? length l)%nat then None else Some description
        | VDict d => if (200 <? size d)%nat then None else Some description
        | _ => None
        end
  end.

(** [normalized if normalized else dflt] on a reply. *)
Definition normalized_or (dflt : value) (reply : option pystr) : value :=
  match reply with
  | Some content =>
      match strip content with
      | [] => dflt
      | normalized => VStr normalized
      end
  | None => dflt
  end.

Definition _normalize_brand (brand : value) : value :=
  match brand with
  | VStr s =>
      if bool_decide (s = []) || (length (strip s) <? 2)%nat then brand
      else normalized_or brand (brand_reply C (u "Normalize this brand name: " ++ s))
  | _ => brand          (* returned when false; [brand.strip()] raises otherwise *)
  end.

Definition _normalize_category (category title : value) : value :=
  let context :=
    if truthy category
    then u "Category: " ++ py_str R category ++ u ", Title: " ++ py_str R title
    else u "Title: " ++ py_str R title in
  normalized_or category (category_reply C context).

(** [v[:n]]; [None] when [v] cannot be sliced. *)
Definition py_slice (n : nat) (v : value) : option value :=
  match v with
  | VStr s => Some (VStr (take n s))
  | VList l => Some (VList (take n l))
  | _ => None
  end.

(** [isinstance(tag, str)] *)
Definition isinstance_str (v : value) : bool :=
  match v with
  | VStr _ => true
  | _ => false
  end.

Definition newline : pystr := [10%N].

Definition _generate_seo_tags (product_data : product) : list value :=
  match
    description ← py_slice 500 (dict_get product_data "description" (VStr []));
    let context :=
      u "Product: " ++ py_str R (dict_get product_data "title" (VStr [])) ++ newline ++
      u "Brand: " ++ py_str R (dict_get product_data "brand" (VStr [])) ++ newline ++
      u "Category: " ++ py_str R (dict_get product_data "category" (VStr [])) ++ newline ++
      u "Description: " ++ py_str R description in
    result ← tags_reply C context;
    result ← as_dict result;
    Some (dict_get result "tags" (VList []))
  with
  | Some (VList tags) => if forallb isinstance_str tags then take 8 tags else []
  | Some _ => []
  | None => []          (* the handler of the [try] *)
  end.

(** [v.lower()]; [None] when [v] is no [str] and the call raises. *)
Definition py_lower (v : value) : option pystr :=
  match v with
  | VStr s => Some (lower s)
  | _ => None
  end.

Definition variable_keywords : list pystr :=
  [u "size"; u "color"; u "variant"; u "option"; u "select"].
Definition grouped_keywords : list pystr :=
  [u "bundle"; u "set"; u "pack"; u "collection"; u "kit"].

(** [any(keyword in text for keyword in keywords)] *)
Definition any_keyword (keywords : list pystr) (text : pystr) : bool :=
  existsb (fun keyword => contains keyword text) keywords.

Definition _determine_woocommerce_type (product_data : product) : pystr :=
  match
    title ← py_lower (dict_get product_data "title" (VStr []));
    description ← py_lower (dict_get product_data "description" (VStr []));
    Some (title ++ u " " ++ description)
  with
  | Some text_to_check =>
      if any_keyword grouped_keywords text_to_check then u "grouped"
      else if any_keyword variable_keywords text_to_check then u "variable"
      else u "simple"
  | None => u "simple"  (* the handler of the [try] *)
  end.

(** The handler of [enhance_product]: it writes to [product_data]
    itself. *)
Definition enhance_fallback (product_data : product) : product :=
  let product_data := <["ai_summary" := VStr []]> product_data in
  let product_data := <["ai_tags" := VList []]> product_data in
  let product_data := <["ai_tags_json" := VStr (u "[]")]> product_data in
  let product_data :=
    <["ai_normalized_brand" := dict_get product_data "brand" (VStr [])]> product_data in
  let product_data :=
    <["ai_normalized_category" := dict_get product_data "category" (VStr [])]> product_data in
  let product_data := <["ai_woocommerce_type" := VStr (u "simple")]> product_data in
  <["image_urls_json" :=
      VStr (json_dumps (dict_get product_data "image_urls" (VList [])))]> product_data.

Definition enhance_product (product_data : product) : product :=
  let enhanced_data := product_data in               (* product_data.copy() *)
  match
    (if truthy (dict_get product_data "description" VNone) then
       summary ← _generate_summary (dict_get product_data "description" VNone);
       Some (<["ai_summary" := summary]> enhanced_data)
     else Some enhanced_data)
  with
  | Some enhanced_data =>
      let enhanced_data :=
        <["ai_normalized_brand" :=
            _normalize_brand (dict_get product_data "brand" (VStr []))]> enhanced_data in
      let enhanced_data :=
        <["ai_normalized_category" :=
            _normalize_category (dict_get product_data "category" (VStr []))
              (dict_get product_data "title" (VStr []))]> enhanced_data in
      let enhanced_data :=
        <["ai_tags" := VList (_generate_seo_tags product_data)]> enhanced_data in
      let enhanced_data :=
        <["ai_tags_json" :=
            VStr (json_dumps (dict_get enhanced_data "ai_tags" VNone))]> enhanced_data in
      let enhanced_data :=
        <["ai_woocommerce_type" :=
            VStr (_determine_woocommerce_type product_data)]> enhanced_data in
      if truthy (dict_get product_data "image_urls" VNone) then
        <["image_urls_json" :=
            VStr (json_dumps (dict_get product_data "image_urls" VNone))]> enhanced_data
      else <["image_urls_json" := VStr (json_dumps (VList []))]> enhanced_data
  | None => enhance_fallback product_data
  end.

End Enhancer.

(** The keys [enhance_product] writes. *)
Definition ai_keys : list string :=
  ["ai_summary"; "ai_normalized_brand"; "ai_normalized_category"; "ai_tags";
   "ai_tags_json"; "ai_woocommerce_type"; "image_urls_json"]%string.

(** A service that never answers, and one that answers every request
    for tags with ten tags. *)
Definition silent_client : Client := {|
  summary_reply := fun _ => None;
  brand_reply := fun _ => None;
  category_reply := fun _ => None;
  tags_reply := fun _ => None
|}.

Definition ten_tags : list value :=
  List.map (fun n => VStr (u "tag" ++ str_of_int (Z.of_nat n))) (seq 1 10).

Definition talkative_client : Client := {|
  summary_reply := fun _ => Some (u " A fine thing. ");
  brand_reply := fun _ => Some (u "Acme");
  category_reply := fun _ => Some (u "Home & Garden");
  tags_reply := fun _ => Some (VDict {[ "tags"%string := VList ten_tags ]})
|}.

(** [str.lower] on ASCII text. *)
Definition ascii_lower (s : pystr) : pystr :=
  List.map (fun c => if ((65 <=? c) && (c <=? 90))%N then (c + 32)%N else c) s.

Definition sample_dumps (v : value) : pystr := u "[]".

(** * Job control: [routes.py]

    The three endpoints read the row of the job and write its status.
    A row is kept as its status, [None] when no row has the id; an
    answer is its HTTP status.  [get_or_404] aborts with [NotFound],
    which the handler of the [try] catches as any exception.  A commit
    that raises leaves the row as it was. *)

Definition pause_job (commit_raises : bool) (row : option string) : Z * option string :=
  match row with
  | None => (500, None)
  | Some status =>
      if String.eqb status "running" then
        if commit_raises then (500, row) else (200, Some "paused"%string)
      else (400, row)
  end.

Definition resume_job (commit_raises : bool) (row : option string) : Z * option string :=
  match row with
  | None => (500, None)
  | Some status =>
      if String.eqb status "paused" then
        if commit_raises then (500, row) else (200, Some "running"%string)
      else (400, row)
  end.

Definition cancel_job (commit_raises : bool) (row : option string) : Z * option string :=
  match row with
  | None => (500, None)
  | Some status =>
      if existsb (String.eqb status) ["running"; "paused"; "pending"]%string then
        if commit_raises then (500, row) else (200, Some "cancelled"%string)
      else (400, row)
  end.

Inductive endpoint : Type := Pause | Resume | Cancel.

Definition serve (e : endpoint) : bool -> option string -> Z * option string :=
  match e with
  | Pause => pause_job
  | Resume => resume_job
  | Cancel => cancel_job
  end.

(** Requests served one after the other, each with whether its commit
    raises; the background job does not write in between. *)
Fixpoint serve_all (requests : list (endpoint * bool)) (row : option string)
  : list Z * option string :=
  match requests with
  | [] => ([], row)
  | (e, commit_raises) :: rest =>
      let '(code, row') := serve e commit_raises row in
      let '(codes, row'') := serve_all rest row' in
      (code :: codes, row'')
  end.

(** * The CSV export: [export_utils.py] *)

(** [sep.join(parts)] *)
Fixpoint join (sep : pystr) (parts : list pystr) : pystr :=
  match parts with
  | [] => []
  | [part] => part
  | part :: rest => part ++ sep ++ join sep rest
  end.

Section ExportUtils.

Variable R : Runtime.
(** [json.dumps], on the values of an exported record *)
Variable json_dumps : value -> pystr.

(** The value [_flatten_product_data] stores for a value. *)
Definition flattened_value (v : value) : value :=
  match v with
  | VList l => VStr (join (u ", ") (List.map (py_str R) l))
  | VDict _ => VStr (json_dumps v)
  | _ => v
  end.

Definition _flatten_product_data (p : product) : product := flattened_value <$> p.

End ExportUtils.

(** A value that is neither a list nor a dict. *)
Definition scalar (v : value) : bool :=
  match v with
  | VList _ | VDict _ => false
  | _ => true
  end.

(** * Properties *)

(** ** Strings *)

Lemma lstrip_app_keep (s : pystr) (c : N) :
  py_isspace c = false -> lstrip (s ++ [c]) = lstrip s ++ [c].
Proof.
  intros Hc. induction s as [|d s IH]; simpl.
  - now rewrite Hc.
  - destruct (py_isspace d); [exact IH | reflexivity].
Qed.

Lemma rstrip_cons_keep (s : pystr) (c : N) :
  py_isspace c = false -> rstrip (c :: s) = c :: rstrip s.
Proof.
  intros Hc. unfold rstrip. simpl.
  rewrite lstrip_app_keep by exact Hc.
  rewrite rev_app_distr. reflexivity.
Qed.

Lemma lstrip_cases (s : pystr) :
  lstrip s = [] \/ exists c t, lstrip s = c :: t /\ py_isspace c = false.
Proof.
  induction s as [|d s IH]; simpl; [now left|].
  destruct (py_isspace d) eqn:Hd; [exact IH|].
  right. exists d, s. split; [reflexivity | exact Hd].
Qed.

Lemma lstrip_idem (s : pystr) : lstrip (lstrip s) = lstrip s.
Proof.
  destruct (lstrip_cases s) as [H | (c & t & H & Hc)]; rewrite H; simpl.
  - reflexivity.
  - now rewrite Hc.
Qed.

Lemma rstrip_idem (s : pystr) : rstrip (rstrip s) = rstrip s.
Proof.
  unfold rstrip. rewrite rev_involutive, lstrip_idem. reflexivity.
Qed.

Lemma strip_idem (s : pystr) : strip (strip s) = strip s.
Proof.
  unfold strip.
  destruct (lstrip_cases s) as [H | (c & t & H & Hc)]; rewrite H.
  - reflexivity.
  - rewrite (rstrip_cons_keep t c Hc). simpl. rewrite Hc.
    rewrite <- (rstrip_cons_keep t c Hc). apply rstrip_idem.
Qed.

Lemma lstrip_In (s : pystr) (c : N) : In c (lstrip s) -> In c s.
Proof.
  induction s as [|d s IH]; simpl; [tauto|].
  destruct (py_isspace d); simpl; tauto.
Qed.

Lemma strip_In (s : pystr) (c : N) : In c (strip s) -> In c s.
Proof.
  unfold strip, rstrip. intros H.
  apply in_rev, lstrip_In in H. apply in_rev in H. now apply lstrip_In.
Qed.

Lemma lstrip_no_space (s : pystr) :
  (forall c, In c s -> py_isspace c = false) -> lstrip s = s.
Proof.
  destruct s as [|d s]; simpl; [reflexivity|].
  intros H. now rewrite (H d) by now left.
Qed.

Lemma strip_no_space (s : pystr) :
  (forall c, In c s -> py_isspace c = false) -> strip s = s.
Proof.
  intros H. unfold strip, rstrip.
  rewrite (lstrip_no_space s H).
  rewrite lstrip_no_space.
  - apply rev_involutive.
  - intros c Hc. apply H. now apply in_rev.
Qed.

Lemma filter_all {A} (f : A -> bool) (l : list A) :
  (forall x, In x l -> f x = true) -> List.filter f l = l.
Proof.
  induction l as [|x l IH]; simpl; intros H; [reflexivity|].
  rewrite (H x) by now left. f_equal. apply IH. intros y Hy. apply H. now right.
Qed.

Lemma filter_In_true {A} (f : A -> bool) (l : list A) (x : A) :
  In x (List.filter f l) -> f x = true.
Proof. intros H. now apply filter_In in H. Qed.

(** ** The price normaliser *)

Lemma clean_price_unfold (R : Runtime) (s : pystr) :
  _clean_price R s = strip (List.filter (price_char R) s).
Proof. destruct s; reflexivity. Qed.

Lemma clean_price_chars (R : Runtime) (s : pystr) (c : N) :
  In c (_clean_price R s) -> price_char R c = true.
Proof.
  rewrite clean_price_unfold. intros H.
  apply strip_In in H. now apply filter_In_true in H.
Qed.

Lemma price_char_not_space (R : Runtime) (c : N) :
  nd_not_space R -> price_char R c = true -> py_isspace c = false.
Proof.
  intros Hnd Hc. destruct (py_isspace c) eqn:Hs; [|reflexivity].
  pose proof (Hnd c Hs) as Hn.
  unfold price_char, re_digit in Hc. rewrite Hn, andb_false_r, orb_false_r in Hc.
  unfold py_isspace in Hs. unfold ascii_digit in Hc.
  repeat rewrite ?orb_true_iff, ?andb_true_iff, ?N.leb_le, ?N.eqb_eq in Hs.
  repeat rewrite ?orb_true_iff, ?andb_true_iff, ?N.leb_le, ?N.eqb_eq in Hc.
  lia.
Qed.

Lemma sample_nd_not_space : nd_not_space sample_runtime.
Proof.
  intros c Hs. simpl.
  destruct ((1632 <=? c) && (c <=? 1641))%N eqn:Hc; [|reflexivity].
  unfold py_isspace in Hs.
  repeat rewrite ?orb_true_iff, ?andb_true_iff, ?N.leb_le, ?N.eqb_eq in Hs.
  repeat rewrite ?orb_true_iff, ?andb_true_iff, ?N.leb_le, ?N.eqb_eq in Hc.
  lia.
Qed.

(** C7.  [_clean_price] keeps exactly the characters that are digits,
    periods or commas and trims the result (which, white space being
    no such character, leaves it as it is); it maps the empty string to
    the empty string; it is idempotent; a string of digits, periods and
    commas only is returned unchanged; and ["$1,299.00 USD"] becomes
    ["1,299.00"]. *)
Theorem C7_clean_price (R : Runtime) (Hnd : nd_not_space R) :
  (forall s, _clean_price R s = strip (List.filter (price_char R) s)) /\
  (forall s, _clean_price R s = List.filter (price_char R) s) /\
  (forall s c, In c (_clean_price R s) -> price_char R c = true) /\
  _clean_price R [] = [] /\
  (forall s, _clean_price R (_clean_price R s) = _clean_price R s) /\
  (forall s, (forall c, In c s -> price_char R c = true) -> _clean_price R s = s) /\
  _clean_price R (u "$1,299.00 USD") = u "1,299.00".
Proof.
  assert (Hfilter : forall s, _clean_price R s = List.filter (price_char R) s).
  { intros s. rewrite clean_price_unfold. apply strip_no_space.
    intros c Hc. apply (price_char_not_space R c Hnd).
    now apply filter_In_true in Hc. }
  assert (Hsame : forall s, (forall c, In c s -> price_char R c = true) ->
                            _clean_price R s = s).
  { intros s Hs. rewrite Hfilter. now apply filter_all. }
  split; [apply clean_price_unfold|].
  split; [exact Hfilter|].
  split; [apply clean_price_chars|].
  split; [reflexivity|].
  split; [|split; [exact Hsame|]].
  - intros s. apply Hsame. intros c. apply clean_price_chars.
  - rewrite Hfilter. reflexivity.
Qed.

(** ** The page-URL builder *)

Lemma last_removelast (s : pystr) (c : N) :
  last s = Some c -> s = removelast s ++ [c].
Proof.
  induction s as [|d s IH]; [discriminate|].
  destruct s as [|e s].
  - simpl. now intros [= ->].
  - intros H. change (last (d :: e :: s)) with (last (e :: s)) in H.
    change (removelast (d :: e :: s)) with (d :: removelast (e :: s)).
    simpl. f_equal. now apply IH.
Qed.

Lemma endswith_char_split (s : pystr) (c : N) :
  endswith_char s c = true -> s = removelast s ++ [c].
Proof.
  unfold endswith_char. destruct (last s) as [d|] eqn:Hl; [|discriminate].
  intros Hd. apply N.eqb_eq in Hd. subst d. now apply last_removelast.
Qed.

Lemma build_page_url_later (base_url : pystr) (n : Z) :
  1 < n ->
  _build_page_url base_url n =
    if char_in 63 base_url then base_url ++ u "&page=" ++ str_of_int n
    else if endswith_char base_url 47
         then base_url ++ u "page/" ++ str_of_int n ++ u "/"
         else base_url ++ u "/page/" ++ str_of_int n ++ u "/".
Proof.
  intros Hn. unfold _build_page_url.
  destruct (Z.eqb_spec n 1); [lia | reflexivity].
Qed.

(** C6.  Page 1 is the base URL itself.  For a page [n > 1]: a base
    URL that contains [?] gets [&page=n] appended; any other gets the
    path segment [page/n/], after its own trailing slash when it has
    one and after an added slash when it has none, so that exactly one
    slash separates the two; and the two examples of the
    specification come out as stated. *)
Theorem C6_build_page_url :
  (forall base_url, _build_page_url base_url 1 = base_url) /\
  (forall base_url n, 1 < n -> char_in 63 base_url = true ->
     _build_page_url base_url n = base_url ++ u "&page=" ++ str_of_int n) /\
  (forall base_url n, 1 < n -> char_in 63 base_url = false ->
     endswith_char base_url 47 = true ->
     _build_page_url base_url n = base_url ++ u "page/" ++ str_of_int n ++ u "/") /\
  (forall base_url n, 1 < n -> char_in 63 base_url = false ->
     endswith_char base_url 47 = false ->
     _build_page_url base_url n = base_url ++ u "/page/" ++ str_of_int n ++ u "/") /\
  (forall base_url n, 1 < n -> char_in 63 base_url = false ->
     _build_page_url base_url n =
       drop_slash base_url ++ u "/page/" ++ str_of_int n ++ u "/") /\
  _build_page_url (u "https://shop.example/cat") 3
    = u "https://shop.example/cat/page/3/" /\
  _build_page_url (u "https://shop.example/cat/") 3
    = u "https://shop.example/cat/page/3/" /\
  _build_page_url (u "https://shop.example/cat?x=1") 3
    = u "https://shop.example/cat?x=1&page=3".
Proof.
  repeat split; try reflexivity.
  - intros base_url n Hn Hq. rewrite build_page_url_later by exact Hn. now rewrite Hq.
  - intros base_url n Hn Hq Hs. rewrite build_page_url_later by exact Hn.
    now rewrite Hq, Hs.
  - intros base_url n Hn Hq Hs. rewrite build_page_url_later by exact Hn.
    now rewrite Hq, Hs.
  - intros base_url n Hn Hq. rewrite build_page_url_later by exact Hn.
    rewrite Hq. unfold drop_slash.
    destruct (endswith_char base_url 47) eqn:Hs; [|reflexivity].
    rewrite (endswith_char_split base_url 47 Hs) at 1.
    rewrite <- app_assoc. reflexivity.
Qed.

Example widget_parsed :
  _parse_json_ld_product sample_runtime widget_ld =
  Some (list_to_map [("title", str "Widget"); ("description", str ""); ("brand", str "");
                      ("sku", str ""); ("image_urls", VList [str "https://x/img.png"]);
                      ("price", str "9.99"); ("currency", str "USD"); ("availability", str "");
                      ("main_image_url", str "https://x/img.png")]%string).
Proof. reflexivity. Qed.

Example tile_parsed :
  _extract_container_products sample_runtime
    (listing_page [tile "Lamp" "$1,299.00 USD"; tile "" "3"] false) (u "https://shop.example/")
  = [list_to_map [("title", str "Lamp"); ("description", str ""); ("price", str "1,299.00");
                  ("original_price", str ""); ("brand", str ""); ("category", str "");
                  ("image_urls", VList []); ("main_image_url", str "");
                  ("rating", VNone); ("review_count", VNone)]%string].
Proof. reflexivity. Qed.

(** ** Records and their keys *)

Lemma insert_keeps (k k' : string) (v : value) (m : product) :
  is_Some (m !! k) -> is_Some (<[k' := v]> m !! k).
Proof.
  intros H. destruct (decide (k' = k)) as [->|Hne].
  - rewrite lookup_insert_eq. eauto.
  - now rewrite lookup_insert_ne.
Qed.

Ltac key_present :=
  repeat first
    [ rewrite lookup_insert_eq; eauto
    | apply insert_keeps ].


Ltac in_keys := unfold single_keys, container_keys, ld_base_keys; set_solver.

Lemma dom_insert_in (k : string) (v : value) (p : product) :
  k ∈ dom p -> dom (<[k := v]> p) = dom p.
Proof. intros H. rewrite dom_insert_L. set_solver. Qed.

Section SetIfFound.

Context {A : Type} (found : option A) (key : string) (f : A -> value).

Lemma set_if_found_other (k : string) (p : product) :
  key <> k -> set_if_found found key f p !! k = p !! k.
Proof.
  intros Hne. destruct found; simpl; [|reflexivity].
  now apply lookup_insert_ne.
Qed.

Lemma set_if_found_dom (p : product) :
  key ∈ dom p -> dom (set_if_found found key f p) = dom p.
Proof. destruct found; simpl; [apply dom_insert_in | reflexivity]. Qed.

Lemma set_if_found_keys (K : gset string) (p : product) :
  dom p = K -> key ∈ K -> dom (set_if_found found key f p) = K.
Proof. intros <- H. now apply set_if_found_dom. Qed.

Lemma set_if_found_same (p : product) (v : value) :
  p !! key = Some v ->
  set_if_found found key f p !! key = Some (match found with Some e => f e | None => v end).
Proof.
  intros H. destruct found; simpl; [apply lookup_insert_eq | exact H].
Qed.

End SetIfFound.

Lemma if_titled_inv (p q : product) :
  if_titled p = Some q -> q = p /\ truthy (dict_get p "title" VNone) = true.
Proof.
  unfold if_titled. destruct (truthy (dict_get p "title" VNone)); [|discriminate].
  intros H. split; [congruence | reflexivity].
Qed.

Lemma truthy_str_titled (p : product) (t : pystr) :
  p !! "title" = Some (VStr t) ->
  truthy (dict_get p "title" VNone) = true -> titled p.
Proof.
  intros Ht H. unfold dict_get in H. rewrite Ht in H. simpl in H.
  exists t. split; [exact Ht|]. intros ->. discriminate.
Qed.

(** *** Container records *)

Section ContainerRecords.

Variable R : Runtime.

Lemma container_image_inv (container : Tag) (base_url : pystr) (p q : product) :
  container_image R container base_url p = Some q ->
  q = p \/ exists main, q = <["image_urls" := VList [VStr main]]>
                            (<["main_image_url" := VStr main]> p).
Proof.
  unfold container_image.
  destruct (select_one container "img") as [img|]; [|left; congruence].
  destruct (img_src_of img) as [src|]; [|left; congruence].
  destruct (urljoin R base_url src) as [main|]; [|discriminate].
  intros H. right. exists main. simpl in H. congruence.
Qed.

Lemma container_image_miss (container : Tag) (base_url : pystr) (p : product) :
  select_one container "img" = None -> container_image R container base_url p = Some p.
Proof. intros H. unfold container_image. now rewrite H. Qed.

Lemma container_image_other (container : Tag) (base_url : pystr) (p q : product) (k : string) :
  container_image R container base_url p = Some q ->
  k <> "image_urls"%string -> k <> "main_image_url"%string -> q !! k = p !! k.
Proof.
  intros H H1 H2. destruct (container_image_inv _ _ _ _ H) as [->|[main ->]].
  - reflexivity.
  - rewrite !lookup_insert_ne by congruence. reflexivity.
Qed.

Lemma container_image_dom (container : Tag) (base_url : pystr) (p q : product) :
  container_image R container base_url p = Some q ->
  "image_urls"%string ∈ dom p -> "main_image_url"%string ∈ dom p -> dom q = dom p.
Proof.
  intros H H1 H2. destruct (container_image_inv _ _ _ _ H) as [->|[main ->]].
  - reflexivity.
  - rewrite !dom_insert_L. set_solver.
Qed.

Lemma container_rating_other (container : Tag) (p : product) (k : string) :
  k <> "rating"%string -> container_rating R container p !! k = p !! k.
Proof.
  intros H. unfold container_rating.
  destruct (select_one container _); [|reflexivity].
  apply set_if_found_other. congruence.
Qed.

Lemma container_rating_dom (container : Tag) (p : product) :
  "rating"%string ∈ dom p -> dom (container_rating R container p) = dom p.
Proof.
  intros H. unfold container_rating.
  destruct (select_one container _); [|reflexivity].
  now apply set_if_found_dom.
Qed.

Lemma container_rating_miss (container : Tag) (p : product) :
  select_one container ".rating, .stars, [data-rating]" = None ->
  container_rating R container p = p.
Proof. intros H. unfold container_rating. now rewrite H. Qed.

(** What [_extract_product_from_container] returns, stage by stage. *)
Lemma container_product_inv (container : Tag) (base_url : pystr) (p : product) :
  _extract_product_from_container R container base_url = Some p ->
  exists p3 p4,
    p3 = set_if_found (first_match container original_price_selectors) "original_price"
           (cleaned_price R)
           (set_if_found (first_match container price_selectors) "price" (cleaned_price R)
              (set_if_found (first_match container title_selectors) "title" stripped_text
                 container_defaults)) /\
    container_image R container base_url p3 = Some p4 /\
    p = container_rating R container p4 /\
    truthy (dict_get p "title" VNone) = true.
Proof.
  unfold _extract_product_from_container. cbv zeta.
  set (p3 := set_if_found (first_match container original_price_selectors) _ _ _).
  destruct (container_image R container base_url p3) as [p4|] eqn:Himg; [|discriminate].
  cbn [mbind option_bind]. intros H. apply if_titled_inv in H as [-> H].
  exists p3, p4. repeat split; assumption.
Qed.

Lemma container_title (container : Tag) (base_url : pystr) (p : product) :
  _extract_product_from_container R container base_url = Some p ->
  p !! "title" =
    Some (match first_match container title_selectors with
          | Some title_elem => stripped_text title_elem
          | None => VStr []
          end).
Proof.
  intros H. destruct (container_product_inv _ _ _ H) as (p3 & p4 & -> & Himg & -> & _).
  rewrite container_rating_other by discriminate.
  rewrite (container_image_other _ _ _ _ _ Himg) by discriminate.
  rewrite !set_if_found_other by discriminate.
  now apply set_if_found_same.
Qed.

(** A container record has a non-empty title. *)
Lemma container_product_titled (container : Tag) (base_url : pystr) (p : product) :
  _extract_product_from_container R container base_url = Some p -> titled p.
Proof.
  intros H. pose proof (container_title _ _ _ H) as Ht.
  destruct (container_product_inv _ _ _ H) as (_ & _ & _ & _ & _ & Htruthy).
  destruct (first_match container title_selectors);
    exact (truthy_str_titled _ _ Ht Htruthy).
Qed.

(** A container no title selector matches yields no record. *)
Lemma container_without_title (container : Tag) (base_url : pystr) :
  first_match container title_selectors = None ->
  _extract_product_from_container R container base_url = None.
Proof.
  intros Hnone.
  destruct (_extract_product_from_container R container base_url) as [p|] eqn:H;
    [|reflexivity].
  destruct (container_product_titled _ _ _ H) as (t & Ht & Hne).
  rewrite (container_title _ _ _ H), Hnone in Ht.
  injection Ht as <-. now destruct Hne.
Qed.

Lemma container_product_dom (container : Tag) (base_url : pystr) (p : product) :
  _extract_product_from_container R container base_url = Some p ->
  dom p = container_keys.
Proof.
  intros H. destruct (container_product_inv _ _ _ H) as (p3 & p4 & Hp3 & Himg & -> & _).
  assert (Hd3 : dom p3 = container_keys).
  { subst p3. repeat (apply set_if_found_keys; [|in_keys]). reflexivity. }
  assert (Hd4 : dom p4 = container_keys).
  { rewrite (container_image_dom _ _ _ _ Himg); [exact Hd3| |];
      rewrite Hd3; unfold container_keys; set_solver. }
  rewrite container_rating_dom; [exact Hd4|].
  rewrite Hd4. unfold container_keys; set_solver.
Qed.

End ContainerRecords.

(** *** Single-product records *)

Section SingleRecords.

Variable R : Runtime.

Lemma gallery_loop_inv (soup : Soup) (url : pystr) (selectors : list string)
  (p q : product) :
  gallery_loop R soup url selectors p = Some q ->
  q = p \/ exists first urls, q = <["main_image_url" := first]>
                                  (<["image_urls" := VList urls]> p).
Proof.
  induction selectors as [|selector rest IH]; cbn [gallery_loop].
  - intros H. left. congruence.
  - destruct (select (root soup) selector) as [|img imgs]; [exact IH|].
    destruct (gallery_urls R url (take 5 (img :: imgs))) as [urls|]; [|discriminate].
    cbn [mbind option_bind]. intros H.
    destruct urls as [|first urls].
    + left. congruence.
    + right. exists first, (first :: urls). congruence.
Qed.

Lemma gallery_loop_other (soup : Soup) (url : pystr) (selectors : list string)
  (p q : product) (k : string) :
  gallery_loop R soup url selectors p = Some q ->
  k <> "image_urls"%string -> k <> "main_image_url"%string -> q !! k = p !! k.
Proof.
  intros H H1 H2. destruct (gallery_loop_inv _ _ _ _ _ H) as [->|(first & urls & ->)].
  - reflexivity.
  - rewrite !lookup_insert_ne by congruence. reflexivity.
Qed.

Lemma gallery_loop_keys (soup : Soup) (url : pystr) (selectors : list string)
  (p q : product) (K : gset string) :
  gallery_loop R soup url selectors p = Some q ->
  dom p = K -> "image_urls"%string ∈ K -> "main_image_url"%string ∈ K -> dom q = K.
Proof.
  intros H <- H1 H2. destruct (gallery_loop_inv _ _ _ _ _ H) as [->|(first & urls & ->)].
  - reflexivity.
  - rewrite !dom_insert_L. set_solver.
Qed.

(** What [_extract_single_product] returns, stage by stage. *)
Lemma single_product_inv (soup : Soup) (url : pystr) (p : product) :
  _extract_single_product R soup url = Some p ->
  exists p3 p4,
    p3 = set_if_found (first_match (root soup) single_price_selectors) "price"
           (cleaned_price R)
           (set_if_found (first_match (root soup) desc_selectors) "description"
              (fun desc_elem => VStr (take 1000 (text_stripped desc_elem)))
              (set_if_found (first_match (root soup) single_title_selectors) "title"
                 stripped_text single_defaults)) /\
    gallery_loop R soup url img_selectors p3 = Some p4 /\
    p = set_if_found (select_one (root soup) ".sku, [data-sku]") "sku" stripped_text p4 /\
    truthy (dict_get p "title" VNone) = true.
Proof.
  unfold _extract_single_product. cbv zeta.
  set (p3 := set_if_found (first_match (root soup) single_price_selectors) _ _ _).
  destruct (gallery_loop R soup url img_selectors p3) as [p4|] eqn:Himg; [|discriminate].
  cbn [mbind option_bind]. intros H. apply if_titled_inv in H as [-> H].
  exists p3, p4. repeat split; assumption.
Qed.

Lemma single_title (soup : Soup) (url : pystr) (p : product) :
  _extract_single_product R soup url = Some p ->
  p !! "title" =
    Some (match first_match (root soup) single_title_selectors with
          | Some title_elem => stripped_text title_elem
          | None => VStr []
          end).
Proof.
  intros H. destruct (single_product_inv _ _ _ H) as (p3 & p4 & -> & Himg & -> & _).
  rewrite set_if_found_other by discriminate.
  rewrite (gallery_loop_other _ _ _ _ _ _ Himg) by discriminate.
  rewrite !set_if_found_other by discriminate.
  now apply set_if_found_same.
Qed.

(** A single-product record has a non-empty title. *)
Lemma single_product_titled (soup : Soup) (url : pystr) (p : product) :
  _extract_single_product R soup url = Some p -> titled p.
Proof.
  intros H. pose proof (single_title _ _ _ H) as Ht.
  destruct (single_product_inv _ _ _ H) as (_ & _ & _ & _ & _ & Htruthy).
  destruct (first_match (root soup) single_title_selectors);
    exact (truthy_str_titled _ _ Ht Htruthy).
Qed.

Lemma single_product_dom (soup : Soup) (url : pystr) (p : product) :
  _extract_single_product R soup url = Some p -> dom p = single_keys.
Proof.
  intros H. destruct (single_product_inv _ _ _ H) as (p3 & p4 & Hp3 & Himg & -> & _).
  apply set_if_found_keys; [|in_keys].
  apply (gallery_loop_keys _ _ _ _ _ _ Himg); [|in_keys..].
  subst p3. repeat (apply set_if_found_keys; [|in_keys]). reflexivity.
Qed.

End SingleRecords.

(** *** JSON-LD records *)

Section JsonLdRecords.

Variable R : Runtime.

Lemma ld_fixed_insert (d : gmap string value) (p : product) (k : string) (v : value) :
  k <> "title"%string -> k <> "description"%string -> k <> "sku"%string ->
  k <> "brand"%string ->
  ld_fixed R d p -> ld_fixed R d (<[k := v]> p).
Proof.
  intros H1 H2 H3 H4 (Ht & Hd & Hs & Hb & Hi).
  unfold ld_fixed. rewrite !lookup_insert_ne by congruence.
  repeat split; try assumption; now apply insert_keeps.
Qed.

Lemma ld_base_fixed (d : gmap string value) : ld_fixed R d (ld_base R d).
Proof.
  unfold ld_fixed, ld_base. cbv zeta.
  repeat split; try (repeat (rewrite lookup_insert_ne by discriminate);
                     rewrite lookup_insert_eq; eauto).
Qed.

Lemma ld_offers_fixed (d : gmap string value) (p q : product) :
  ld_offers d p = Some q -> ld_fixed R d p -> ld_fixed R d q.
Proof.
  unfold ld_offers. cbv zeta.
  destruct (truthy (dict_get d "offers" (VDict ∅))); [|congruence].
  destruct (as_dict _) as [o|]; [|discriminate].
  cbn [mbind option_bind]. intros H Hp.
  assert (q = <["availability" := dict_get o "availability" (VStr [])]>
             (<["currency" := dict_get o "priceCurrency" (VStr [])]>
             (<["price" := dict_get o "price" (VStr [])]> p))) as -> by congruence.
  repeat (apply ld_fixed_insert; [discriminate..|]). exact Hp.
Qed.

Lemma ld_images_fixed (d : gmap string value) (p : product) :
  ld_fixed R d p -> ld_fixed R d (ld_images d p).
Proof.
  intros Hp. unfold ld_images.
  destruct (d !! "image") as [[]|]; try exact Hp;
    repeat (apply ld_fixed_insert; [discriminate..|]); exact Hp.
Qed.

Lemma ld_rating_fixed (d : gmap string value) (p q : product) :
  ld_rating d p = Some q -> ld_fixed R d p -> ld_fixed R d q.
Proof.
  unfold ld_rating. cbv zeta.
  destruct (truthy (dict_get d "aggregateRating" (VDict ∅))); [|congruence].
  destruct (as_dict _) as [r|]; [|discriminate].
  cbn [mbind option_bind]. intros H Hp.
  assert (q = <["review_count" := dict_get r "reviewCount" VNone]>
             (<["rating" := dict_get r "ratingValue" VNone]> p)) as -> by congruence.
  repeat (apply ld_fixed_insert; [discriminate..|]). exact Hp.
Qed.

(** What [_parse_json_ld_product] returns: a record for a [dict] of
    type [Product], whose title, description and sku are those of the
    [dict], with [''] for an absent one. *)
Lemma parse_product_inv (data : value) (p : product) :
  _parse_json_ld_product R data = Some p ->
  exists d, data = VDict d /\
    eq_str (dict_get d "@type" VNone) (u "Product") = true /\
    ld_fixed R d p.
Proof.
  unfold _parse_json_ld_product.
  destruct data as [| | | | | |d]; try discriminate.
  cbn [as_dict mbind option_bind].
  destruct (eq_str (dict_get d "@type" VNone) (u "Product")) eqn:Hty; [|discriminate].
  cbn [negb].
  destruct (ld_offers d (ld_base R d)) as [p1|] eqn:Ho; [|discriminate].
  cbn [mbind option_bind]. intros Hr. exists d.
  split; [reflexivity|]. split; [exact Hty|].
  apply (ld_rating_fixed _ _ _ Hr), ld_images_fixed, (ld_offers_fixed _ _ _ Ho), ld_base_fixed.
Qed.

Lemma parse_product_truthy (data : value) (p : product) :
  _parse_json_ld_product R data = Some p -> truthy (VDict p) = true.
Proof.
  intros H. destruct (parse_product_inv _ _ H) as (d & _ & _ & Ht & _).
  simpl. rewrite bool_decide_eq_false_2; [reflexivity|].
  intros Hsize. apply map_size_empty_iff in Hsize. subst p.
  rewrite lookup_empty in Ht. discriminate.
Qed.

Lemma parse_product_dom (data : value) (p : product) :
  _parse_json_ld_product R data = Some p -> ld_base_keys ⊆ dom p.
Proof.
  intros H. destruct (parse_product_inv _ _ H) as (d & _ & _ & Ht & Hd & Hs & Hb & Hi).
  assert (Hin : forall k v, p !! k = Some v -> k ∈ dom p).
  { intros k v Hk. apply elem_of_dom. eauto. }
  destruct Hi as [i Hi].
  pose proof (Hin _ _ Ht). pose proof (Hin _ _ Hd). pose proof (Hin _ _ Hs).
  pose proof (Hin _ _ Hb). pose proof (Hin _ _ Hi).
  unfold ld_base_keys. set_solver.
Qed.

Lemma ld_offers_other (d : gmap string value) (p q : product) (k : string) :
  ld_offers d p = Some q ->
  k <> "price"%string -> k <> "currency"%string -> k <> "availability"%string ->
  q !! k = p !! k.
Proof.
  unfold ld_offers. cbv zeta.
  destruct (truthy (dict_get d "offers" (VDict ∅))); [|congruence].
  destruct (as_dict _) as [o|]; [|discriminate].
  cbn [mbind option_bind]. intros H H1 H2 H3.
  assert (q = <["availability" := dict_get o "availability" (VStr [])]>
             (<["currency" := dict_get o "priceCurrency" (VStr [])]>
             (<["price" := dict_get o "price" (VStr [])]> p))) as -> by congruence.
  rewrite !lookup_insert_ne by congruence. reflexivity.
Qed.

Lemma ld_rating_other (d : gmap string value) (p q : product) (k : string) :
  ld_rating d p = Some q ->
  k <> "rating"%string -> k <> "review_count"%string -> q !! k = p !! k.
Proof.
  unfold ld_rating. cbv zeta.
  destruct (truthy (dict_get d "aggregateRating" (VDict ∅))); [|congruence].
  destruct (as_dict _) as [r|]; [|discriminate].
  cbn [mbind option_bind]. intros H H1 H2.
  assert (q = <["review_count" := dict_get r "reviewCount" VNone]>
             (<["rating" := dict_get r "ratingValue" VNone]> p)) as -> by congruence.
  rewrite !lookup_insert_ne by congruence. reflexivity.
Qed.

(** Without an [image] key the list of images stays empty. *)
Lemma parse_product_no_image (d : gmap string value) (p : product) :
  _parse_json_ld_product R (VDict d) = Some p ->
  d !! "image" = None -> p !! "image_urls" = Some (VList []).
Proof.
  unfold _parse_json_ld_product. cbn [as_dict mbind option_bind].
  destruct (eq_str (dict_get d "@type" VNone) (u "Product")); [|discriminate].
  cbn [negb].
  destruct (ld_offers d (ld_base R d)) as [p1|] eqn:Ho; [|discriminate].
  cbn [mbind option_bind]. intros Hr Himg.
  rewrite (ld_rating_other _ _ _ _ Hr) by discriminate.
  unfold ld_images. rewrite Himg.
  rewrite (ld_offers_other _ _ _ _ Ho) by discriminate.
  reflexivity.
Qed.

End JsonLdRecords.

(** *** The loop over the script elements *)

Lemma json_ld_loop_malformed (R : Runtime) (before after : list Script)
  (products : list product) :
  json_ld_loop R (before ++ ScriptMalformed :: after) products =
  json_ld_loop R (before ++ after) products.
Proof.
  revert products. induction before as [|script before IH]; intros products.
  - reflexivity.
  - destruct script; simpl; [apply IH | apply IH | reflexivity | reflexivity].
Qed.

Lemma json_ld_loop_no_string (R : Runtime) (before after : list Script)
  (products : list product) :
  json_ld_loop R (before ++ ScriptNoString :: after) products =
  json_ld_loop R (before ++ [ScriptNoString]) products.
Proof.
  revert products. induction before as [|script before IH]; intros products.
  - reflexivity.
  - destruct script; simpl; [apply IH | apply IH | reflexivity | reflexivity].
Qed.

(** C8.  On a page whose first JSON-LD script element is empty (its
    [string] is None) and whose second holds a well-formed [Product],
    [_extract_json_ld_products] returns no product, although the
    second element alone yields one; the same page with a first
    element of malformed text yields that product.  Whatever follows an
    element without a string is never read. *)
Theorem C8_empty_block_ends_extraction (R : Runtime) :
  _extract_json_ld_products R (ld_page [ScriptNoString; ScriptJson widget_ld]) = [] /\
  _extract_json_ld_products R (ld_page [ScriptJson widget_ld]) = [widget_record] /\
  _extract_json_ld_products R (ld_page [ScriptMalformed; ScriptJson widget_ld]) =
    _extract_json_ld_products R (ld_page [ScriptJson widget_ld]) /\
  (forall before after,
     _extract_json_ld_products R (ld_page (before ++ ScriptNoString :: after)) =
     _extract_json_ld_products R (ld_page (before ++ [ScriptNoString]))).
Proof.
  split; [reflexivity|]. split; [reflexivity|]. split; [reflexivity|].
  intros before after. unfold _extract_json_ld_products.
  cbn [ld_page ld_json_scripts]. apply json_ld_loop_no_string.
Qed.

(** *** Defaults *)

Lemma dict_get_absent (d : gmap string value) (k : string) (dflt : value) :
  d !! k = None -> dict_get d k dflt = dflt.
Proof. intros H. unfold dict_get. now rewrite H. Qed.

(** The fields of a container record that were not located hold the
    value the record started with. *)
Lemma container_product_defaults (R : Runtime) (container : Tag) (base_url : pystr)
  (p : product) :
  _extract_product_from_container R container base_url = Some p ->
  p !! "description" = Some (VStr []) /\
  p !! "brand" = Some (VStr []) /\
  p !! "category" = Some (VStr []) /\
  p !! "review_count" = Some VNone /\
  (first_match container price_selectors = None -> p !! "price" = Some (VStr [])) /\
  (first_match container original_price_selectors = None ->
     p !! "original_price" = Some (VStr [])) /\
  (select_one container "img" = None ->
     p !! "main_image_url" = Some (VStr []) /\ p !! "image_urls" = Some (VList [])) /\
  (select_one container ".rating, .stars, [data-rating]" = None ->
     p !! "rating" = Some VNone).
Proof.
  intros H. destruct (container_product_inv _ _ _ _ H) as (p3 & p4 & Hp3 & Himg & -> & _).
  assert (Hfix : forall k, k <> "image_urls"%string -> k <> "main_image_url"%string ->
                           k <> "rating"%string ->
                           container_rating R container p4 !! k = p3 !! k).
  { intros k H1 H2 H3. rewrite container_rating_other by exact H3.
    now apply (container_image_other _ _ _ _ _ _ Himg). }
  repeat apply conj.
  1-4: rewrite Hfix by discriminate; subst p3;
       rewrite !set_if_found_other by discriminate; reflexivity.
  - intros Hnone. rewrite Hfix by discriminate. subst p3. rewrite Hnone.
    rewrite set_if_found_other by discriminate. cbn [set_if_found].
    rewrite set_if_found_other by discriminate. reflexivity.
  - intros Hnone. rewrite Hfix by discriminate. subst p3. rewrite Hnone.
    cbn [set_if_found]. rewrite !set_if_found_other by discriminate. reflexivity.
  - intros Hnone. rewrite !container_rating_other by discriminate.
    rewrite (container_image_miss _ _ _ _ Hnone) in Himg.
    assert (p4 = p3) as -> by congruence. subst p3.
    rewrite !set_if_found_other by discriminate. split; reflexivity.
  - intros Hnone. rewrite (container_rating_miss _ _ _ Hnone).
    rewrite (container_image_other _ _ _ _ _ _ Himg) by discriminate. subst p3.
    rewrite !set_if_found_other by discriminate. reflexivity.
Qed.

(** The same for a single-product record. *)
Lemma single_product_defaults (R : Runtime) (soup : Soup) (url : pystr) (p : product) :
  _extract_single_product R soup url = Some p ->
  p !! "original_price" = Some (VStr []) /\
  p !! "brand" = Some (VStr []) /\
  p !! "category" = Some (VStr []) /\
  p !! "rating" = Some VNone /\
  p !! "review_count" = Some VNone /\
  (first_match (root soup) desc_selectors = None -> p !! "description" = Some (VStr [])) /\
  (first_match (root soup) single_price_selectors = None -> p !! "price" = Some (VStr [])) /\
  (select_one (root soup) ".sku, [data-sku]" = None -> p !! "sku" = Some (VStr [])).
Proof.
  intros H. destruct (single_product_inv _ _ _ _ H) as (p3 & p4 & Hp3 & Himg & -> & _).
  assert (Hfix : forall k, k <> "image_urls"%string -> k <> "main_image_url"%string ->
                           k <> "sku"%string ->
                           set_if_found (select_one (root soup) ".sku, [data-sku]") "sku"
                             stripped_text p4 !! k = p3 !! k).
  { intros k H1 H2 H3. rewrite set_if_found_other by congruence.
    now apply (gallery_loop_other _ _ _ _ _ _ _ Himg). }
  repeat apply conj.
  1-5: rewrite Hfix by discriminate; subst p3;
       rewrite !set_if_found_other by discriminate; reflexivity.
  - intros Hnone. rewrite Hfix by discriminate. subst p3. rewrite Hnone.
    rewrite set_if_found_other by discriminate. cbn [set_if_found].
    rewrite set_if_found_other by discriminate. reflexivity.
  - intros Hnone. rewrite Hfix by discriminate. subst p3. rewrite Hnone.
    cbn [set_if_found]. rewrite !set_if_found_other by discriminate. reflexivity.
  - intros Hnone. rewrite Hnone. cbn [set_if_found].
    rewrite (gallery_loop_other _ _ _ _ _ _ _ Himg) by discriminate. subst p3.
    rewrite !set_if_found_other by discriminate. reflexivity.
Qed.

(** The fields of a record, located or not: each holds what was read
    from the element found for it, and its default when none was
    found. *)

Section Located.

Variable R : Runtime.

Lemma gallery_loop_selected (soup : Soup) (url : pystr) (selectors : list string)
  (p : product) :
  gallery_loop R soup url selectors p =
  (urls ← gallery_urls R url (take 5 (first_selected (root soup) selectors));
   Some match urls with
        | first :: _ => <["main_image_url" := first]> (<["image_urls" := VList urls]> p)
        | [] => p
        end).
Proof.
  induction selectors as [|selector rest IH]; cbn [gallery_loop first_selected].
  - reflexivity.
  - destruct (select (root soup) selector) as [|img imgs]; [exact IH | reflexivity].
Qed.

Lemma gallery_urls_none (url : pystr) (imgs : list Tag) :
  Forall (fun img => img_src_of img = None) imgs -> gallery_urls R url imgs = Some [].
Proof.
  induction 1 as [|img imgs Himg _ IH]; cbn [gallery_urls]; [reflexivity|].
  now rewrite Himg.
Qed.

Lemma container_located (container : Tag) (base_url : pystr) (p : product) :
  _extract_product_from_container R container base_url = Some p ->
  p !! "price" =
    Some (match first_match container price_selectors with
          | Some price_elem => cleaned_price R price_elem
          | None => VStr []
          end) /\
  p !! "original_price" =
    Some (match first_match container original_price_selectors with
          | Some orig_price_elem => cleaned_price R orig_price_elem
          | None => VStr []
          end) /\
  match img_elem ← select_one container "img"; img_src_of img_elem with
  | Some img_src =>
      exists main,
        urljoin R base_url img_src = Some main /\
        p !! "main_image_url" = Some (VStr main) /\
        p !! "image_urls" = Some (VList [VStr main])
  | None =>
      p !! "main_image_url" = Some (VStr []) /\ p !! "image_urls" = Some (VList [])
  end /\
  p !! "rating" =
    Some (match rating_elem ← select_one container ".rating, .stars, [data-rating]";
                search_number R (text_stripped rating_elem) with
          | Some tok => VFloat (float_of_str R tok)
          | None => VNone
          end).
Proof.
  intros H. destruct (container_product_inv _ _ _ _ H) as (p3 & p4 & Hp3 & Himg & -> & _).
  assert (H3 : forall k, k <> "title"%string -> k <> "price"%string ->
                         k <> "original_price"%string ->
                         p3 !! k = container_defaults !! k).
  { intros k H1 H2 H3. subst p3. now rewrite !set_if_found_other by congruence. }
  repeat apply conj.
  - rewrite container_rating_other by discriminate.
    rewrite (container_image_other _ _ _ _ _ _ Himg) by discriminate. subst p3.
    rewrite set_if_found_other by discriminate. apply set_if_found_same.
    now rewrite set_if_found_other by discriminate.
  - rewrite container_rating_other by discriminate.
    rewrite (container_image_other _ _ _ _ _ _ Himg) by discriminate. subst p3.
    apply set_if_found_same. now rewrite !set_if_found_other by discriminate.
  - rewrite !container_rating_other by discriminate.
    unfold container_image in Himg.
    destruct (select_one container "img") as [img|]; cbn [mbind option_bind].
    + destruct (img_src_of img) as [src|].
      * destruct (urljoin R base_url src) as [main|]; [|discriminate].
        cbn [mbind option_bind] in Himg. injection Himg as <-.
        exists main. split; [reflexivity|].
        rewrite lookup_insert_ne by discriminate. now rewrite !lookup_insert_eq.
      * injection Himg as <-. rewrite !H3 by discriminate. split; reflexivity.
    + injection Himg as <-. rewrite !H3 by discriminate. split; reflexivity.
  - unfold container_rating.
    assert (H4 : p4 !! "rating" = Some VNone).
    { rewrite (container_image_other _ _ _ _ _ _ Himg) by discriminate.
      now rewrite H3 by discriminate. }
    destruct (select_one container ".rating, .stars, [data-rating]") as [e|];
      cbn [mbind option_bind]; [|exact H4].
    now apply set_if_found_same.
Qed.

Lemma single_located (soup : Soup) (url : pystr) (p : product) :
  _extract_single_product R soup url = Some p ->
  p !! "description" =
    Some (match first_match (root soup) desc_selectors with
          | Some desc_elem => VStr (take 1000 (text_stripped desc_elem))
          | None => VStr []
          end) /\
  p !! "price" =
    Some (match first_match (root soup) single_price_selectors with
          | Some price_elem => cleaned_price R price_elem
          | None => VStr []
          end) /\
  p !! "sku" =
    Some (match select_one (root soup) ".sku, [data-sku]" with
          | Some sku_elem => stripped_text sku_elem
          | None => VStr []
          end) /\
  (exists urls,
     gallery_urls R url (take 5 (first_selected (root soup) img_selectors)) = Some urls /\
     p !! "image_urls" = Some (VList urls) /\
     p !! "main_image_url" = Some (match urls with
                                   | first :: _ => first
                                   | [] => VStr []
                                   end)) /\
  (Forall (fun img => img_src_of img = None)
     (take 5 (first_selected (root soup) img_selectors)) ->
   p !! "image_urls" = Some (VList []) /\ p !! "main_image_url" = Some (VStr [])).
Proof.
  intros H. destruct (single_product_inv _ _ _ _ H) as (p3 & p4 & Hp3 & Himg & -> & _).
  assert (H3 : forall k, k <> "title"%string -> k <> "description"%string ->
                         k <> "price"%string -> p3 !! k = single_defaults !! k).
  { intros k H1 H2 H3. subst p3. now rewrite !set_if_found_other by congruence. }
  assert (Himages : exists urls,
     gallery_urls R url (take 5 (first_selected (root soup) img_selectors)) = Some urls /\
     p4 !! "image_urls" = Some (VList urls) /\
     p4 !! "main_image_url" = Some (match urls with
                                    | first :: _ => first
                                    | [] => VStr []
                                    end)).
  { rewrite gallery_loop_selected in Himg.
    destruct (gallery_urls R url (take 5 (first_selected (root soup) img_selectors)))
      as [urls|]; [|discriminate].
    cbn [mbind option_bind] in Himg. injection Himg as <-.
    exists urls. split; [reflexivity|].
    destruct urls as [|first urls].
    - rewrite !H3 by discriminate. split; reflexivity.
    - rewrite lookup_insert_ne by discriminate. now rewrite !lookup_insert_eq. }
  repeat apply conj.
  - rewrite set_if_found_other by discriminate.
    rewrite (gallery_loop_other _ _ _ _ _ _ _ Himg) by discriminate. subst p3.
    rewrite set_if_found_other by discriminate. apply set_if_found_same.
    now rewrite set_if_found_other by discriminate.
  - rewrite set_if_found_other by discriminate.
    rewrite (gallery_loop_other _ _ _ _ _ _ _ Himg) by discriminate. subst p3.
    apply set_if_found_same. now rewrite !set_if_found_other by discriminate.
  - apply set_if_found_same.
    rewrite (gallery_loop_other _ _ _ _ _ _ _ Himg) by discriminate.
    now rewrite H3 by discriminate.
  - destruct Himages as (urls & Hurls & Hi & Hm). exists urls.
    rewrite !set_if_found_other by discriminate. now repeat split.
  - intros Hnone. destruct Himages as (urls & Hurls & Hi & Hm).
    rewrite (gallery_urls_none _ _ Hnone) in Hurls. injection Hurls as <-.
    rewrite !set_if_found_other by discriminate. now split.
Qed.

End Located.

(** C10, as amended.  A container record has exactly the ten keys
    [title], [description], [price], [original_price], [brand],
    [category], [image_urls], [main_image_url], [rating] and
    [review_count], and a single-product record those and [sku]; in
    both, a field that was not located holds its default ([''], [None]
    or [[]]) and a field that was located what was read for it: the
    price fields default when no selector of theirs matches, the image
    fields of a container when it has no [img] or one without a
    source, its rating when it has no rating element or one without a
    number, the image fields of a single-product page when no gallery
    selector matches or none of the images read has a source.  A
    JSON-LD record has the keys [title], [description], [brand], [sku]
    and [image_urls], with [''] for an absent name, description, sku
    or brand and [[]] for an absent image. *)
Theorem C10_record_keys (R : Runtime) :
  (forall container base_url p,
     _extract_product_from_container R container base_url = Some p ->
     dom p = container_keys /\
     p !! "description" = Some (VStr []) /\
     p !! "brand" = Some (VStr []) /\
     p !! "category" = Some (VStr []) /\
     p !! "review_count" = Some VNone /\
     (first_match container price_selectors = None -> p !! "price" = Some (VStr [])) /\
     (first_match container original_price_selectors = None ->
        p !! "original_price" = Some (VStr [])) /\
     (select_one container "img" = None ->
        p !! "main_image_url" = Some (VStr []) /\ p !! "image_urls" = Some (VList [])) /\
     (select_one container ".rating, .stars, [data-rating]" = None ->
        p !! "rating" = Some VNone) /\
     p !! "price" =
       Some (match first_match container price_selectors with
             | Some price_elem => cleaned_price R price_elem
             | None => VStr []
             end) /\
     p !! "original_price" =
       Some (match first_match container original_price_selectors with
             | Some orig_price_elem => cleaned_price R orig_price_elem
             | None => VStr []
             end) /\
     match img_elem ← select_one container "img"; img_src_of img_elem with
     | Some img_src =>
         exists main,
           urljoin R base_url img_src = Some main /\
           p !! "main_image_url" = Some (VStr main) /\
           p !! "image_urls" = Some (VList [VStr main])
     | None =>
         p !! "main_image_url" = Some (VStr []) /\ p !! "image_urls" = Some (VList [])
     end /\
     p !! "rating" =
       Some (match rating_elem ← select_one container ".rating, .stars, [data-rating]";
                   search_number R (text_stripped rating_elem) with
             | Some tok => VFloat (float_of_str R tok)
             | None => VNone
             end)) /\
  (forall soup url p,
     _extract_single_product R soup url = Some p ->
     dom p = single_keys /\
     p !! "original_price" = Some (VStr []) /\
     p !! "brand" = Some (VStr []) /\
     p !! "category" = Some (VStr []) /\
     p !! "rating" = Some VNone /\
     p !! "review_count" = Some VNone /\
     (first_match (root soup) desc_selectors = None ->
        p !! "description" = Some (VStr [])) /\
     (first_match (root soup) single_price_selectors = None ->
        p !! "price" = Some (VStr [])) /\
     (select_one (root soup) ".sku, [data-sku]" = None -> p !! "sku" = Some (VStr [])) /\
     p !! "description" =
       Some (match first_match (root soup) desc_selectors with
             | Some desc_elem => VStr (take 1000 (text_stripped desc_elem))
             | None => VStr []
             end) /\
     p !! "price" =
       Some (match first_match (root soup) single_price_selectors with
             | Some price_elem => cleaned_price R price_elem
             | None => VStr []
             end) /\
     p !! "sku" =
       Some (match select_one (root soup) ".sku, [data-sku]" with
             | Some sku_elem => stripped_text sku_elem
             | None => VStr []
             end) /\
     (exists urls,
        gallery_urls R url (take 5 (first_selected (root soup) img_selectors)) = Some urls /\
        p !! "image_urls" = Some (VList urls) /\
        p !! "main_image_url" = Some (match urls with
                                      | first :: _ => first
                                      | [] => VStr []
                                      end)) /\
     (Forall (fun img => img_src_of img = None)
        (take 5 (first_selected (root soup) img_selectors)) ->
      p !! "image_urls" = Some (VList []) /\ p !! "main_image_url" = Some (VStr []))) /\
  (forall d p,
     _parse_json_ld_product R (VDict d) = Some p ->
     ld_base_keys ⊆ dom p /\
     (d !! "name" = None -> p !! "title" = Some (VStr [])) /\
     (d !! "description" = None -> p !! "description" = Some (VStr [])) /\
     (d !! "sku" = None -> p !! "sku" = Some (VStr [])) /\
     (d !! "brand" = None -> p !! "brand" = Some (VStr [])) /\
     (d !! "image" = None -> p !! "image_urls" = Some (VList []))).
Proof.
  split; [|split].
  - intros container base_url p H. split.
    + exact (container_product_dom _ _ _ _ H).
    + destruct (container_product_defaults _ _ _ _ H)
        as (H1 & H2 & H3 & H4 & H5 & H6 & H7 & H8).
      do 7 (split; [assumption|]). split; [exact H8|].
      exact (container_located _ _ _ _ H).
  - intros soup url p H. split.
    + exact (single_product_dom _ _ _ _ H).
    + destruct (single_product_defaults _ _ _ _ H)
        as (H1 & H2 & H3 & H4 & H5 & H6 & H7 & H8).
      do 7 (split; [assumption|]). split; [exact H8|].
      exact (single_located _ _ _ _ H).
  - intros d p H.
    destruct (parse_product_inv _ _ _ H) as (d' & Hd & _ & Ht & Hde & Hs & Hb & _).
    injection Hd as <-.
    split; [exact (parse_product_dom _ _ _ H)|].
    repeat split; intros Hnone.
    + rewrite Ht. now rewrite dict_get_absent.
    + rewrite Hde. now rewrite dict_get_absent.
    + rewrite Hs. now rewrite dict_get_absent.
    + rewrite Hb. unfold ld_brand. now rewrite Hnone.
    + exact (parse_product_no_image _ _ _ H Hnone).
Qed.

(** C10, as stated, fails: the record of a JSON-LD [Product] without
    offers, image and rating has none of the keys [price], [currency],
    [availability], [main_image_url], [rating], [review_count]; and a
    container record has no key [sku], [currency] or [availability],
    while a single-product record has the key [sku]. *)
Lemma C10_keys_omitted :
  (_parse_json_ld_product sample_runtime bare_ld = Some bare_record /\
   bare_record !! "price" = None /\
   bare_record !! "currency" = None /\
   bare_record !! "availability" = None /\
   bare_record !! "main_image_url" = None /\
   bare_record !! "rating" = None /\
   bare_record !! "review_count" = None) /\
  (exists p,
     _extract_product_from_container sample_runtime (tile "Lamp" "12.50")
       (u "https://shop.example/") = Some p /\
     p !! "title" = Some (str "Lamp") /\
     p !! "sku" = None /\ p !! "currency" = None /\ p !! "availability" = None) /\
  (exists q,
     _extract_single_product sample_runtime (detail_page "Lamp" "A-1")
       (u "https://shop.example/lamp") = Some q /\
     q !! "sku" = Some (str "A-1")).
Proof.
  split; [repeat split|split].
  - eexists. split; [reflexivity|]. repeat split.
  - eexists. split; [reflexivity|]. reflexivity.
Qed.

(** ** The pagination controller *)

Lemma bind_emit {A} (e : event) (k : M A) (log : list event) :
  bind (emit e) (fun _ => k) log = k (log ++ [e]).
Proof. reflexivity. Qed.

Lemma bind_ret {A B} (a : A) (k : A -> M B) (log : list event) :
  bind (ret a) k log = k a log.
Proof. reflexivity. Qed.

Lemma fetches_app (l1 l2 : list event) : fetches (l1 ++ l2) = fetches l1 ++ fetches l2.
Proof.
  induction l1 as [|e l1 IH]; [reflexivity|].
  destruct e; simpl; rewrite ?IH; reflexivity.
Qed.

Lemma strategies_of_app (l1 l2 : list event) :
  strategies_of (l1 ++ l2) = strategies_of l1 ++ strategies_of l2.
Proof.
  induction l1 as [|e l1 IH]; [reflexivity|].
  destruct e; simpl; rewrite ?IH; reflexivity.
Qed.

Lemma fetches_ran (ss : list strategy) (p : Z) :
  fetches (List.map (fun s => Ran s p) ss) = [].
Proof. induction ss; [reflexivity | exact IHss]. Qed.

Lemma strategies_of_ran (ss : list strategy) (p : Z) :
  strategies_of (List.map (fun s => Ran s p) ss) = ss.
Proof. induction ss; [reflexivity | simpl; now f_equal]. Qed.

(** What [select_strategies] does, in one equation. *)
Lemma select_strategies_run (R : Runtime) (soup : Soup) (page_url : pystr)
  (current_page : Z) (log : list event) :
  select_strategies R soup page_url current_page log =
  (Normal (page_products R soup page_url current_page),
   log ++ List.map (fun s => Ran s current_page) (strategies_run R soup page_url current_page)).
Proof.
  unfold select_strategies, page_products, strategies_run.
  unfold bind, emit, ret. cbv zeta.
  destruct (_extract_json_ld_products R soup) as [|j js]; cbv beta iota; [|reflexivity].
  cbn [app].
  destruct (_extract_container_products R soup page_url) as [|c cs]; cbv beta iota.
  - destruct (current_page =? 1); cbn [app List.map]; rewrite <- !app_assoc; reflexivity.
  - cbn [List.map]. rewrite <- !app_assoc. reflexivity.
Qed.

(** C1.  On every fetched page the JSON-LD strategy is called first.
    When it yields a product, its products are the page's products and
    no other strategy is called.  The container strategy is called
    exactly when the JSON-LD strategy yielded nothing, and the
    single-product strategy exactly when both yielded nothing and the
    page is page 1. *)
Theorem C1_strategy_priority (R : Runtime) (soup : Soup) (page_url : pystr)
  (current_page : Z) (log : list event) :
  let json_ld_products := _extract_json_ld_products R soup in
  let container_products := _extract_container_products R soup page_url in
  let run := select_strategies R soup page_url current_page log in
  let called := strategies_of (snd (select_strategies R soup page_url current_page [])) in
  (json_ld_products <> [] ->
     run = (Normal json_ld_products, log ++ [Ran JsonLd current_page])) /\
  (json_ld_products = [] -> container_products <> [] ->
     run = (Normal container_products,
            log ++ [Ran JsonLd current_page; Ran Containers current_page])) /\
  (json_ld_products = [] -> container_products = [] -> current_page = 1 ->
     run = (Normal (if_product (_extract_single_product R soup page_url)),
            log ++ [Ran JsonLd current_page; Ran Containers current_page;
                    Ran SinglePage current_page])) /\
  (json_ld_products = [] -> container_products = [] -> current_page <> 1 ->
     run = (Normal [],
            log ++ [Ran JsonLd current_page; Ran Containers current_page])) /\
  (In Containers called <-> json_ld_products = []) /\
  (In SinglePage called <->
     current_page = 1 /\ json_ld_products = [] /\ container_products = []).
Proof.
  cbv zeta. rewrite !select_strategies_run. cbn [snd app].
  rewrite strategies_of_ran.
  unfold page_products, strategies_run.
  destruct (_extract_json_ld_products R soup) as [|j js];
    [destruct (_extract_container_products R soup page_url) as [|c cs];
     [destruct (Z.eqb_spec current_page 1)|]|].
  all: repeat split; intros;
       repeat match goal with
       | H : In _ _ |- _ => cbn [In] in H
       | H : _ \/ _ |- _ => destruct H
       | H : _ /\ _ |- _ => destruct H
       | H : False |- _ => destruct H
       end;
       try congruence; try discriminate; cbn [In]; tauto.
Qed.

(** *** Loops *)

(** After [k] passes the loop goes on as if started where it stands. *)
Lemma while_reaches {S} (cond : S -> bool) (body : S -> M (flow S))
  (k : nat) (start here : S * list event) :
  reaches cond body k start here ->
  forall fuel,
    while_ (k + fuel) cond body (fst start) (snd start) =
    while_ fuel cond body (fst here) (snd here).
Proof.
  induction 1 as [s l | k s0 l0 s l s' l' _ IH Hcond Hbody]; intros fuel.
  - reflexivity.
  - cbn [fst snd] in *.
    replace (Datatypes.S k + fuel)%nat with (k + Datatypes.S fuel)%nat by lia.
    rewrite IH. cbn [while_]. rewrite Hcond. unfold bind. rewrite Hbody. reflexivity.
Qed.

Lemma while_exit {S} (cond : S -> bool) (body : S -> M (flow S))
  (fuel : nat) (s : S) (log : list event) :
  cond s = false -> while_ fuel cond body s log = (Normal s, log).
Proof. intros H. destruct fuel; cbn [while_]; rewrite H; reflexivity. Qed.

(** A pass that ends the loop: by [break], [return] or an exception. *)
Lemma while_last {S} (cond : S -> bool) (body : S -> M (flow S))
  (fuel : nat) (s : S) (log : list event) :
  cond s = true ->
  while_ (Datatypes.S fuel) cond body s log =
    match body s log with
    | (Normal (Next s'), log') => while_ fuel cond body s' log'
    | (Normal (Break s'), log') => (Normal s', log')
    | (Returned v, log') => (Returned v, log')
    | (Raised e, log') => (Raised e, log')
    | (Unfinished, log') => (Unfinished, log')
    end.
Proof.
  intros H. cbn [while_]. rewrite H. unfold bind.
  destruct (body s log) as [[[s'|s']|v|e|] log']; reflexivity.
Qed.

Lemma pages_before_next (p : Z) :
  1 <= p -> pages_before (p + 1) = pages_before p ++ [p].
Proof.
  intros Hp. unfold pages_before.
  replace (Z.to_nat (p + 1 - 1)) with (Datatypes.S (Z.to_nat (p - 1))) by lia.
  rewrite seq_S, map_app. cbn [List.map]. f_equal. f_equal. lia.
Qed.

Lemma pages_before_length (p : Z) : length (pages_before p) = Z.to_nat (p - 1).
Proof. unfold pages_before. now rewrite length_map, length_seq. Qed.

(** *** [scrape_products] *)

Section ScrapeProducts.

Variable R : Runtime.
Variable W : World.
Variable url : pystr.

(** One pass through the body of the loop, in one equation. *)
Lemma scrape_body_run (p : Z) (all_products : list product) (log : list event) :
  scrape_body R W url (p, all_products) log =
  match site W (_build_page_url url p) with
  | None => (Raised RequestException, log ++ [Fetched (_build_page_url url p)])
  | Some soup =>
      let log' := log ++ page_events R soup url p in
      match page_products R soup (_build_page_url url p) p with
      | [] => (Normal (Break (p, all_products)), log')
      | page_products =>
          match _has_next_page R soup (_build_page_url url p) with
          | Some true =>
              (Normal (Next (p + 1, all_products ++ page_products)), log' ++ [Slept])
          | Some false => (Normal (Break (p, all_products ++ page_products)), log')
          | None => (Raised ValueError, log')
          end
      end
  end.
Proof.
  unfold scrape_body, fetch_page, page_events. cbv zeta.
  unfold bind at 1. unfold bind at 1. unfold emit at 1.
  destruct (site W (_build_page_url url p)) as [soup|]; [|reflexivity].
  unfold ret at 1. cbv beta iota.
  unfold bind at 1. rewrite select_strategies_run.
  rewrite <- app_assoc. cbn [app].
  destruct (page_products R soup (_build_page_url url p) p) as [|x xs]; [reflexivity|].
  unfold next_page_check.
  destruct (_has_next_page R soup (_build_page_url url p)) as [[|]|]; reflexivity.
Qed.

Lemma scrape_reaches_inv (k : nat) (start here : Z * list product * list event) :
  reaches scrape_cond (scrape_body R W url) k start here ->
  start = ((1, []), []) -> scrape_inv R W url k here.
Proof.
  induction 1 as [s l | k s0 l0 s l s' l' Hprev IH Hcond Hbody]; intros Hstart.
  - injection Hstart as -> ->. unfold scrape_inv, max_pages. repeat split; lia.
  - specialize (IH Hstart). destruct s as [q all_q]. destruct s' as [p all_p].
    destruct IH as (Hq & Hle & Hf & Ha).
    unfold scrape_cond in Hcond. cbn [fst] in Hcond. apply Z.leb_le in Hcond.
    rewrite scrape_body_run in Hbody.
    assert (Hq1 : 1 <= q) by lia.
    unfold scrape_inv, products_of_page in *.
    destruct (site W (_build_page_url url q)) as [soup|] eqn:Hsite; [|discriminate].
    cbv zeta in Hbody.
    destruct (page_products R soup (_build_page_url url q) q) as [|x xs] eqn:Hpp;
      [discriminate|].
    destruct (_has_next_page R soup (_build_page_url url q)) as [[|]|];
      [|discriminate..].
    injection Hbody as <- <- <-.
    rewrite (pages_before_next q Hq1).
    repeat split; try lia.
    + rewrite !fetches_app, map_app, Hf. unfold page_events. cbn [fetches].
      rewrite fetches_ran. cbn [fetches List.map]. now rewrite app_nil_r.
    + rewrite flat_map_app. cbn [flat_map]. rewrite Hsite, Hpp, app_nil_r.
      now rewrite Ha.
Qed.

End ScrapeProducts.

Lemma scrape_fuel_unfold (R : Runtime) (W : World) (url : pystr) (fuel : nat) :
  scrape_products_fuel R W fuel url [] =
  match while_ fuel scrape_cond (scrape_body R W url) (1, []) [] with
  | (Normal s, log) => (Normal (snd s), log)
  | (Returned v, log) => (Normal v, log)
  | (Raised e, log) => (Raised e, log)
  | (Unfinished, log) => (Unfinished, log)
  end.
Proof.
  unfold scrape_products_fuel, call, bind, scrape_loop.
  destruct (while_ fuel scrape_cond (scrape_body R W url) (1, []) [])
    as [[[p all_products]|v|e|] log]; reflexivity.
Qed.

(** C3.  When a run of [scrape_products] stands at page [p] of at most
    ten, the fetch of page [p] succeeds and the strategies find no
    product on it, then, whatever the page says of a next page, the
    run returns the products it holds from the pages [1 .. p - 1], its
    log ends with the events of page [p], and the pages it has fetched
    are [1 .. p]: page [p + 1] is not fetched. *)
Theorem C3_empty_page_stops (R : Runtime) (W : World) (url : pystr)
  (k : nat) (p : Z) (all_products : list product) (log : list event) (soup : Soup) :
  reaches scrape_cond (scrape_body R W url) k ((1, []), []) ((p, all_products), log) ->
  p <= max_pages ->
  site W (_build_page_url url p) = Some soup ->
  page_products R soup (_build_page_url url p) p = [] ->
  scrape_products R W url = (Normal all_products, log ++ page_events R soup url p) /\
  all_products = flat_map (products_of_page R W url) (pages_before p) /\
  fetches (snd (scrape_products R W url)) =
    List.map (_build_page_url url) (pages_before (p + 1)).
Proof.
  intros Hreach Hp Hsite Hempty.
  destruct (scrape_reaches_inv R W url k _ _ Hreach eq_refl) as (Hk & _ & Hf & Ha).
  assert (Hrun : scrape_products R W url =
                 (Normal all_products, log ++ page_events R soup url p)).
  { unfold scrape_products. rewrite scrape_fuel_unfold. unfold loop_fuel, max_pages in *.
    replace 10%nat with (k + Datatypes.S (9 - k))%nat by lia.
    rewrite (while_reaches _ _ _ _ _ Hreach). cbn [fst snd].
    rewrite while_last by (unfold scrape_cond; cbn [fst]; apply Z.leb_le; exact Hp).
    rewrite scrape_body_run, Hsite. cbv zeta. rewrite Hempty. reflexivity. }
  split; [exact Hrun|]. split; [exact Ha|].
  rewrite Hrun. cbn [snd].
  rewrite pages_before_next by lia.
  rewrite fetches_app, map_app, Hf. unfold page_events. cbn [fetches].
  rewrite fetches_ran. reflexivity.
Qed.

(** C3 on a site whose page 1 lists two products and whose page 2
    lists none, both linking to a next page. *)
Lemma C3_witness :
  scrape_products sample_runtime two_page_world sample_url =
    (Normal (products_of_page sample_runtime two_page_world sample_url 1),
     (page_events sample_runtime first_listing sample_url 1 ++ [Slept])
     ++ page_events sample_runtime empty_listing sample_url 2) /\
  products_of_page sample_runtime two_page_world sample_url 1 =
    flat_map (products_of_page sample_runtime two_page_world sample_url) (pages_before 2) /\
  fetches (snd (scrape_products sample_runtime two_page_world sample_url)) =
    List.map (_build_page_url sample_url) (pages_before (2 + 1)).
Proof.
  apply (C3_empty_page_stops sample_runtime two_page_world sample_url 1 2).
  - eapply reaches_pass; [apply reaches_start | reflexivity | reflexivity].
  - unfold max_pages. lia.
  - reflexivity.
  - reflexivity.
Defined.

(** C7 on the sample runtime. *)
Lemma C7_witness :
  (forall s, _clean_price sample_runtime s = strip (List.filter (price_char sample_runtime) s)) /\
  (forall s, _clean_price sample_runtime s = List.filter (price_char sample_runtime) s) /\
  (forall s c, In c (_clean_price sample_runtime s) -> price_char sample_runtime c = true) /\
  _clean_price sample_runtime [] = [] /\
  (forall s, _clean_price sample_runtime (_clean_price sample_runtime s) =
             _clean_price sample_runtime s) /\
  (forall s, (forall c, In c s -> price_char sample_runtime c = true) ->
             _clean_price sample_runtime s = s) /\
  _clean_price sample_runtime (u "$1,299.00 USD") = u "1,299.00".
Proof. exact (C7_clean_price sample_runtime sample_nd_not_space). Defined.

(** *** [scrape_products_with_progress] *)

Lemma bind_assoc {A B C} (m : M A) (k1 : A -> M B) (k2 : B -> M C) (log : list event) :
  bind (bind m k1) k2 log = bind m (fun a => bind (k1 a) k2) log.
Proof. unfold bind. destruct (m log) as [[a|v|e|] log']; reflexivity. Qed.

Lemma bind_emit_k {A} (e : event) (k : unit -> M A) (log : list event) :
  bind (emit e) k log = k tt (log ++ [e]).
Proof. reflexivity. Qed.

Lemma bind_raise {A B} (e : exn) (k : A -> M B) (log : list event) :
  bind (raise e) k log = (Raised e, log).
Proof. reflexivity. Qed.

Lemma bind_return {A B} (v : list product) (k : A -> M B) (log : list event) :
  bind (return_ v) k log = (Returned v, log).
Proof. reflexivity. Qed.

Lemma bind_select_strategies {A} (R : Runtime) (soup : Soup) (page_url : pystr) (p : Z)
  (k : list product -> M A) (log : list event) :
  bind (select_strategies R soup page_url p) k log =
  k (page_products R soup page_url p)
    (log ++ List.map (fun s => Ran s p) (strategies_run R soup page_url p)).
Proof. unfold bind. now rewrite select_strategies_run. Qed.

Lemma bind_commit {A} (W : World) (s : commit_site) (p : Z) (k : unit -> M A)
  (log : list event) :
  bind (commit W s p) k log =
  if commit_raises W s p then (Raised DatabaseError, log ++ [CommitFailed s p])
  else k tt (log ++ [Committed s p]).
Proof.
  unfold commit. destruct (commit_raises W s p); reflexivity.
Qed.

Lemma bind_guarded_commit {A} (W : World) (s : commit_site) (p : Z) (k : unit -> M A)
  (log : list event) :
  bind (guarded_commit W s p) k log =
  if commit_raises W s p then
    if rollback_raises W s p
    then (Raised DatabaseError, (log ++ [CommitFailed s p]) ++ [RollbackFailed])
    else k tt ((log ++ [CommitFailed s p]) ++ [RolledBack])
  else k tt (log ++ [Committed s p]).
Proof.
  unfold guarded_commit, try_except, commit, rollback.
  destruct (commit_raises W s p); [|reflexivity].
  destruct (rollback_raises W s p); reflexivity.
Qed.

Lemma bind_next_page_check {A} (R : Runtime) (soup : Soup) (page_url : pystr)
  (k : bool -> M A) (log : list event) :
  bind (next_page_check R soup page_url) k log =
  match _has_next_page R soup page_url with
  | Some has_next => k has_next log
  | None => (Raised ValueError, log)
  end.
Proof.
  unfold next_page_check. destruct (_has_next_page R soup page_url); reflexivity.
Qed.

Ltac run_body :=
  repeat first
    [ rewrite bind_assoc
    | rewrite bind_next_page_check
    | rewrite bind_emit_k
    | rewrite bind_ret
    | rewrite bind_raise
    | rewrite bind_return
    | rewrite bind_select_strategies
    | rewrite bind_guarded_commit
    | rewrite bind_commit ].

Ltac fetches_norm :=
  repeat rewrite fetches_app; cbn [fetches]; rewrite ?fetches_ran, ?app_nil_r.

Section ProgressRuns.
Variable R : Runtime.
Variable W : World.
Variable url : pystr.

Lemma progress_body_cases (p : Z) (all_products : list product) (j : option string)
  (log : list event) :
  match progress_body R W url (p, all_products, j) log with
  | (Normal (Next s'), log') =>
      exists soup,
        site W (_build_page_url url p) = Some soup /\
        page_products R soup (_build_page_url url p) p <> [] /\
        s' = (p + 1, all_products ++ page_products R soup (_build_page_url url p) p,
              job_status W p) /\
        fetches log' = fetches log ++ [_build_page_url url p]
  | (Normal (Break s'), log') =>
      fst (fst s') = p /\ fetches log' = fetches log ++ [_build_page_url url p]
  | (Returned v, log') => v = all_products /\ fetches log' = fetches log
  | (Raised e, log') => (length (fetches log') <= length (fetches log) + 1)%nat
  | (Unfinished, _) => False
  end.
Proof.
  unfold progress_body, fetch_page. run_body.
  destruct (job_status W p) as [status|]; [destruct (stops_run status)|].
  all: repeat (run_body; cbv beta iota;
    match goal with
    | |- context [site W ?x] => destruct (site W x) as [soup|] eqn:Hsite
    | |- context [match page_products ?a ?b ?c ?d with _ => _ end] =>
        destruct (page_products a b c d) as [|x xs] eqn:Hpp
    | |- context [commit_raises W ?s ?q] => destruct (commit_raises W s q)
    | |- context [rollback_raises W ?s ?q] => destruct (rollback_raises W s q)
    | |- context [_has_next_page ?a ?b ?c] =>
        destruct (_has_next_page a b c) as [[|]|]; cbn [negb]
    end).
  all: run_body; unfold ret; cbn [fst snd].
  all: try (fetches_norm; rewrite ?length_app; cbn [length]; lia).
  all: try (split; [reflexivity | fetches_norm; reflexivity]).
  all: try (exists soup; rewrite Hpp; repeat split; try congruence; fetches_norm; reflexivity).
Qed.
End ProgressRuns.

Section ProgressInvariant.

Variable R : Runtime.
Variable W : World.
Variable url : pystr.

Lemma progress_reaches_inv (k : nat) (start here : progress_state * list event) :
  reaches progress_cond (progress_body R W url) k start here ->
  start = ((1, [], None), []) -> progress_inv R W url k here.
Proof.
  induction 1 as [s l | k s0 l0 s l s' l' Hprev IH Hcond Hbody]; intros Hstart.
  - injection Hstart as -> ->. unfold progress_inv, max_pages. repeat split; lia.
  - specialize (IH Hstart). destruct s as [[q all_q] j].
    destruct IH as (Hq & Hle & Hf & Ha).
    unfold progress_cond in Hcond. cbn [fst] in Hcond. apply Z.leb_le in Hcond.
    pose proof (progress_body_cases R W url q all_q j l) as Hcases.
    rewrite Hbody in Hcases. destruct Hcases as (soup & Hsite & Hpp & -> & Hf').
    assert (Hq1 : 1 <= q) by lia.
    unfold progress_inv. rewrite (pages_before_next q Hq1).
    repeat split; try lia.
    + rewrite map_app, Hf', Hf. reflexivity.
    + rewrite flat_map_app. cbn [flat_map]. unfold products_of_page at 2.
      rewrite Hsite, app_nil_r. now rewrite Ha.
Qed.

Lemma final_update_run (p : Z) (all_products : list product) (job : option string)
  (log : list event) :
  (job = None \/ commit_raises W FinalUpdate p = false) ->
  exists log', final_update W (p, all_products, job) log = (Normal all_products, log') /\
               fetches log' = fetches log.
Proof.
  intros H. unfold final_update.
  destruct job as [status|]; run_body; unfold ret.
  - destruct H as [H|H]; [discriminate|]. rewrite H.
    eexists. split; [reflexivity|]. fetches_norm. reflexivity.
  - eexists. split; [reflexivity|]. reflexivity.
Qed.

Lemma final_update_fetches (s : progress_state) (log : list event) :
  fetches (snd (final_update W s log)) = fetches log /\
  fst (final_update W s log) <> Unfinished.
Proof.
  destruct s as [[p all_products] job]. unfold final_update.
  destruct job as [status|]; run_body; unfold ret.
  - destruct (commit_raises W FinalUpdate p); cbn [fst snd];
      (split; [fetches_norm; reflexivity | discriminate]).
  - split; [reflexivity | discriminate].
Qed.

Lemma with_progress_unfold (fuel : nat) :
  scrape_products_with_progress_fuel R W fuel url [] =
  match while_ fuel progress_cond (progress_body R W url) (1, [], None) [] with
  | (Normal s, log) => final_update W s log
  | (Returned v, log) => (Normal v, log)
  | (Raised e, log) => (Raised e, log)
  | (Unfinished, log) => (Unfinished, log)
  end.
Proof.
  unfold scrape_products_with_progress_fuel, call, bind, progress_loop.
  destruct (while_ fuel progress_cond (progress_body R W url) (1, [], None) [])
    as [[s|v|e|] log]; [|reflexivity..].
  destruct s as [[p all_products] job]. unfold final_update.
  destruct job as [status|]; run_body; [|reflexivity].
  destruct (commit_raises W FinalUpdate p); reflexivity.
Qed.

End ProgressInvariant.

(** C5.  When a run of [scrape_products_with_progress] stands at page
    [p] of at most ten and the job row read there says [cancelled] or
    [paused], the run returns the products it holds, which are those of
    the pages [1 .. p - 1]; the query is the last event of its log, and
    the pages it has fetched are [1 .. p - 1]: no fetch follows. *)
Theorem C5_cancel_returns_at_once (R : Runtime) (W : World) (url : pystr)
  (k : nat) (p : Z) (all_products : list product) (job : option string)
  (log : list event) (status : string) :
  reaches progress_cond (progress_body R W url) k
    ((1, [], None), []) ((p, all_products, job), log) ->
  p <= max_pages ->
  job_status W p = Some status ->
  status = "cancelled"%string \/ status = "paused"%string ->
  scrape_products_with_progress R W url = (Normal all_products, log ++ [Queried p]) /\
  all_products = flat_map (products_of_page R W url) (pages_before p) /\
  fetches (snd (scrape_products_with_progress R W url)) = fetches log /\
  fetches log = List.map (_build_page_url url) (pages_before p).
Proof.
  intros Hreach Hp Hjob Hstatus.
  destruct (progress_reaches_inv R W url k _ _ Hreach eq_refl) as (Hk & _ & Hf & Ha).
  assert (Hstop : stops_run status = true).
  { destruct Hstatus as [-> | ->]; reflexivity. }
  assert (Hrun : scrape_products_with_progress R W url =
                 (Normal all_products, log ++ [Queried p])).
  { unfold scrape_products_with_progress. rewrite with_progress_unfold.
    unfold loop_fuel, max_pages in *.
    replace 10%nat with (k + Datatypes.S (9 - k))%nat by lia.
    rewrite (while_reaches _ _ _ _ _ Hreach). cbn [fst snd].
    rewrite while_last by (unfold progress_cond; cbn [fst]; apply Z.leb_le; exact Hp).
    unfold progress_body. run_body. rewrite Hjob, Hstop. run_body. reflexivity. }
  split; [exact Hrun|]. split; [exact Ha|]. split; [|exact Hf].
  rewrite Hrun. cbn [snd]. fetches_norm. reflexivity.
Qed.

(** C5 on a job found cancelled before page 2. *)
Lemma C5_witness :
  scrape_products_with_progress sample_runtime cancelled_world sample_url =
    (Normal (products_of_page sample_runtime cancelled_world sample_url 1),
     snd (progress_body sample_runtime cancelled_world sample_url (1, [], None) [])
     ++ [Queried 2]) /\
  products_of_page sample_runtime cancelled_world sample_url 1 =
    flat_map (products_of_page sample_runtime cancelled_world sample_url) (pages_before 2) /\
  fetches (snd (scrape_products_with_progress sample_runtime cancelled_world sample_url)) =
    fetches (snd (progress_body sample_runtime cancelled_world sample_url (1, [], None) [])) /\
  fetches (snd (progress_body sample_runtime cancelled_world sample_url (1, [], None) [])) =
    List.map (_build_page_url sample_url) (pages_before 2).
Proof.
  apply (C5_cancel_returns_at_once sample_runtime cancelled_world sample_url 1 2
           (products_of_page sample_runtime cancelled_world sample_url 1)
           (Some "running"%string) _ "cancelled"%string).
  - eapply reaches_pass; [apply reaches_start | reflexivity | reflexivity].
  - unfold max_pages. lia.
  - reflexivity.
  - left. reflexivity.
Defined.

(** *** The page cap *)

Section Paced.

Context {S : Type} (page : S -> Z) (cond : S -> bool) (body : S -> M (flow S)).
Hypothesis cond_page : forall s, cond s = (page s <=? max_pages).
Hypothesis body_paced : paced page body.

Lemma while_fetch_bound (fuel : nat) (s : S) (log : list event) :
  (length (fetches (snd (while_ fuel cond body s log)))
   <= length (fetches log) + passes_left (page s))%nat.
Proof.
  revert s log. induction fuel as [|fuel IH]; intros s log.
  - cbn [while_]. destruct (cond s); unfold ret; cbv beta; cbn [snd]; lia.
  - destruct (cond s) eqn:Hc; [|rewrite while_exit by exact Hc; cbn [snd]; lia].
    rewrite while_last by exact Hc.
    rewrite cond_page in Hc. apply Z.leb_le in Hc.
    pose proof (body_paced s log) as Hb.
    destruct (body s log) as [[[s'|s']|v|e|] log']; cbn [snd];
      unfold passes_left in *; try lia; try contradiction.
    destruct Hb as [Hpage Hlen]. specialize (IH s' log'). rewrite Hpage in IH. lia.
Qed.

(** With fuel for the passes left the loop ends, and more fuel
    changes nothing. *)
Lemma while_enough_fuel (n fuel : nat) (s : S) (log : list event) :
  (passes_left (page s) <= n)%nat -> (n <= fuel)%nat ->
  while_ fuel cond body s log = while_ n cond body s log /\
  fst (while_ n cond body s log) <> Unfinished.
Proof.
  revert fuel s log. induction n as [|n IH]; intros fuel s log Hleft Hfuel.
  - assert (Hc : cond s = false).
    { rewrite cond_page. apply Z.leb_gt. unfold passes_left in Hleft. lia. }
    rewrite !while_exit by exact Hc. split; [reflexivity | discriminate].
  - destruct (cond s) eqn:Hc;
      [|rewrite !while_exit by exact Hc; split; [reflexivity | discriminate]].
    destruct fuel as [|fuel]; [lia|].
    rewrite !while_last by exact Hc.
    rewrite cond_page in Hc. apply Z.leb_le in Hc.
    pose proof (body_paced s log) as Hb.
    destruct (body s log) as [[[s'|s']|v|e|] log']; cbn [fst];
      try (split; [reflexivity | discriminate]); try contradiction.
    destruct Hb as [Hpage _]. apply IH; [|lia].
    unfold passes_left in *. rewrite Hpage. lia.
Qed.

End Paced.

Lemma scrape_body_paced (R : Runtime) (W : World) (url : pystr) :
  paced fst (scrape_body R W url).
Proof.
  intros [p all_products] log. rewrite scrape_body_run.
  destruct (site W (_build_page_url url p)) as [soup|];
    [|fetches_norm; rewrite length_app; cbn [length]; lia].
  cbv zeta. unfold page_events.
  destruct (page_products R soup (_build_page_url url p) p) as [|x xs];
    [|destruct (_has_next_page R soup (_build_page_url url p)) as [[|]|]];
    cbn [fst]; try split; try reflexivity;
    fetches_norm; rewrite ?length_app; cbn [length]; lia.
Qed.

Lemma progress_body_paced (R : Runtime) (W : World) (url : pystr) :
  paced progress_page (progress_body R W url).
Proof.
  intros [[p all_products] job] log. unfold progress_page.
  pose proof (progress_body_cases R W url p all_products job log) as H.
  destruct (progress_body R W url (p, all_products, job) log) as [[[s'|s']|v|e|] log'];
    try exact H.
  - destruct H as (soup & _ & _ & -> & ->). cbn [fst].
    split; [reflexivity|]. rewrite length_app. cbn [length]. lia.
  - destruct H as [_ ->]. rewrite length_app. cbn [length]. lia.
  - destruct H as [_ ->]. lia.
Qed.

(** No run fetches more than ten pages, whatever the pages say of a
    next page, and every run ends: ten passes of fuel suffice, and
    more change nothing. *)
Lemma runs_capped (R : Runtime) (W : World) (url : pystr) :
  (length (fetches (snd (scrape_products R W url))) <= 10)%nat /\
  (length (fetches (snd (scrape_products_with_progress R W url))) <= 10)%nat /\
  fst (scrape_products R W url) <> Unfinished /\
  fst (scrape_products_with_progress R W url) <> Unfinished /\
  (forall fuel, (10 <= fuel)%nat ->
     scrape_products_fuel R W fuel url [] = scrape_products R W url) /\
  (forall fuel, (10 <= fuel)%nat ->
     scrape_products_with_progress_fuel R W fuel url [] =
     scrape_products_with_progress R W url).
Proof.
  pose proof (scrape_body_paced R W url) as Hs.
  pose proof (progress_body_paced R W url) as Hp.
  assert (Hsc : forall s, scrape_cond s = (fst s <=? max_pages)) by reflexivity.
  assert (Hpc : forall s, progress_cond s = (progress_page s <=? max_pages)) by reflexivity.
  repeat apply conj.
  - unfold scrape_products. rewrite scrape_fuel_unfold.
    pose proof (while_fetch_bound fst scrape_cond _ Hsc Hs loop_fuel (1, []) []) as Hb.
    destruct (while_ loop_fuel scrape_cond (scrape_body R W url) (1, []) [])
      as [[s|v|e|] log]; exact Hb.
  - unfold scrape_products_with_progress. rewrite with_progress_unfold.
    pose proof (while_fetch_bound progress_page progress_cond _ Hpc Hp
                  loop_fuel (1, [], None) []) as Hb.
    destruct (while_ loop_fuel progress_cond (progress_body R W url) (1, [], None) [])
      as [[s|v|e|] log]; try exact Hb.
    rewrite (proj1 (final_update_fetches W s log)). exact Hb.
  - unfold scrape_products. rewrite scrape_fuel_unfold.
    pose proof (proj2 (while_enough_fuel fst scrape_cond _ Hsc Hs loop_fuel loop_fuel
                         (1, []) [] (le_n _) (le_n _))) as Hb.
    destruct (while_ loop_fuel scrape_cond (scrape_body R W url) (1, []) [])
      as [[s|v|e|] log]; try discriminate. now destruct Hb.
  - unfold scrape_products_with_progress. rewrite with_progress_unfold.
    pose proof (proj2 (while_enough_fuel progress_page progress_cond _ Hpc Hp
                         loop_fuel loop_fuel (1, [], None) [] (le_n _) (le_n _))) as Hb.
    destruct (while_ loop_fuel progress_cond (progress_body R W url) (1, [], None) [])
      as [[s|v|e|] log]; try discriminate; [|now destruct Hb].
    apply final_update_fetches.
  - intros fuel Hfuel. unfold scrape_products. rewrite !scrape_fuel_unfold.
    now rewrite (proj1 (while_enough_fuel fst scrape_cond _ Hsc Hs loop_fuel fuel
                          (1, []) [] (le_n _) Hfuel)).
  - intros fuel Hfuel. unfold scrape_products_with_progress.
    rewrite !with_progress_unfold.
    now rewrite (proj1 (while_enough_fuel progress_page progress_cond _ Hpc Hp
                          loop_fuel fuel (1, [], None) [] (le_n _) Hfuel)).
Qed.

(** A site that always offers a next page is left after ten pages. *)
Example endless_site_run :
  fetches (snd (scrape_products sample_runtime endless_world sample_url)) =
    List.map (_build_page_url sample_url) (pages_before 11) /\
  fst (scrape_products sample_runtime endless_world sample_url) =
    Normal (flat_map (products_of_page sample_runtime endless_world sample_url)
              (pages_before 11)) /\
  length (flat_map (products_of_page sample_runtime endless_world sample_url)
            (pages_before 11)) = 20%nat.
Proof. repeat split. Qed.

(** ** Runs on sample sites *)

(** C2.  The JSON-LD strategy emits a record for a [Product] without a
    name: its title is the empty string, and [scrape_products] returns
    it.  (The container and the single-product strategy do not: see
    [container_product_titled], [container_without_title] and
    [single_product_titled].) *)
Theorem C2_json_ld_record_without_title :
  _extract_json_ld_products sample_runtime (ld_page [ScriptJson nameless_ld])
    = [nameless_record] /\
  nameless_record !! "title" = Some (VStr []) /\
  fst (scrape_products sample_runtime nameless_world sample_url) = Normal [nameless_record].
Proof. repeat split. Qed.

(** C9.  With a running job and a one-page shop, a commit that raises
    where the page has no next page, or in the final update, ends
    [scrape_products_with_progress] with that exception and the
    product found is not returned; a commit that raises at the two
    guarded places does not, and the product is returned. *)
Theorem C9_unguarded_commit_aborts :
  fst (scrape_products_with_progress sample_runtime no_next_commit_fails sample_url)
    = Raised DatabaseError /\
  fst (scrape_products_with_progress sample_runtime final_commit_fails sample_url)
    = Raised DatabaseError /\
  fst (scrape_products_with_progress sample_runtime guarded_commits_fail sample_url)
    = Normal [widget_record].
Proof. repeat split. Qed.

(** The first end-to-end scenario of the specification: one page, one
    JSON-LD product, one fetch. *)
Example widget_shop_run :
  fst (scrape_products sample_runtime (standalone [(sample_url, widget_page)]) sample_url)
    = Normal [widget_record] /\
  fetches (snd (scrape_products sample_runtime (standalone [(sample_url, widget_page)])
                  sample_url)) = [sample_url] /\
  widget_record !! "title" = Some (str "Widget") /\
  widget_record !! "price" = Some (str "9.99") /\
  widget_record !! "currency" = Some (str "USD") /\
  widget_record !! "main_image_url" = Some (str "https://x/img.png").
Proof. repeat split. Qed.

(** The second end-to-end scenario of the specification: five tiles
    and a next link on page 1, three tiles and no next link on page 2;
    eight products in page order, two fetches. *)
Example two_page_listing_run :
  let page1 := listing_page [tile "A" "1"; tile "B" "2"; tile "C" "3";
                             tile "D" "4"; tile "E" "5"] true in
  let page2 := listing_page [tile "F" "6"; tile "G" "7"; tile "H" "8"] false in
  let W := standalone [(sample_url, page1); (_build_page_url sample_url 2, page2)] in
  fst (scrape_products sample_runtime W sample_url) =
    Normal (_extract_container_products sample_runtime page1 sample_url ++
            _extract_container_products sample_runtime page2 (_build_page_url sample_url 2)) /\
  List.map (fun p : product => p !! "title")
    (_extract_container_products sample_runtime page1 sample_url ++
     _extract_container_products sample_runtime page2 (_build_page_url sample_url 2)) =
    List.map (fun t => Some (str t)) ["A"; "B"; "C"; "D"; "E"; "F"; "G"; "H"]%string /\
  fetches (snd (scrape_products sample_runtime W sample_url)) =
    [sample_url; _build_page_url sample_url 2].
Proof. repeat split. Qed.

(** * Further properties *)

(** ** The container strategy *)

Lemma flat_map_if_product_length {A} (f : A -> option product) (l : list A) :
  (length (flat_map (fun x => if_product (f x)) l) <= length l)%nat.
Proof.
  induction l as [|x l IH]; [reflexivity|].
  cbn [flat_map]. rewrite length_app. cbn [length].
  assert (length (if_product (f x)) <= 1)%nat.
  { unfold if_product. destruct (f x) as [p|]; [|cbn; lia].
    destruct (truthy (VDict p)); cbn; lia. }
  lia.
Qed.

Lemma flat_map_if_product_Forall {A} (f : A -> option product) (P : product -> Prop)
  (l : list A) :
  (forall x p, f x = Some p -> P p) ->
  Forall P (flat_map (fun x => if_product (f x)) l).
Proof.
  intros HP. induction l as [|x l IH]; [constructor|].
  cbn [flat_map]. apply Forall_app. split; [|exact IH].
  unfold if_product. destruct (f x) as [p|] eqn:Hx; [|constructor].
  destruct (truthy (VDict p)); [|constructor].
  constructor; [|constructor]. now apply (HP x).
Qed.

Lemma container_loop_spec (R : Runtime) (soup : Soup) (base_url : pystr)
  (selectors : list string) :
  container_loop R soup base_url selectors = [] \/
  exists selector,
    In selector selectors /\
    select (root soup) selector <> [] /\
    container_loop R soup base_url selectors =
      flat_map (fun c => if_product (_extract_product_from_container R c base_url))
        (take 20 (select (root soup) selector)).
Proof.
  induction selectors as [|s rest IH]; [now left|].
  cbn [container_loop].
  destruct (select (root soup) s) as [|c cs] eqn:Hs.
  - destruct IH as [IH | (s' & Hin & Hne & IH)]; [now left|].
    right. exists s'. split; [now right|]. now split.
  - right. exists s. split; [now left|]. rewrite Hs. split; [discriminate | reflexivity].
Qed.

(** X1.  A page never yields more than twenty container records, and
    each of them has a non-empty title and exactly the ten container
    keys. *)
Theorem container_products_capped (R : Runtime) (soup : Soup) (base_url : pystr) :
  (length (_extract_container_products R soup base_url) <= 20)%nat /\
  Forall (fun p => titled p /\ dom p = container_keys)
    (_extract_container_products R soup base_url).
Proof.
  unfold _extract_container_products.
  destruct (container_loop_spec R soup base_url product_selectors)
    as [-> | (s & _ & _ & ->)]; [split; [cbn; lia | constructor]|].
  split.
  - etransitivity; [apply flat_map_if_product_length|].
    rewrite length_take. lia.
  - apply flat_map_if_product_Forall. intros c p Hp. split.
    + exact (container_product_titled R c base_url p Hp).
    + exact (container_product_dom R c base_url p Hp).
Qed.

Lemma container_loop_skip (R : Runtime) (soup : Soup) (base_url : pystr)
  (before rest : list string) :
  Forall (fun s => select (root soup) s = []) before ->
  container_loop R soup base_url (before ++ rest) = container_loop R soup base_url rest.
Proof.
  induction 1 as [|s before Hs _ IH]; [reflexivity|].
  cbn [app container_loop]. now rewrite Hs.
Qed.

(** X2.  The first selector of the list that matches anything decides
    alone: the records are those of its first twenty elements, in
    document order, and what the later selectors match is not read. *)
Theorem container_first_selector_wins (R : Runtime) (soup : Soup) (base_url : pystr)
  (before after : list string) (selector : string) :
  product_selectors = before ++ selector :: after ->
  Forall (fun s => select (root soup) s = []) before ->
  select (root soup) selector <> [] ->
  _extract_container_products R soup base_url =
    flat_map (fun c => if_product (_extract_product_from_container R c base_url))
      (take 20 (select (root soup) selector)).
Proof.
  intros Hsel Hbefore Hne. unfold _extract_container_products.
  rewrite Hsel, (container_loop_skip R soup base_url before _ Hbefore).
  cbn [container_loop].
  destruct (select (root soup) selector) as [|c cs]; [now destruct Hne | reflexivity].
Qed.

(** X2 on a listing whose tiles are matched by [.product], the second
    selector. *)
Lemma container_first_selector_wins_witness :
  _extract_container_products sample_runtime first_listing sample_url =
    flat_map (fun c => if_product (_extract_product_from_container sample_runtime c sample_url))
      (take 20 (select (root first_listing) ".product")).
Proof.
  apply (container_first_selector_wins sample_runtime first_listing sample_url
           [".product-item"%string]
           [".product-card"; ".woocommerce-product"; ".shop-item"; ".product-box";
            "[data-product-id]"; ".product-tile"; ".item-product"]%string
           ".product"%string).
  - reflexivity.
  - repeat constructor.
  - discriminate.
Defined.

(** ** The single-product strategy *)

Lemma gallery_urls_spec (R : Runtime) (url : pystr) (imgs : list Tag) (urls : list value) :
  gallery_urls R url imgs = Some urls ->
  (length urls <= length imgs)%nat /\ Forall is_str urls.
Proof.
  revert urls. induction imgs as [|img imgs IH]; intros urls; cbn [gallery_urls].
  - intros [= <-]. split; [reflexivity | constructor].
  - destruct (img_src_of img) as [src|].
    + destruct (urljoin R url src) as [full|]; [|discriminate].
      cbn [mbind option_bind].
      destruct (gallery_urls R url imgs) as [rest|]; [|discriminate].
      cbn [mbind option_bind]. intros [= <-].
      destruct (IH rest eq_refl) as [Hlen Hstr].
      split; [cbn [length]; lia|]. constructor; [now exists full | exact Hstr].
    + intros H. destruct (IH urls H) as [Hlen Hstr]. split; [cbn [length]; lia | exact Hstr].
Qed.

Lemma gallery_loop_images (R : Runtime) (soup : Soup) (url : pystr)
  (selectors : list string) (p q : product) :
  gallery_loop R soup url selectors p = Some q ->
  q = p \/
  exists first rest,
    q = <["main_image_url" := first]> (<["image_urls" := VList (first :: rest)]> p) /\
    (length (first :: rest) <= 5)%nat /\ Forall is_str (first :: rest).
Proof.
  induction selectors as [|selector more IH]; cbn [gallery_loop].
  - intros H. left. congruence.
  - destruct (select (root soup) selector) as [|img imgs]; [exact IH|].
    destruct (gallery_urls R url (take 5 (img :: imgs))) as [urls|] eqn:Hurls;
      [|discriminate].
    cbn [mbind option_bind]. intros H.
    destruct (gallery_urls_spec R url _ _ Hurls) as [Hlen Hstr].
    rewrite length_take in Hlen.
    destruct urls as [|first rest].
    + left. congruence.
    + right. exists first, rest. split; [congruence|]. split; [lia | exact Hstr].
Qed.

(** X3.  A single-product record has a non-empty title, a description
    of at most 1000 characters, at most five image URLs, all strings,
    and the first of them as its main image (the empty string when
    there is none). *)
Theorem single_product_bounds (R : Runtime) (soup : Soup) (url : pystr) (p : product) :
  _extract_single_product R soup url = Some p ->
  titled p /\
  (exists description,
     p !! "description" = Some (VStr description) /\ (length description <= 1000)%nat) /\
  (exists urls,
     p !! "image_urls" = Some (VList urls) /\
     (length urls <= 5)%nat /\ Forall is_str urls /\
     p !! "main_image_url" = Some (match urls with
                                   | first :: _ => first
                                   | [] => VStr []
                                   end)).
Proof.
  intros H. split; [exact (single_product_titled R soup url p H)|].
  destruct (single_product_inv R soup url p H) as (p3 & p4 & Hp3 & Himg & -> & _).
  split.
  - rewrite set_if_found_other by discriminate.
    rewrite (gallery_loop_other R _ _ _ _ _ _ Himg) by discriminate.
    subst p3. rewrite set_if_found_other by discriminate.
    destruct (first_match (root soup) desc_selectors) as [desc_elem|]; cbn [set_if_found].
    + rewrite lookup_insert_eq. eexists. split; [reflexivity|].
      rewrite length_take. lia.
    + rewrite set_if_found_other by discriminate.
      exists []. split; [reflexivity | cbn; lia].
  - assert (H3 : p3 !! "image_urls" = Some (VList []) /\
                 p3 !! "main_image_url" = Some (VStr [])).
    { subst p3. rewrite !set_if_found_other by discriminate. split; reflexivity. }
    destruct H3 as [Hi Hm].
    rewrite !set_if_found_other by discriminate.
    destruct (gallery_loop_images R soup url _ _ _ Himg)
      as [-> | (first & rest & -> & Hlen & Hstr)].
    + exists []. rewrite Hi, Hm. repeat split; [cbn; lia | constructor].
    + exists (first :: rest). rewrite lookup_insert_ne by discriminate.
      rewrite !lookup_insert_eq. repeat split; assumption.
Qed.

(** X3 on a page with a description of 1500 characters and seven
    gallery images. *)
Lemma single_product_bounds_witness :
  exists p,
    _extract_single_product sample_runtime gallery_page sample_url = Some p /\
    p !! "description" = Some (VStr (repeat 120%N 1000)) /\
    p !! "image_urls" = Some (VList [str "https://x/1.png"; str "https://x/2.png";
                                      str "https://x/3.png"; str "https://x/4.png";
                                      str "https://x/5.png"]) /\
    titled p /\
    (exists description,
       p !! "description" = Some (VStr description) /\ (length description <= 1000)%nat) /\
    (exists urls,
       p !! "image_urls" = Some (VList urls) /\
       (length urls <= 5)%nat /\ Forall is_str urls /\
       p !! "main_image_url" = Some (match urls with
                                     | first :: _ => first
                                     | [] => VStr []
                                     end)).
Proof.
  eexists. split; [reflexivity|]. split; [reflexivity|]. split; [reflexivity|].
  apply (single_product_bounds sample_runtime gallery_page sample_url). reflexivity.
Defined.

(** ** The JSON-LD strategy *)

Section JsonLdMapping.

Variable R : Runtime.

Lemma parse_product_stages (d : gmap string value) (p : product) :
  _parse_json_ld_product R (VDict d) = Some p ->
  exists p1,
    ld_offers d (ld_base R d) = Some p1 /\ ld_rating d (ld_images d p1) = Some p.
Proof.
  unfold _parse_json_ld_product. cbn [as_dict mbind option_bind].
  destruct (eq_str (dict_get d "@type" VNone) (u "Product")); [|discriminate].
  cbn [negb].
  destruct (ld_offers d (ld_base R d)) as [p1|]; [|discriminate].
  cbn [mbind option_bind]. intros H. now exists p1.
Qed.

Lemma ld_images_other (d : gmap string value) (p : product) (k : string) :
  k <> "image_urls"%string -> k <> "main_image_url"%string ->
  ld_images d p !! k = p !! k.
Proof.
  intros H1 H2. unfold ld_images.
  destruct (d !! "image") as [[]|]; try reflexivity;
    rewrite !lookup_insert_ne by congruence; reflexivity.
Qed.

Lemma ld_offers_read (d o : gmap string value) (p q : product) :
  ld_offers d p = Some q ->
  truthy (dict_get d "offers" (VDict ∅)) = true ->
  as_dict (match dict_get d "offers" (VDict ∅) with
           | VList l => List.nth 0 l VNone
           | v => v
           end) = Some o ->
  q !! "price" = Some (dict_get o "price" (VStr [])) /\
  q !! "currency" = Some (dict_get o "priceCurrency" (VStr [])) /\
  q !! "availability" = Some (dict_get o "availability" (VStr [])).
Proof.
  unfold ld_offers. cbv zeta. intros H Ht Ho. rewrite Ht in H.
  assert (Ho' : as_dict match dict_get d "offers" (VDict ∅) with
                        | VList l => List.nth 0 l VNone
                        | _ => dict_get d "offers" (VDict ∅)
                        end = Some o).
  { rewrite <- Ho. destruct (dict_get d "offers" (VDict ∅)); reflexivity. }
  rewrite Ho' in H. cbn [mbind option_bind] in H. injection H as <-.
  repeat split; repeat (rewrite lookup_insert_ne by discriminate);
    rewrite lookup_insert_eq; reflexivity.
Qed.

Lemma ld_offers_skipped (d : gmap string value) (p q : product) (k : string) :
  ld_offers d p = Some q ->
  truthy (dict_get d "offers" (VDict ∅)) = false -> q = p.
Proof.
  unfold ld_offers. cbv zeta. intros H Ht. rewrite Ht in H. congruence.
Qed.

(** What a record keeps of the offers, once the record exists. *)
Lemma parse_product_offers (d o : gmap string value) (p : product) :
  _parse_json_ld_product R (VDict d) = Some p ->
  truthy (dict_get d "offers" (VDict ∅)) = true ->
  as_dict (match dict_get d "offers" (VDict ∅) with
           | VList l => List.nth 0 l VNone
           | v => v
           end) = Some o ->
  p !! "price" = Some (dict_get o "price" (VStr [])) /\
  p !! "currency" = Some (dict_get o "priceCurrency" (VStr [])) /\
  p !! "availability" = Some (dict_get o "availability" (VStr [])).
Proof.
  intros H Ht Ho. destruct (parse_product_stages d p H) as (p1 & Hoff & Hrat).
  rewrite !(ld_rating_other d _ p _ Hrat) by discriminate.
  rewrite !ld_images_other by discriminate.
  exact (ld_offers_read d o _ p1 Hoff Ht Ho).
Qed.

Lemma truthy_dict_nonempty (o : gmap string value) : o <> ∅ -> truthy (VDict o) = true.
Proof.
  intros H. cbn [truthy]. rewrite bool_decide_eq_false_2; [reflexivity|].
  intros Hs. apply H. now apply map_size_empty_iff.
Qed.

(** X4.  The mapping of a JSON-LD [Product] onto its record: price,
    currency and availability are those of the [offers] object, or of
    the first one of a list of offers, with the empty string for a key
    the object lacks, and the three keys are absent without offers; an
    [image] string is the main image and the only image, the first of
    an [image] list is the main image and the list is kept as it is;
    rating and review count are those of a non-empty
    [aggregateRating] object, [None] for a key it lacks, and the two
    keys are absent without it. *)
Theorem json_ld_mapping (d : gmap string value) (p : product) :
  _parse_json_ld_product R (VDict d) = Some p ->
  (forall o, d !! "offers" = Some (VDict o) -> o <> ∅ ->
     p !! "price" = Some (dict_get o "price" (VStr [])) /\
     p !! "currency" = Some (dict_get o "priceCurrency" (VStr [])) /\
     p !! "availability" = Some (dict_get o "availability" (VStr []))) /\
  (forall o rest, d !! "offers" = Some (VList (VDict o :: rest)) ->
     p !! "price" = Some (dict_get o "price" (VStr [])) /\
     p !! "currency" = Some (dict_get o "priceCurrency" (VStr [])) /\
     p !! "availability" = Some (dict_get o "availability" (VStr []))) /\
  (d !! "offers" = None ->
     p !! "price" = None /\ p !! "currency" = None /\ p !! "availability" = None) /\
  (forall images, d !! "image" = Some (VStr images) ->
     p !! "main_image_url" = Some (VStr images) /\
     p !! "image_urls" = Some (VList [VStr images])) /\
  (forall first rest, d !! "image" = Some (VList (first :: rest)) ->
     p !! "main_image_url" = Some first /\
     p !! "image_urls" = Some (VList (first :: rest))) /\
  (forall r, d !! "aggregateRating" = Some (VDict r) -> r <> ∅ ->
     p !! "rating" = Some (dict_get r "ratingValue" VNone) /\
     p !! "review_count" = Some (dict_get r "reviewCount" VNone)) /\
  (d !! "aggregateRating" = None ->
     p !! "rating" = None /\ p !! "review_count" = None).
Proof.
  intros H. destruct (parse_product_stages d p H) as (p1 & Hoff & Hrat).
  repeat apply conj.
  - intros o Ho Hne. apply (parse_product_offers d o p H).
    + unfold dict_get. rewrite Ho. now apply truthy_dict_nonempty.
    + unfold dict_get. rewrite Ho. reflexivity.
  - intros o rest Ho. apply (parse_product_offers d o p H).
    + unfold dict_get. rewrite Ho. reflexivity.
    + unfold dict_get. rewrite Ho. reflexivity.
  - intros Ho.
    assert (p1 = ld_base R d) as ->.
    { apply (ld_offers_skipped d _ _ "price" Hoff). unfold dict_get. now rewrite Ho. }
    rewrite !(ld_rating_other d _ p _ Hrat) by discriminate.
    rewrite !ld_images_other by discriminate.
    repeat split.
  - intros images Hi. rewrite !(ld_rating_other d _ p _ Hrat) by discriminate.
    unfold ld_images. rewrite Hi. rewrite lookup_insert_eq.
    rewrite lookup_insert_ne by discriminate. now rewrite lookup_insert_eq.
  - intros first rest Hi. rewrite !(ld_rating_other d _ p _ Hrat) by discriminate.
    unfold ld_images. rewrite Hi. rewrite lookup_insert_eq.
    rewrite lookup_insert_ne by discriminate. now rewrite lookup_insert_eq.
  - intros r Hr Hne. unfold ld_rating in Hrat. cbv zeta in Hrat.
    assert (Hget : dict_get d "aggregateRating" (VDict ∅) = VDict r).
    { unfold dict_get. now rewrite Hr. }
    rewrite Hget, (truthy_dict_nonempty r Hne) in Hrat.
    cbn [as_dict mbind option_bind] in Hrat. injection Hrat as <-.
    rewrite lookup_insert_ne by discriminate. now rewrite !lookup_insert_eq.
  - intros Hr. unfold ld_rating in Hrat. cbv zeta in Hrat.
    assert (Hget : dict_get d "aggregateRating" (VDict ∅) = VDict ∅).
    { unfold dict_get. now rewrite Hr. }
    rewrite Hget in Hrat. change (truthy (VDict ∅)) with false in Hrat.
    injection Hrat as <-.
    rewrite !ld_images_other by discriminate.
    assert (Hk : forall k, k <> "price"%string -> k <> "currency"%string ->
                           k <> "availability"%string -> p1 !! k = ld_base R d !! k).
    { intros k. apply (ld_offers_other d _ p1 k Hoff). }
    rewrite !Hk by discriminate. split; reflexivity.
Qed.

End JsonLdMapping.

(** X4 on the widget of the samples. *)
Lemma json_ld_mapping_witness :
  widget_record !! "price" = Some (dict_get widget_offers "price" (VStr [])) /\
  widget_record !! "currency" = Some (dict_get widget_offers "priceCurrency" (VStr [])) /\
  widget_record !! "availability" = Some (dict_get widget_offers "availability" (VStr [])).
Proof.
  apply (proj1 (json_ld_mapping sample_runtime widget_fields widget_record eq_refl)
           widget_offers).
  - reflexivity.
  - intros H. apply (f_equal (fun m : gmap string value => m !! "price")) in H.
    discriminate H.
Defined.

Section JsonLdBlocks.

Variable R : Runtime.

Lemma ld_offers_some (d : gmap string value) (p : product) :
  is_Some (ld_offers d p) <-> readable_offers (dict_get d "offers" (VDict ∅)).
Proof.
  unfold ld_offers, readable_offers. cbv zeta.
  destruct (truthy (dict_get d "offers" (VDict ∅))) eqn:Ht.
  - destruct (dict_get d "offers" (VDict ∅)) as [| | | | |l|o] eqn:Ho;
      cbn [as_dict mbind option_bind].
    1-5: split; [intros [x Hx]; discriminate Hx
                |intros [H|[[o H]|(o & rest & H)]]; discriminate H].
    + destruct l as [|[| | | | | |o] rest]; cbn [List.nth as_dict mbind option_bind].
      1-7: split; [intros [x Hx]; discriminate Hx
                  |intros [H|[[o H]|(o & rest' & H)]]; discriminate H].
      split; [intros _; right; right; now exists o, rest | intros _; eauto].
    + split; [intros _; right; left; now exists o | intros _; eauto].
  - split; [intros _; now left | intros _; eauto].
Qed.

Lemma ld_rating_some (d : gmap string value) (p : product) :
  is_Some (ld_rating d p) <-> readable_rating (dict_get d "aggregateRating" (VDict ∅)).
Proof.
  unfold ld_rating, readable_rating. cbv zeta.
  destruct (truthy (dict_get d "aggregateRating" (VDict ∅))) eqn:Ht.
  - destruct (dict_get d "aggregateRating" (VDict ∅)) as [| | | | | |r] eqn:Hr;
      cbn [as_dict mbind option_bind].
    1-6: split; [intros [x Hx]; discriminate Hx | intros [H|[r H]]; discriminate H].
    split; [intros _; right; now exists r | intros _; eauto].
  - split; [intros _; now left | intros _; eauto].
Qed.

(** X5.  [_parse_json_ld_product] yields a record exactly for a [dict]
    whose [@type] is the string [Product], whose [offers] are absent,
    false, an object or a list that starts with an object, and whose
    [aggregateRating] is absent, false or an object.  Any other data
    yields no record: a product whose offers or rating are, say, a
    non-empty string is dropped whole. *)
Theorem json_ld_record_iff (data : value) :
  is_Some (_parse_json_ld_product R data) <->
  exists d,
    data = VDict d /\
    dict_get d "@type" VNone = VStr (u "Product") /\
    readable_offers (dict_get d "offers" (VDict ∅)) /\
    readable_rating (dict_get d "aggregateRating" (VDict ∅)).
Proof.
  unfold _parse_json_ld_product.
  destruct data as [| | | | | |d]; cbn [as_dict mbind option_bind].
  1-6: split; [intros [x Hx]; discriminate Hx | intros (d & Hd & _); discriminate Hd].
  assert (Htype : eq_str (dict_get d "@type" VNone) (u "Product") = true <->
                  dict_get d "@type" VNone = VStr (u "Product")).
  { unfold eq_str, pystr_eqb. destruct (dict_get d "@type" VNone); try (split; discriminate).
    rewrite bool_decide_eq_true. split; [now intros -> | now intros [= ->]]. }
  destruct (eq_str (dict_get d "@type" VNone) (u "Product")) eqn:Ht; cbn [negb].
  - pose proof (ld_offers_some d (ld_base R d)) as Hoff.
    destruct (ld_offers d (ld_base R d)) as [p1|]; cbn [mbind option_bind].
    + rewrite ld_rating_some. split.
      * intros Hr. exists d. repeat split; [now apply Htype | apply Hoff; eauto | exact Hr].
      * intros (d' & [= <-] & _ & _ & Hr). exact Hr.
    + split; [intros [x Hx]; discriminate Hx|].
      intros (d' & [= <-] & _ & Ho & _). apply Hoff in Ho. destruct Ho as [x Hx].
      discriminate Hx.
  - split; [intros [x Hx]; discriminate Hx|].
    intros (d' & [= <-] & Hty & _). apply Htype in Hty. discriminate Hty.
Qed.

Lemma json_ld_loop_acc (scripts : list Script) (products : list product) :
  json_ld_loop R scripts products = products ++ json_ld_loop R scripts [].
Proof.
  revert products. induction scripts as [|script scripts IH]; intros products.
  - cbn. now rewrite app_nil_r.
  - destruct script; cbn [json_ld_loop].
    + rewrite IH, (IH ([] ++ _)). cbn [app]. now rewrite app_assoc.
    + apply IH.
    + now rewrite app_nil_r.
    + now rewrite app_nil_r.
Qed.

Lemma json_ld_loop_app (scripts1 scripts2 : list Script) (products : list product) :
  Forall loads_or_rejects scripts1 ->
  json_ld_loop R (scripts1 ++ scripts2) products =
  json_ld_loop R scripts2 (json_ld_loop R scripts1 products).
Proof.
  intros H. revert products. induction H as [|script scripts1 Hs _ IH]; intros products.
  - reflexivity.
  - destruct script; cbn [app json_ld_loop];
      [apply IH | apply IH | destruct Hs | destruct Hs].
Qed.

(** A script at which [json.loads] raises anything but
    [JSONDecodeError] ends the loop: what follows it is not read. *)
Lemma json_ld_loop_ends (before after : list Script) (script : Script)
  (products : list product) :
  ~ loads_or_rejects script ->
  json_ld_loop R (before ++ script :: after) products = json_ld_loop R before products.
Proof.
  intros Hs. revert products. induction before as [|b before IH]; intros products.
  - destruct script; cbn [app json_ld_loop]; try reflexivity; now destruct Hs.
  - destruct b; cbn [app json_ld_loop]; try apply IH; reflexivity.
Qed.

(** X6.  As long as [json.loads] returns or raises [JSONDecodeError]
    on every script element (none lacks its string, and none makes it
    raise another exception, as an integer of too many digits or
    brackets nested too deep do), the products of a page are those of
    its blocks, block after block in document order: the products of
    two runs of blocks are the products of the first followed by those
    of the second, a malformed block gives nothing, and a block that is
    a list gives the records of its items in order.  A script element
    of the other kind ends the extraction: the result is that of the
    blocks before it.  The rest of the page plays no part. *)
Theorem json_ld_blocks_in_order (scripts1 scripts2 : list Script) (root1 root2 root3 : Tag) :
  Forall loads_or_rejects scripts1 ->
  _extract_json_ld_products R {| ld_json_scripts := scripts1 ++ scripts2; root := root1 |} =
    _extract_json_ld_products R {| ld_json_scripts := scripts1; root := root2 |} ++
    _extract_json_ld_products R {| ld_json_scripts := scripts2; root := root3 |} /\
  _extract_json_ld_products R {| ld_json_scripts := [ScriptMalformed]; root := root1 |} = [] /\
  (forall items,
     _extract_json_ld_products R
       {| ld_json_scripts := [ScriptJson (VList items)]; root := root1 |} =
     flat_map (fun item => if_product (_parse_json_ld_product R item)) items) /\
  (forall data, (forall items, data <> VList items) ->
     _extract_json_ld_products R {| ld_json_scripts := [ScriptJson data]; root := root1 |} =
     if_product (_parse_json_ld_product R data)) /\
  (forall script after, ~ loads_or_rejects script ->
     _extract_json_ld_products R
       {| ld_json_scripts := scripts2 ++ script :: after; root := root1 |} =
     _extract_json_ld_products R {| ld_json_scripts := scripts2; root := root2 |}).
Proof.
  intros H. unfold _extract_json_ld_products. cbn [ld_json_scripts].
  repeat apply conj.
  - rewrite (json_ld_loop_app _ _ _ H). apply json_ld_loop_acc.
  - reflexivity.
  - intros items. reflexivity.
  - intros data Hdata. cbn [json_ld_loop app]. unfold block_products.
    destruct data; try reflexivity. now destruct (Hdata l).
  - intros script after Hs. now apply json_ld_loop_ends.
Qed.

End JsonLdBlocks.

(** X5 on a product whose offers are the string ["N/A"]. *)
Example string_offers_dropped :
  _parse_json_ld_product sample_runtime string_offers_ld = None /\
  _extract_json_ld_products sample_runtime (ld_page [ScriptJson string_offers_ld]) = [].
Proof. split; reflexivity. Qed.

(** X6 on a malformed block between two product blocks. *)
Lemma json_ld_blocks_in_order_witness :
  _extract_json_ld_products sample_runtime
    {| ld_json_scripts := [ScriptJson widget_ld; ScriptMalformed] ++ [ScriptJson bare_ld];
       root := empty_tag |} =
    _extract_json_ld_products sample_runtime
      {| ld_json_scripts := [ScriptJson widget_ld; ScriptMalformed]; root := empty_tag |} ++
    _extract_json_ld_products sample_runtime
      {| ld_json_scripts := [ScriptJson bare_ld]; root := empty_tag |}.
Proof.
  apply (json_ld_blocks_in_order sample_runtime [ScriptJson widget_ld; ScriptMalformed]
           [ScriptJson bare_ld] empty_tag empty_tag empty_tag).
  repeat constructor.
Defined.

(** ** Page numbers and page URLs *)

Section PageNumbers.

Variable R : Runtime.

Lemma digit_value_ascii (c : N) :
  ascii_digit c = true -> digit_value R c = Z.of_N c - 48.
Proof. intros H. unfold digit_value. now rewrite H. Qed.

Lemma u_cons (c : ascii) (s : string) : u (String c s) = N_of_ascii c :: u s.
Proof. reflexivity. Qed.

Lemma fold_uint_acc (d : Decimal.uint) (acc : positive) :
  fold_left (fun acc c => 10 * acc + digit_value R c)
    (u (NilEmpty.string_of_uint d)) (Zpos acc) = Zpos (Pos.of_uint_acc d acc).
Proof.
  revert acc. induction d; intros acc; cbn [NilEmpty.string_of_uint Pos.of_uint_acc].
  1: reflexivity.
  all: rewrite u_cons; cbn [fold_left];
    rewrite digit_value_ascii by reflexivity;
    rewrite <- IHd; f_equal; cbn; lia.
Qed.

Lemma fold_uint (d : Decimal.uint) :
  fold_left (fun acc c => 10 * acc + digit_value R c)
    (u (NilEmpty.string_of_uint d)) 0 = Z.of_N (Pos.of_uint d).
Proof.
  induction d; cbn [NilEmpty.string_of_uint Pos.of_uint].
  1: reflexivity.
  1: rewrite u_cons; cbn [fold_left]; rewrite digit_value_ascii by reflexivity; exact IHd.
  all: rewrite u_cons; cbn [fold_left]; rewrite digit_value_ascii by reflexivity;
    cbn [Z.of_N]; rewrite <- fold_uint_acc; f_equal.
Qed.

Lemma int_of_str_of_int (n : Z) : 0 <= n -> int_of_digits R (str_of_int n) = n.
Proof.
  intros Hn. unfold int_of_digits, str_of_int.
  destruct n as [|p|p]; [reflexivity| |lia].
  cbn [Z.to_int]. unfold NilZero.string_of_int, NilZero.string_of_uint.
  pose proof (DecimalPos.Unsigned.to_uint_nonnil p) as Hnn.
  destruct (Pos.to_uint p) eqn:Hp; [now destruct Hnn|..];
  rewrite <- Hp; rewrite fold_uint, DecimalPos.Unsigned.of_to; reflexivity.
Qed.

Lemma uint_digits (d : Decimal.uint) (c : N) :
  In c (u (NilEmpty.string_of_uint d)) -> ascii_digit c = true.
Proof.
  induction d; cbn [NilEmpty.string_of_uint]; [intros []|..];
    rewrite u_cons; intros [<-|H]; try reflexivity; now apply IHd.
Qed.

Lemma str_of_int_digits (n : Z) (c : N) :
  0 <= n -> In c (str_of_int n) -> ascii_digit c = true.
Proof.
  intros Hn. unfold str_of_int.
  destruct n as [|p|p]; [intros [<-|[]]; reflexivity| |lia].
  cbn [Z.to_int]. unfold NilZero.string_of_int, NilZero.string_of_uint.
  pose proof (DecimalPos.Unsigned.to_uint_nonnil p) as Hnn.
  destruct (Pos.to_uint p) eqn:Hp; [now destruct Hnn|..];
  rewrite <- Hp; apply uint_digits.
Qed.

Lemma str_of_int_nonempty (n : Z) : str_of_int n <> [].
Proof.
  unfold str_of_int. destruct n as [|p|p]; [discriminate|..];
   cbn [Z.to_int]; unfold NilZero.string_of_int, NilZero.string_of_uint.
  - pose proof (DecimalPos.Unsigned.to_uint_nonnil p) as Hnn.
    destruct (Pos.to_uint p) eqn:Hp; [now destruct Hnn|..]; discriminate.
  - discriminate.
Qed.

Lemma straddle (b s tail : pystr) :
  startswith b (u "page") = false -> head_clear s = true ->
  strip_prefix (u "page" ++ tail) (b ++ s) = None.
Proof.
  unfold startswith, head_clear. change (u "page") with [112; 97; 103; 101]%N.
  intros Hb Hs.
  assert (Hs' : match s with
                | [] => True
                | c :: _ => c <> 112%N /\ c <> 97%N /\ c <> 103%N /\ c <> 101%N
                end).
  { destruct s as [|c s']; [exact I|]. cbn [existsb] in Hs.
    rewrite !negb_true_iff, !orb_false_iff, !N.eqb_neq in Hs. tauto. }
  clear Hs.
  destruct s as [|c s']; destruct b as [|x1 [|x2 [|x3 [|x4 b']]]];
    cbn -[N.eqb] in Hb |- *.
  all: repeat (match goal with
       | H : context [(?a =? ?c)%N] |- _ => destruct (N.eqb_spec a c); subst
       | |- context [(?a =? ?c)%N] => destruct (N.eqb_spec a c); subst
       end; cbn -[N.eqb] in Hb |- * ); try reflexivity; try discriminate;
       try (exfalso; tauto).
Qed.

Lemma digits_after_clear (prefixes : list pystr) (c : N) (b s : pystr) :
  Forall page_prefix prefixes ->
  startswith b (u "page") = false -> head_clear s = true ->
  digits_after R prefixes (c :: b ++ s) = None.
Proof.
  intros Hp Hb Hs. induction Hp as [|prefix prefixes (c0 & tail & ->) _ IH];
    [reflexivity|].
  cbn [digits_after strip_prefix].
  destruct (c0 =? c)%N; [|exact IH].
  now rewrite (straddle b s tail Hb Hs).
Qed.

Lemma search_digits_after_cons (prefixes : list pystr) (c : N) (s : pystr) :
  search_digits_after R prefixes (c :: s) =
  match digits_after R prefixes (c :: s) with
  | Some ds => Some ds
  | None => search_digits_after R prefixes s
  end.
Proof. reflexivity. Qed.

Lemma search_skip (prefixes : list pystr) (b s : pystr) :
  Forall page_prefix prefixes ->
  contains (u "page") b = false -> head_clear s = true ->
  search_digits_after R prefixes (b ++ s) = search_digits_after R prefixes s.
Proof.
  intros Hp Hb Hs. induction b as [|c b IH]; [reflexivity|].
  cbn [contains] in Hb. apply orb_false_iff in Hb as [_ Hb].
  assert (Hb' : startswith b (u "page") = false).
  { destruct b; cbn [contains] in Hb; apply orb_false_iff in Hb; tauto. }
  rewrite <- app_comm_cons, search_digits_after_cons.
  rewrite (digits_after_clear prefixes c b s Hp Hb' Hs). now apply IH.
Qed.

Lemma strip_prefix_app (prefix s : pystr) : strip_prefix prefix (prefix ++ s) = Some s.
Proof.
  induction prefix as [|c prefix IH]; [reflexivity|].
  rewrite <- app_comm_cons. cbn [strip_prefix]. now rewrite N.eqb_refl.
Qed.

Lemma digits_prefix_app (ds rest : pystr) :
  (forall c, In c ds -> ascii_digit c = true) ->
  digits_prefix R rest = ([], rest) ->
  digits_prefix R (ds ++ rest) = (ds, rest).
Proof.
  intros Hds Hrest. induction ds as [|c ds IH]; [exact Hrest|].
  rewrite <- app_comm_cons. cbn [digits_prefix]. unfold re_digit. rewrite (Hds c) by now left.
  cbn [orb]. rewrite IH; [reflexivity|]. intros d Hd. apply Hds. now right.
Qed.

Lemma search_no_first_char (prefixes : list pystr) (s : pystr) :
  Forall (fun prefix => exists c tail, prefix = c :: tail /\ ~ In c s) prefixes ->
  search_digits_after R prefixes s = None.
Proof.
  intros Hp. induction s as [|d s IH].
  - cbn [search_digits_after].
    assert (H : digits_after R prefixes [] = None).
    { induction Hp as [|prefix prefixes (c & tail & -> & _) _ IH];
        [reflexivity | exact IH]. }
    now rewrite H.
  - rewrite search_digits_after_cons.
    assert (H : digits_after R prefixes (d :: s) = None).
    { clear IH. induction Hp as [|prefix prefixes (c & tail & -> & Hc) _ IH];
        [reflexivity|].
      cbn [digits_after strip_prefix].
      destruct (N.eqb_spec c d) as [->|_]; [destruct Hc; now left | exact IH]. }
    rewrite H. apply IH.
    eapply Forall_impl; [exact Hp|]. intros prefix (c & tail & -> & Hc).
    exists c, tail. split; [reflexivity|]. intros Hin. apply Hc. now right.
Qed.

Lemma build_page_url_joined (base_url : pystr) (n : Z) :
  1 < n ->
  _build_page_url base_url n =
    if char_in 63 base_url then base_url ++ (u "&page=" ++ str_of_int n)
    else drop_slash base_url ++ (u "/page/" ++ str_of_int n ++ u "/").
Proof.
  intros Hn. rewrite build_page_url_later by exact Hn.
  destruct (char_in 63 base_url); [reflexivity|].
  unfold drop_slash. destruct (endswith_char base_url 47) eqn:Hs; [|reflexivity].
  rewrite (endswith_char_split base_url 47 Hs) at 1.
  rewrite <- app_assoc. reflexivity.
Qed.

Lemma startswith_app (x y needle : pystr) :
  startswith x needle = true -> startswith (x ++ y) needle = true.
Proof.
  unfold startswith. revert x. induction needle as [|c needle IH]; intros x; [reflexivity|].
  destruct x as [|d x]; [discriminate|].
  rewrite <- app_comm_cons. cbn [strip_prefix]. destruct (c =? d)%N; [apply IH | discriminate].
Qed.

Lemma contains_app_l (needle x y : pystr) :
  contains needle (x ++ y) = false -> contains needle x = false.
Proof.
  induction x as [|d x IH].
  - destruct needle; [|reflexivity]. destruct y; discriminate.
  - rewrite <- app_comm_cons. cbn [contains]. rewrite !orb_false_iff.
    intros [Hs Hc]. split; [|now apply IH].
    destruct (startswith (d :: x) needle) eqn:Hx; [|reflexivity].
    apply (startswith_app _ y) in Hx. rewrite <- app_comm_cons in Hx. congruence.
Qed.

Lemma contains_drop_slash (needle base_url : pystr) :
  contains needle base_url = false -> contains needle (drop_slash base_url) = false.
Proof.
  unfold drop_slash. destruct (endswith_char base_url 47) eqn:Hs; [|tauto].
  intros H. rewrite (endswith_char_split base_url 47 Hs) in H.
  exact (contains_app_l _ _ _ H).
Qed.

Lemma page_patterns_prefixes : Forall (Forall page_prefix) page_patterns.
Proof. repeat constructor; eexists _, _; reflexivity. Qed.

Lemma search_clear_nil (prefixes : list pystr) (b : pystr) :
  Forall page_prefix prefixes -> contains (u "page") b = false ->
  search_digits_after R prefixes b = None.
Proof.
  intros Hp Hb. rewrite <- (app_nil_r b).
  rewrite (search_skip prefixes b [] Hp Hb eq_refl).
  cbn [search_digits_after].
  assert (H : digits_after R prefixes [] = None).
  { induction Hp as [|prefix prefixes (c & tail & ->) _ IH]; [reflexivity | exact IH]. }
  now rewrite H.
Qed.

Lemma digits_after_here (prefix rest_prefixes ds rest : pystr) (others : list pystr) :
  ds <> [] ->
  (forall c, In c ds -> ascii_digit c = true) ->
  digits_prefix R rest = ([], rest) ->
  digits_after R (prefix :: others) (prefix ++ ds ++ rest) = Some ds.
Proof.
  intros Hne Hds Hrest. cbn [digits_after].
  rewrite strip_prefix_app, (digits_prefix_app ds rest Hds Hrest).
  destruct ds; [now destruct Hne | reflexivity].
Qed.

Lemma digits_after_miss (prefix : pystr) (others : list pystr) (s : pystr) :
  strip_prefix prefix s = None ->
  digits_after R (prefix :: others) s = digits_after R others s.
Proof. intros H. cbn [digits_after]. now rewrite H. Qed.

Lemma slash_not_digit_start (rest : pystr) : digits_prefix R (47%N :: rest) = ([], 47%N :: rest).
Proof. reflexivity. Qed.

(** The page number of a built URL. *)
Lemma page_number_of_built_url (base_url : pystr) (n : Z) :
  1 <= n -> contains (u "page") base_url = false ->
  _extract_page_number_from_url R (_build_page_url base_url n) =
    if int_readable n then Some n else None.
Proof.
  intros Hn Hbase. unfold _extract_page_number_from_url.
  pose proof page_patterns_prefixes as Hpp.
  unfold page_patterns in *.
  apply Forall_cons in Hpp as [H1 Hpp]. apply Forall_cons in Hpp as [H2 Hpp].
  apply Forall_cons in Hpp as [H3 _].
  destruct (Z.eq_dec n 1) as [->|Hne].
  - change (_build_page_url base_url 1) with base_url. cbn [first_pattern].
    rewrite !(search_clear_nil _ base_url) by assumption. reflexivity.
  - assert (Hgt : 1 < n) by lia.
    assert (Hds : forall c, In c (str_of_int n) -> ascii_digit c = true).
    { intros c. apply str_of_int_digits. lia. }
    pose proof (str_of_int_nonempty n) as Hnn.
    rewrite build_page_url_joined by exact Hgt.
    destruct (char_in 63 base_url).
    + cbn [first_pattern].
      rewrite (search_skip _ base_url (u "&page=" ++ str_of_int n) H1 Hbase eq_refl).
      rewrite search_no_first_char.
      2:{ constructor; [|constructor]. exists 47%N, (u "page/"). split; [reflexivity|].
          intros Hin. apply in_app_or in Hin as [Hin|Hin].
          - cbn in Hin. intuition discriminate.
          - apply Hds in Hin. discriminate Hin. }
      rewrite (search_skip _ base_url (u "&page=" ++ str_of_int n) H2 Hbase eq_refl).
      assert (Hhere : search_digits_after R [u "?page="; u "&page="]
                        (u "&page=" ++ str_of_int n) = Some (str_of_int n)).
      { replace (u "&page=" ++ str_of_int n) with (u "&page=" ++ str_of_int n ++ [])
          by now rewrite app_nil_r.
        change (u "&page=" ++ str_of_int n ++ [])
          with (38%N :: (u "page=" ++ str_of_int n ++ [])).
        rewrite search_digits_after_cons.
        change (38%N :: (u "page=" ++ str_of_int n ++ []))
          with (u "&page=" ++ str_of_int n ++ []).
        rewrite digits_after_miss by reflexivity.
        rewrite (digits_after_here (u "&page=") [] (str_of_int n) [] [] Hnn Hds eq_refl).
        reflexivity. }
      rewrite Hhere. unfold py_int, int_readable.
      rewrite int_of_str_of_int by lia. reflexivity.
    + cbn [first_pattern].
      rewrite (search_skip _ _ (u "/page/" ++ str_of_int n ++ u "/") H1
                 (contains_drop_slash _ _ Hbase) eq_refl).
      assert (Hhere : search_digits_after R [u "/page/"]
                        (u "/page/" ++ str_of_int n ++ u "/") = Some (str_of_int n)).
      { change (u "/page/" ++ str_of_int n ++ u "/")
          with (47%N :: (u "page/" ++ str_of_int n ++ u "/")).
        rewrite search_digits_after_cons.
        change (47%N :: (u "page/" ++ str_of_int n ++ u "/"))
          with (u "/page/" ++ str_of_int n ++ u "/").
        rewrite (digits_after_here (u "/page/") [] (str_of_int n) (u "/") [] Hnn Hds eq_refl).
        reflexivity. }
      rewrite Hhere. unfold py_int, int_readable.
      rewrite int_of_str_of_int by lia. reflexivity.
Qed.

(** X7.  The page number read back from the URL built for page [n] is
    [n], for every base URL that does not itself contain [page]: for
    the base URL itself (page 1), for the [&page=n] form and for the
    [/page/n/] form.  This holds for every page number [int] reads,
    one of at most 4300 digits; on the URL of a longer one the reading
    raises. *)
Theorem page_number_round_trip (base_url : pystr) (n : Z) :
  1 <= n -> contains (u "page") base_url = false ->
  _extract_page_number_from_url R (_build_page_url base_url n) =
    if int_readable n then Some n else None.
Proof. exact (page_number_of_built_url base_url n). Qed.

Lemma str_of_int_inj (n m : Z) : 0 <= n -> 0 <= m -> str_of_int n = str_of_int m -> n = m.
Proof.
  intros Hn Hm H. apply (f_equal (int_of_digits R)) in H.
  now rewrite !int_of_str_of_int in H.
Qed.

Lemma drop_slash_length (base_url : pystr) :
  (length base_url <= length (drop_slash base_url) + 1)%nat.
Proof.
  unfold drop_slash. destruct (endswith_char base_url 47) eqn:Hs; [|lia].
  rewrite (endswith_char_split base_url 47 Hs) at 1. rewrite length_app. cbn [length]. lia.
Qed.

Lemma build_page_url_longer (base_url : pystr) (n : Z) :
  1 < n -> (length base_url < length (_build_page_url base_url n))%nat.
Proof.
  intros Hn. rewrite build_page_url_joined by exact Hn.
  destruct (char_in 63 base_url); rewrite !length_app.
  - change (length (u "&page=")) with 6%nat. lia.
  - pose proof (drop_slash_length base_url). change (length (u "/page/")) with 6%nat.
    change (length (u "/")) with 1%nat. lia.
Qed.

(** Different pages of one base URL have different URLs. *)
Lemma build_page_url_inj (base_url : pystr) (n m : Z) :
  1 <= n -> 1 <= m -> _build_page_url base_url n = _build_page_url base_url m -> n = m.
Proof.
  intros Hn Hm H.
  destruct (Z.eq_dec n 1) as [->|Hn1]; destruct (Z.eq_dec m 1) as [->|Hm1];
    [reflexivity| | |].
  - pose proof (build_page_url_longer base_url m ltac:(lia)) as Hl.
    rewrite <- H in Hl. change (_build_page_url base_url 1) with base_url in Hl. lia.
  - pose proof (build_page_url_longer base_url n ltac:(lia)) as Hl.
    rewrite H in Hl. change (_build_page_url base_url 1) with base_url in Hl. lia.
  - rewrite !build_page_url_joined in H by lia.
    apply str_of_int_inj; [lia..|].
    destruct (char_in 63 base_url).
    + apply app_inv_head in H. now apply app_inv_head in H.
    + apply app_inv_head in H. apply app_inv_head in H. now apply app_inv_tail in H.
Qed.

(** X8.  On the page built for page [n] of such a base URL, with no
    next-link indicator on it and pagination links that point to the
    URLs built for the pages [targets], [_has_next_page] answers
    whether one of the targets lies beyond [n].  The page numbers are
    those a URL is built for: numbers [int] reads. *)
Theorem pagination_links_decide (soup : Soup) (base_url : pystr) (n : Z)
  (links : list Tag) (targets : list Z) :
  1 <= n ->
  int_readable n = true ->
  contains (u "page") base_url = false ->
  first_match (root soup) next_indicators = None ->
  select (root soup) ".pagination a, .page-numbers a, .wp-pagenavi a" = links ->
  Forall2 (fun link m => 1 <= m /\ int_readable m = true /\
                         attrs link !! "href" = Some (_build_page_url base_url m))
    links targets ->
  _has_next_page R soup (_build_page_url base_url n) =
    Some (existsb (fun m => n <? m) targets).
Proof.
  intros Hn Hrn Hbase Hind Hsel Hlinks. unfold _has_next_page. rewrite Hind, Hsel.
  rewrite (page_number_of_built_url base_url n Hn Hbase), Hrn. clear Hsel.
  cbn [mbind option_bind].
  induction Hlinks as [|link m links targets (Hm & Hrm & Hhref) _ IH]; [reflexivity|].
  cbn [existsb links_loop]. unfold pystr in *. rewrite Hhref.
  destruct (_build_page_url base_url m) as [|c href] eqn:Hb.
  - rewrite IH.
    destruct (Z.eq_dec m 1) as [->|Hm1];
      [now replace (n <? 1) with false by (symmetry; apply Z.ltb_ge; lia)|].
    pose proof (build_page_url_longer base_url m ltac:(lia)) as Hl.
    rewrite Hb in Hl. cbn in Hl. lia.
  - rewrite <- Hb, (page_number_of_built_url base_url m Hm Hbase), Hrm.
    cbn [mbind option_bind].
    destruct (Z.eqb_spec m 0); [lia|]. cbn [negb andb].
    destruct (n <? m); [reflexivity | exact IH].
Qed.
End PageNumbers.

(** X7 on [https://shop.example/cat], page 3. *)
Lemma page_number_round_trip_witness :
  _extract_page_number_from_url sample_runtime (_build_page_url sample_url 3) =
    if int_readable 3 then Some 3 else None.
Proof.
  apply (page_number_round_trip sample_runtime sample_url 3).
  - lia.
  - reflexivity.
Defined.

(** The page number 3 is read back as it is. *)
Example page_three_read_back :
  _extract_page_number_from_url sample_runtime (_build_page_url sample_url 3) = Some 3.
Proof. reflexivity. Qed.

(** A link whose page number has 4301 digits makes the reading, and
    with it the check for a next page, raise. *)
Example long_page_number_raises :
  _extract_page_number_from_url sample_runtime
    (u "/page/" ++ repeat 57%N 4301) = None /\
  _extract_page_number_from_url sample_runtime
    (u "/page/" ++ repeat 57%N 4300) <> None.
Proof. split; [vm_compute; reflexivity | vm_compute; discriminate]. Qed.

(** X8 on page 2 of a listing whose links point to the pages 1, 2 and 3. *)
Lemma pagination_links_decide_witness :
  _has_next_page sample_runtime paginated_page (_build_page_url sample_url 2) =
    Some (existsb (fun m => 2 <? m) [1; 2; 3]).
Proof.
  apply (pagination_links_decide sample_runtime paginated_page sample_url 2
           paginated_links [1; 2; 3]).
  - lia.
  - reflexivity.
  - reflexivity.
  - reflexivity.
  - reflexivity.
  - repeat constructor; lia.
Defined.

(** ** Whole runs of [scrape_products] *)

Section WholeRuns.

Variable R : Runtime.
Variable W : World.
Variable url : pystr.

Lemma stops_at_false (p : Z) :
  stops_at R W url p = false ->
  exists soup x xs,
    site W (_build_page_url url p) = Some soup /\
    page_products R soup (_build_page_url url p) p = x :: xs /\
    _has_next_page R soup (_build_page_url url p) = Some true.
Proof.
  unfold stops_at.
  destruct (site W (_build_page_url url p)) as [soup|]; [|discriminate].
  destruct (page_products R soup (_build_page_url url p) p) as [|x xs] eqn:Hpp;
    [discriminate|].
  destruct (_has_next_page R soup (_build_page_url url p)) as [[|]|] eqn:Hnext;
    [|discriminate..].
  intros _. now exists soup, x, xs.
Qed.

(** Pages that do not end the run are passed one after the other. *)
Lemma scrape_reaches_nonstop (k : nat) :
  Z.of_nat k <= max_pages ->
  (forall j, 1 <= j <= Z.of_nat k -> stops_at R W url j = false) ->
  exists all_products log,
    reaches scrape_cond (scrape_body R W url) k
      ((1, []), []) ((Z.of_nat k + 1, all_products), log).
Proof.
  induction k as [|k IH]; intros Hk Hnon.
  - exists [], []. apply reaches_start.
  - destruct IH as (all_products & log & Hreach); [lia | intros j Hj; apply Hnon; lia|].
    destruct (stops_at_false (Z.of_nat k + 1)) as (soup & x & xs & Hsite & Hpp & Hnext);
      [apply Hnon; lia|].
    eexists _, _. eapply reaches_pass; [exact Hreach | |].
    + unfold scrape_cond. cbn [fst]. apply Z.leb_le. lia.
    + rewrite scrape_body_run, Hsite. cbv zeta. rewrite Hpp, Hnext.
      replace (Z.of_nat (S k) + 1) with (Z.of_nat k + 1 + 1) by lia. reflexivity.
Qed.

(** The run up to its last page. *)
Lemma scrape_run_to_last_page (q : Z) :
  last_page R W url q ->
  fst (scrape_products R W url) =
    match site W (_build_page_url url q) with
    | None => Raised RequestException
    | Some soup =>
        match page_products R soup (_build_page_url url q) q,
              _has_next_page R soup (_build_page_url url q) with
        | _ :: _, None => Raised ValueError
        | _, _ => Normal (flat_map (products_of_page R W url) (pages_before (q + 1)))
        end
    end /\
  fetches (snd (scrape_products R W url)) =
    List.map (_build_page_url url) (pages_before (q + 1)).
Proof.
  intros ([Hq1 Hq10] & Hnon & Hlast).
  destruct (scrape_reaches_nonstop (Z.to_nat (q - 1))) as (all_products & log & Hreach);
    [lia | intros j Hj; apply Hnon; lia|].
  replace (Z.of_nat (Z.to_nat (q - 1)) + 1) with q in Hreach by lia.
  destruct (scrape_reaches_inv R W url _ _ _ Hreach eq_refl) as (_ & _ & Hf & Ha).
  unfold scrape_products. rewrite scrape_fuel_unfold. unfold loop_fuel, max_pages in *.
  replace 10%nat with (Z.to_nat (q - 1) + S (Z.to_nat (10 - q)))%nat by lia.
  rewrite (while_reaches _ _ _ _ _ Hreach). cbn [fst snd].
  rewrite while_last by (unfold scrape_cond, max_pages; cbn [fst]; apply Z.leb_le; lia).
  rewrite scrape_body_run.
  rewrite (pages_before_next q Hq1), flat_map_app, map_app. cbn [flat_map List.map].
  rewrite app_nil_r.
  assert (Hq : products_of_page R W url q =
               match site W (_build_page_url url q) with
               | Some soup => page_products R soup (_build_page_url url q) q
               | None => []
               end) by reflexivity.
  rewrite Hq. clear Hq.
  assert (Hpage : forall soup, fetches (log ++ page_events R soup url q) =
                    List.map (_build_page_url url) (pages_before q) ++ [_build_page_url url q]).
  { intros soup. unfold page_events. fetches_norm. now rewrite Hf. }
  destruct (site W (_build_page_url url q)) as [soup|] eqn:Hsite.
  - cbv zeta.
    destruct (page_products R soup (_build_page_url url q) q) as [|x xs] eqn:Hpp.
    + cbn [fst snd]. rewrite app_nil_r. split; [now rewrite Ha | apply Hpage].
    + destruct (_has_next_page R soup (_build_page_url url q)) as [[|]|] eqn:Hnext.
      * destruct Hlast as [-> | Hstop].
        -- rewrite while_exit by reflexivity. cbn [fst snd].
           split; [now rewrite Ha|]. specialize (Hpage soup).
           revert Hpage. fetches_norm. tauto.
        -- unfold stops_at in Hstop. rewrite Hsite, Hpp, Hnext in Hstop. discriminate.
      * cbn [fst snd]. split; [now rewrite Ha | apply Hpage].
      * cbn [fst snd]. split; [reflexivity | apply Hpage].
  - cbn [fst snd]. split; [reflexivity|]. fetches_norm. now rewrite Hf.
Qed.

(** X9.  The outcome of a run of [scrape_products], whatever the
    site: with [q] the first page, of at most ten, whose fetch fails,
    which has no product, which shows no next page or on which the
    check for a next page raises (page 10 when no page does), the
    pages fetched are [1 .. q], each once and in order.  The run ends
    with the request's exception when the fetch of page [q] fails, and
    with the [ValueError] of [int] when page [q] has products and a
    page number too long to read makes the check for a next page
    raise; in both cases the products gathered before are lost.
    Otherwise it returns the products of the pages [1 .. q] in page
    order, with no product dropped or merged. *)
Theorem scrape_products_outcome (q : Z) :
  last_page R W url q ->
  fst (scrape_products R W url) =
    match site W (_build_page_url url q) with
    | None => Raised RequestException
    | Some soup =>
        match page_products R soup (_build_page_url url q) q,
              _has_next_page R soup (_build_page_url url q) with
        | _ :: _, None => Raised ValueError
        | _, _ => Normal (flat_map (products_of_page R W url) (pages_before (q + 1)))
        end
    end /\
  fetches (snd (scrape_products R W url)) =
    List.map (_build_page_url url) (pages_before (q + 1)).
Proof. exact (scrape_run_to_last_page q). Qed.

(** Every run has such a last page. *)
Lemma last_page_exists : exists q, last_page R W url q.
Proof.
  assert (H : forall n : nat, (n <= 9)%nat ->
            (exists q, 1 <= q <= Z.of_nat n /\
                       (forall k, 1 <= k < q -> stops_at R W url k = false) /\
                       stops_at R W url q = true) \/
            (forall k, 1 <= k <= Z.of_nat n -> stops_at R W url k = false)).
  { induction n as [|n IH]; intros Hn.
    - right. intros k Hk. lia.
    - destruct IH as [(q & Hq & Hnon & Hstop) | Hnon]; [lia| |].
      + left. exists q. split; [lia|]. split; assumption.
      + destruct (stops_at R W url (Z.of_nat (S n))) eqn:Hs.
        * left. exists (Z.of_nat (S n)). split; [lia|]. split; [|exact Hs].
          intros k Hk. apply Hnon. lia.
        * right. intros k Hk. destruct (Z.eq_dec k (Z.of_nat (S n))) as [->|Hne];
            [exact Hs | apply Hnon; lia]. }
  destruct (H 9%nat (le_n _)) as [(q & Hq & Hnon & Hstop) | Hnon].
  - exists q. unfold last_page, max_pages. split; [lia|]. split; [exact Hnon | now right].
  - exists 10. unfold last_page, max_pages. split; [lia|]. split; [|now left].
    intros k Hk. apply Hnon. lia.
Qed.

End WholeRuns.

Lemma pages_before_bounds (p k : Z) : In k (pages_before p) -> 1 <= k < p.
Proof.
  unfold pages_before. intros H. apply in_map_iff in H as (i & <- & Hi).
  apply in_seq in Hi. lia.
Qed.

Lemma pages_before_NoDup (p : Z) : NoDup (pages_before p).
Proof.
  unfold pages_before. generalize (Z.to_nat (p - 1)) as n. generalize 1%nat as start.
  intros start n. revert start. induction n as [|n IH]; intros start; cbn [seq List.map].
  - constructor.
  - constructor; [|apply IH].
    rewrite list_elem_of_In, in_map_iff. intros (i & Hi & Hin).
    apply in_seq in Hin. lia.
Qed.

Lemma page_urls_NoDup (R : Runtime) (url : pystr) (pages : list Z) :
  (forall k, In k pages -> 1 <= k) -> NoDup pages ->
  NoDup (List.map (_build_page_url url) pages).
Proof.
  intros Hpos Hnd. induction Hnd as [|k pages Hk Hnd IH]; cbn [List.map]; constructor.
  - rewrite list_elem_of_In, in_map_iff. intros (j & Hj & Hin).
    apply (build_page_url_inj R) in Hj; [|apply Hpos; now right | apply Hpos; now left].
    subst j. apply Hk. now apply list_elem_of_In.
  - apply IH. intros j Hj. apply Hpos. now right.
Qed.

(** X10.  No run of [scrape_products] fetches the same URL twice. *)
Theorem scrape_products_no_refetch (R : Runtime) (W : World) (url : pystr) :
  NoDup (fetches (snd (scrape_products R W url))).
Proof.
  destruct (last_page_exists R W url) as [q Hq].
  rewrite (proj2 (scrape_run_to_last_page R W url q Hq)).
  apply (page_urls_NoDup R); [|apply pages_before_NoDup].
  intros k Hk. apply pages_before_bounds in Hk. lia.
Qed.

(** C4.  No run fetches more than ten pages, whatever the pages say of
    a next page, and every run ends: ten passes of fuel suffice, and
    more change nothing.  When none of the pages 1 to 10 ends the run,
    [scrape_products] fetches exactly these ten, leaves its loop and
    returns the products of all ten.  [scrape_products_with_progress]
    does not always: on a site every page of which offers a next page,
    for a running job whose final commit raises, it fetches the ten
    pages, and the exception of the commit, which nothing guards,
    leaves it instead of the twenty products, which [scrape_products]
    returns on the same site. *)
Theorem C4_page_cap (R : Runtime) (W : World) (url : pystr) :
  (length (fetches (snd (scrape_products R W url))) <= 10)%nat /\
  (length (fetches (snd (scrape_products_with_progress R W url))) <= 10)%nat /\
  fst (scrape_products R W url) <> Unfinished /\
  fst (scrape_products_with_progress R W url) <> Unfinished /\
  (forall fuel, (10 <= fuel)%nat ->
     scrape_products_fuel R W fuel url [] = scrape_products R W url) /\
  (forall fuel, (10 <= fuel)%nat ->
     scrape_products_with_progress_fuel R W fuel url [] =
     scrape_products_with_progress R W url) /\
  ((forall k, 1 <= k <= max_pages -> stops_at R W url k = false) ->
   fst (scrape_products R W url) =
     Normal (flat_map (products_of_page R W url) (pages_before 11)) /\
   fetches (snd (scrape_products R W url)) =
     List.map (_build_page_url url) (pages_before 11)) /\
  fetches (snd (scrape_products_with_progress sample_runtime capped_job_world sample_url)) =
    List.map (_build_page_url sample_url) (pages_before 11) /\
  fst (scrape_products_with_progress sample_runtime capped_job_world sample_url) =
    Raised DatabaseError /\
  last (snd (scrape_products_with_progress sample_runtime capped_job_world sample_url)) =
    Some (CommitFailed FinalUpdate 11) /\
  fst (scrape_products sample_runtime capped_job_world sample_url) =
    Normal (flat_map (products_of_page sample_runtime capped_job_world sample_url)
              (pages_before 11)) /\
  length (flat_map (products_of_page sample_runtime capped_job_world sample_url)
            (pages_before 11)) = 20%nat.
Proof.
  destruct (runs_capped R W url) as (H1 & H2 & H3 & H4 & H5 & H6).
  do 6 (split; [assumption|]).
  split; [|repeat split].
  intros Hnon.
  assert (Hlast : last_page R W url 10).
  { unfold last_page, max_pages in *. split; [lia|]. split; [|now left].
    intros k Hk. apply Hnon. lia. }
  destruct (scrape_run_to_last_page R W url 10 Hlast) as [Hout Hfetch].
  split; [|exact Hfetch]. rewrite Hout.
  specialize (Hnon 10 ltac:(unfold max_pages; lia)). unfold stops_at in Hnon.
  destruct (site W (_build_page_url url 10)) as [soup|]; [|discriminate].
  destruct (page_products R soup (_build_page_url url 10) 10) as [|x xs]; [discriminate|].
  destruct (_has_next_page R soup (_build_page_url url 10)) as [[|]|];
    [reflexivity | discriminate..].
Qed.

(** C4 on a site that always offers a next page, scraped without a
    job: the ten pages are fetched and their products returned. *)
Lemma C4_witness :
  fst (scrape_products sample_runtime endless_world sample_url) =
    Normal (flat_map (products_of_page sample_runtime endless_world sample_url)
              (pages_before 11)) /\
  fetches (snd (scrape_products sample_runtime endless_world sample_url)) =
    List.map (_build_page_url sample_url) (pages_before 11).
Proof.
  destruct (C4_page_cap sample_runtime endless_world sample_url)
    as (_ & _ & _ & _ & _ & _ & Hcap & _).
  apply Hcap. intros k Hk. unfold max_pages in Hk.
  assert (Hcases : k = 1 \/ k = 2 \/ k = 3 \/ k = 4 \/ k = 5 \/ k = 6 \/ k = 7 \/
                   k = 8 \/ k = 9 \/ k = 10) by lia.
  repeat (destruct Hcases as [-> | Hcases]; [reflexivity|]). subst k. reflexivity.
Defined.

(** X9 on the two-page site of the samples: page 2 is the last page. *)
Lemma scrape_products_outcome_witness :
  fst (scrape_products sample_runtime two_page_world sample_url) =
    match site two_page_world (_build_page_url sample_url 2) with
    | None => Raised RequestException
    | Some soup =>
        match page_products sample_runtime soup (_build_page_url sample_url 2) 2,
              _has_next_page sample_runtime soup (_build_page_url sample_url 2) with
        | _ :: _, None => Raised ValueError
        | _, _ =>
            Normal (flat_map (products_of_page sample_runtime two_page_world sample_url)
                      (pages_before (2 + 1)))
        end
    end /\
  fetches (snd (scrape_products sample_runtime two_page_world sample_url)) =
    List.map (_build_page_url sample_url) (pages_before (2 + 1)).
Proof.
  apply (scrape_products_outcome sample_runtime two_page_world sample_url 2).
  split; [unfold max_pages; lia|]. split.
  - intros k Hk. assert (k = 1) as -> by lia. reflexivity.
  - right. reflexivity.
Defined.

(** A first page with a product and a pagination link whose page
    number [int] does not read: the run fetches that page and ends
    with the [ValueError]; the product is not returned. *)
Example long_link_run :
  fst (scrape_products sample_runtime long_link_world sample_url) = Raised ValueError /\
  fetches (snd (scrape_products sample_runtime long_link_world sample_url)) = [sample_url] /\
  length (products_of_page sample_runtime long_link_world sample_url 1) = 1%nat.
Proof. repeat split. Qed.

(** ** The two entry points compared *)

Lemma page_trace_app (l1 l2 : list event) :
  page_trace (l1 ++ l2) = page_trace l1 ++ page_trace l2.
Proof. exact (List.filter_app page_event l1 l2). Qed.

Lemma page_trace_ran (ss : list strategy) (p : Z) :
  page_trace (List.map (fun s => Ran s p) ss) = List.map (fun s => Ran s p) ss.
Proof. induction ss as [|s ss IH]; [reflexivity|]. cbn. now f_equal. Qed.

Ltac trace_norm :=
  repeat rewrite page_trace_app; rewrite ?page_trace_ran;
  cbn [page_trace List.filter page_event]; rewrite ?app_nil_r.

Section Undisturbed.

Variable R : Runtime.
Variable W : World.
Variable url : pystr.
Hypothesis Hquiet : undisturbed W.

(** One pass of the progress-tracked loop is one pass of the plain
    loop, with the job's events in between. *)
Lemma progress_body_view (p : Z) (all_products : list product) (j : option string)
  (log : list event) :
  page_view (flow_map fst) (progress_body R W url (p, all_products, j) log) =
  scrape_body R W url (p, all_products) (page_trace log).
Proof.
  destruct Hquiet as (Hrun & Hrb1 & Hrb2 & Hc1 & _).
  rewrite scrape_body_run. unfold page_events, progress_body, fetch_page. run_body.
  destruct (job_status W p) as [status|] eqn:Hjob.
  - rewrite (Hrun p status Hjob). run_body. rewrite (Hrb1 p).
    destruct (commit_raises W PageStarted p); run_body.
    all: destruct (site W (_build_page_url url p)) as [soup|] eqn:Hsite; run_body.
    all: try (unfold page_view; cbn [fst snd]; trace_norm; reflexivity).
    all: cbv zeta;
      destruct (page_products R soup (_build_page_url url p) p) as [|x xs] eqn:Hpp.
    all: try (unfold ret, page_view; cbn [fst snd flow_map]; trace_norm;
              rewrite <- ?app_assoc; reflexivity).
    all: run_body; rewrite (Hrb2 p);
      destruct (commit_raises W PageFound p);
      destruct (_has_next_page R soup (_build_page_url url p)) as [[|]|];
      cbn [negb]; run_body; rewrite ?(Hc1 p).
    all: unfold ret, page_view; cbn [fst snd flow_map]; trace_norm;
      rewrite <- ?app_assoc; reflexivity.
  - run_body.
    destruct (site W (_build_page_url url p)) as [soup|] eqn:Hsite; run_body.
    2: unfold page_view; cbn [fst snd]; trace_norm; reflexivity.
    cbv zeta.
    destruct (page_products R soup (_build_page_url url p) p) as [|x xs] eqn:Hpp.
    + unfold ret, page_view; cbn [fst snd flow_map]; trace_norm;
        rewrite <- ?app_assoc; reflexivity.
    + run_body.
      destruct (_has_next_page R soup (_build_page_url url p)) as [[|]|];
        cbn [negb]; run_body.
      all: unfold ret, page_view; cbn [fst snd flow_map]; trace_norm;
        rewrite <- ?app_assoc; reflexivity.
Qed.

Lemma progress_loop_view (fuel : nat) (p : Z) (all_products : list product)
  (j : option string) (log : list event) :
  page_view fst (while_ fuel progress_cond (progress_body R W url) (p, all_products, j) log) =
  while_ fuel scrape_cond (scrape_body R W url) (p, all_products) (page_trace log).
Proof.
  revert p all_products j log. induction fuel as [|fuel IH]; intros p all_products j log.
  - cbn [while_]. unfold progress_cond, scrape_cond. cbn [fst].
    destruct (p <=? max_pages); reflexivity.
  - destruct (p <=? max_pages) eqn:Hp.
    + rewrite !while_last by exact Hp.
      rewrite <- progress_body_view with (j := j).
      destruct (progress_body R W url (p, all_products, j) log)
        as [[[[[p' all'] j']|[[p' all'] j']]|v|e|] log'];
        unfold page_view at 2; cbn [fst snd flow_map]; try reflexivity.
      apply IH.
    + rewrite !while_exit by exact Hp. reflexivity.
Qed.

Lemma final_update_view (s : progress_state) (log : list event) :
  page_view id (final_update W s log) = (Normal (snd (fst s)), page_trace log).
Proof.
  destruct Hquiet as (_ & _ & _ & _ & Hc2).
  destruct s as [[p all_products] job]. unfold final_update.
  destruct job as [status|]; run_body; [rewrite (Hc2 p)|];
    unfold ret, page_view; cbn [fst snd]; trace_norm; reflexivity.
Qed.

(** X11.  What the progress tracking changes in a run: as long as the
    job is never found cancelled or paused, no rollback after a failed
    guarded commit raises and the two unguarded commits succeed,
    [scrape_products_with_progress] ends as [scrape_products] does on
    the same site, with the same products or the same exception, and
    fetches the same pages, calls the same strategies and sleeps at the
    same points; a failing guarded commit changes none of it. *)
Theorem progress_tracking_transparent :
  fst (scrape_products_with_progress R W url) = fst (scrape_products R W url) /\
  page_trace (snd (scrape_products_with_progress R W url)) =
    snd (scrape_products R W url).
Proof.
  unfold scrape_products_with_progress, scrape_products.
  rewrite with_progress_unfold, scrape_fuel_unfold.
  pose proof (progress_loop_view loop_fuel 1 [] None []) as Hview.
  change (page_trace []) with (@nil event) in Hview. rewrite <- Hview.
  destruct (while_ loop_fuel progress_cond (progress_body R W url) (1, [], None) [])
    as [[s|v|e|] log]; unfold page_view; cbn [fst snd]; try (split; reflexivity).
  pose proof (final_update_view s log) as Hfinal. unfold page_view in Hfinal.
  injection Hfinal as Hout Hlog.
  destruct (final_update W s log) as [[a|v|e|] log']; cbn [fst snd] in *;
    try discriminate.
  injection Hout as ->. split; [reflexivity | exact Hlog].
Qed.

End Undisturbed.

(** X11 on a running job both of whose guarded commits fail on every
    page. *)
Lemma progress_tracking_transparent_witness :
  fst (scrape_products_with_progress sample_runtime guarded_commits_fail sample_url) =
    fst (scrape_products sample_runtime guarded_commits_fail sample_url) /\
  page_trace (snd (scrape_products_with_progress sample_runtime guarded_commits_fail
                     sample_url)) =
    snd (scrape_products sample_runtime guarded_commits_fail sample_url).
Proof.
  apply (progress_tracking_transparent sample_runtime guarded_commits_fail sample_url).
  unfold undisturbed. split; [|repeat split].
  intros p status Hjob. injection Hjob as <-. reflexivity.
Defined.

(** * The AI enhancer *)

Lemma startswith_across (kw a b : pystr) (sep : N) :
  char_in sep kw = false -> startswith (a ++ sep :: b) kw = startswith a kw.
Proof.
  unfold startswith. revert a. induction kw as [|c kw IH]; intros a Hsep; [reflexivity|].
  unfold char_in in Hsep. cbn [existsb] in Hsep. apply orb_false_iff in Hsep as [Hc Hkw].
  destruct a as [|d a].
  - cbn [app strip_prefix]. rewrite N.eqb_sym, Hc. reflexivity.
  - rewrite <- app_comm_cons. cbn [strip_prefix].
    destruct (c =? d)%N; [apply IH; exact Hkw | reflexivity].
Qed.

Lemma contains_across (kw a b : pystr) (sep : N) :
  kw <> [] -> char_in sep kw = false ->
  contains kw (a ++ sep :: b) = contains kw a || contains kw b.
Proof.
  intros Hkw Hsep. induction a as [|d a IH].
  - change ([] ++ sep :: b) with (sep :: b). cbn [contains].
    rewrite (startswith_across kw [] b sep Hsep : startswith (sep :: b) kw = _).
    destruct kw; [congruence | reflexivity].
  - rewrite <- app_comm_cons. cbn [contains].
    rewrite IH, (app_comm_cons a (sep :: b) d), (startswith_across kw (d :: a) b sep Hsep).
    now rewrite orb_assoc.
Qed.

Lemma any_keyword_across (keywords : list pystr) (a b : pystr) :
  Forall (fun kw => kw <> [] /\ char_in 32 kw = false) keywords ->
  any_keyword keywords (a ++ u " " ++ b) =
  any_keyword keywords a || any_keyword keywords b.
Proof.
  intros H. induction H as [|kw keywords [Hkw Hsep] _ IH]; [reflexivity|].
  unfold any_keyword in *. cbn [existsb]. rewrite IH.
  change (u " " ++ b) with (32%N :: b). rewrite (contains_across kw a b 32 Hkw Hsep).
  destruct (contains kw a), (contains kw b); cbn [orb]; try reflexivity;
    now rewrite ?orb_true_r.
Qed.

Lemma keywords_plain :
  Forall (fun kw => kw <> [] /\ char_in 32 kw = false) grouped_keywords /\
  Forall (fun kw => kw <> [] /\ char_in 32 kw = false) variable_keywords.
Proof. split; repeat constructor; discriminate. Qed.

(** X12.  [_determine_woocommerce_type] decides on the title and the
    description each on its own: joining them with a space lets no
    keyword match across the two, so the type is [grouped] when the
    lower-cased title or the lower-cased description holds a grouped
    keyword as a substring, else [variable] when one of them holds a
    variable keyword, else [simple]; and it is [simple] whenever the
    title or the description is not a string, whatever the other
    holds. *)
Theorem woocommerce_type_by_field (lower : pystr -> pystr) (product_data : product) :
  _determine_woocommerce_type lower product_data =
  match py_lower lower (dict_get product_data "title" (VStr [])),
        py_lower lower (dict_get product_data "description" (VStr [])) with
  | Some title, Some description =>
      if any_keyword grouped_keywords title || any_keyword grouped_keywords description
      then u "grouped"
      else if any_keyword variable_keywords title
              || any_keyword variable_keywords description
      then u "variable"
      else u "simple"
  | _, _ => u "simple"
  end.
Proof.
  unfold _determine_woocommerce_type.
  destruct (py_lower lower (dict_get product_data "title" (VStr []))) as [title|];
    [|reflexivity].
  destruct (py_lower lower (dict_get product_data "description" (VStr [])))
    as [description|]; [|reflexivity].
  cbn [mbind option_bind].
  now rewrite !any_keyword_across by apply keywords_plain.
Qed.

(** X13.  Whatever the service answers and whatever the record holds,
    [_generate_seo_tags] returns at most eight tags, all of them
    strings. *)
Theorem seo_tags_bounded (R : Runtime) (C : Client) (product_data : product) :
  (length (_generate_seo_tags R C product_data) <= 8)%nat /\
  Forall is_str (_generate_seo_tags R C product_data).
Proof.
  unfold _generate_seo_tags.
  match goal with |- context [match ?m with _ => _ end] => destruct m as [[| | | | |tags|]|] end;
    try (split; [cbn; lia | constructor]).
  destruct (forallb isinstance_str tags) eqn:Hall; [|split; [cbn; lia | constructor]].
  split; [rewrite length_take; lia|].
  apply Forall_take. rewrite forallb_forall in Hall. apply List.Forall_forall.
  intros v Hv. specialize (Hall v Hv). destruct v; try discriminate. now eexists.
Qed.

Lemma enhance_fallback_other (json_dumps : value -> pystr) (product_data : product)
  (k : string) :
  ~ In k ai_keys -> enhance_fallback json_dumps product_data !! k = product_data !! k.
Proof.
  intros Hk. unfold enhance_fallback. cbv zeta.
  rewrite !lookup_insert_ne; [reflexivity|..];
    intros <-; apply Hk; cbn; tauto.
Qed.

(** X14.  [enhance_product] adds to a record and changes none of its
    scraped fields, on both of its paths: every key other than the
    seven it writes keeps its value or its absence; six of the seven
    are always set; and [ai_summary] is left as it was when the record
    has no description. *)
Theorem enhance_keeps_scraped_fields (R : Runtime) (C : Client) (lower : pystr -> pystr)
  (json_dumps : value -> pystr) (product_data : product) :
  (forall k, ~ In k ai_keys ->
     enhance_product R C lower json_dumps product_data !! k = product_data !! k) /\
  (forall k, In k ai_keys -> k <> "ai_summary"%string ->
     is_Some (enhance_product R C lower json_dumps product_data !! k)) /\
  (truthy (dict_get product_data "description" VNone) = false ->
     enhance_product R C lower json_dumps product_data !! "ai_summary" =
     product_data !! "ai_summary").
Proof.
  unfold enhance_product. cbv zeta.
  split; [|split].
  - intros k Hk.
    assert (Hne : forall k', In k' ai_keys -> k' <> k) by (intros k' Hin ->; exact (Hk Hin)).
    destruct (truthy (dict_get product_data "description" VNone)).
    + destruct (_generate_summary C (dict_get product_data "description" VNone));
        cbn [mbind option_bind].
      * destruct (truthy (dict_get product_data "image_urls" VNone));
          (rewrite !lookup_insert_ne; [reflexivity|..]; apply Hne; cbn; tauto).
      * now apply enhance_fallback_other.
    + destruct (truthy (dict_get product_data "image_urls" VNone));
        (rewrite !lookup_insert_ne; [reflexivity|..]; apply Hne; cbn; tauto).
  - intros k Hk Hsum.
    assert (Hk' : In k (tl ai_keys)) by (destruct Hk as [<-|Hk]; [congruence | exact Hk]).
    clear Hk Hsum.
    destruct (truthy (dict_get product_data "description" VNone)).
    + destruct (_generate_summary C (dict_get product_data "description" VNone));
        cbn [mbind option_bind].
      * destruct (truthy (dict_get product_data "image_urls" VNone));
          cbn in Hk'; destruct Hk' as [<-|[<-|[<-|[<-|[<-|[<-|[]]]]]]];
          rewrite ?lookup_insert_eq, ?lookup_insert_ne by discriminate; eauto.
        all: rewrite ?lookup_insert_eq; eauto.
      * unfold enhance_fallback. cbv zeta.
        cbn in Hk'; destruct Hk' as [<-|[<-|[<-|[<-|[<-|[<-|[]]]]]]];
          rewrite ?lookup_insert_eq, ?lookup_insert_ne by discriminate; eauto.
        all: rewrite ?lookup_insert_eq; eauto.
    + destruct (truthy (dict_get product_data "image_urls" VNone));
        cbn in Hk'; destruct Hk' as [<-|[<-|[<-|[<-|[<-|[<-|[]]]]]]];
        rewrite ?lookup_insert_eq, ?lookup_insert_ne by discriminate; eauto.
      all: rewrite ?lookup_insert_eq; eauto.
  - intros ->.
    destruct (truthy (dict_get product_data "image_urls" VNone));
      now rewrite !lookup_insert_ne by discriminate.
Qed.

(** * Job control *)

Lemma serve_finished (e : endpoint) (commit_raises : bool) (status : string) :
  existsb (String.eqb status) ["running"; "paused"; "pending"]%string = false ->
  serve e commit_raises (Some status) = (400, Some status).
Proof.
  intros H. cbn [existsb] in H. rewrite !orb_false_iff in H.
  destruct H as (Hrun & Hpau & Hpen & _).
  destruct e; unfold serve, pause_job, resume_job, cancel_job; cbn [existsb];
    rewrite ?Hrun, ?Hpau, ?Hpen; reflexivity.
Qed.

(** X15.  A job whose status is none of [running], [paused] and
    [pending] is closed to the three endpoints: whatever requests
    follow one another, each is answered with status 400 and the row
    keeps its status. *)
Theorem finished_job_stays (requests : list (endpoint * bool)) (status : string) :
  existsb (String.eqb status) ["running"; "paused"; "pending"]%string = false ->
  serve_all requests (Some status) = (List.map (fun _ => 400) requests, Some status).
Proof.
  intros H. induction requests as [|[e commit_raises] requests IH]; [reflexivity|].
  cbn [serve_all List.map]. rewrite (serve_finished e commit_raises status H), IH.
  reflexivity.
Qed.

(** X16.  By themselves the endpoints can only cancel a job that is
    still pending: whatever requests follow one another while the
    background job has not written the row, its status is [pending] or
    [cancelled] at the end.  (The thread started with the job sets
    [running] when it runs; that write is no part of [serve_all].) *)
Theorem pending_job_only_cancelled (requests : list (endpoint * bool)) :
  snd (serve_all requests (Some "pending"%string)) = Some "pending"%string \/
  snd (serve_all requests (Some "pending"%string)) = Some "cancelled"%string.
Proof.
  assert (H : forall row,
            row = Some "pending"%string \/ row = Some "cancelled"%string ->
            snd (serve_all requests row) = Some "pending"%string \/
            snd (serve_all requests row) = Some "cancelled"%string).
  { induction requests as [|[e commit_raises] requests IH]; intros row Hrow;
      [exact Hrow|].
    cbn [serve_all].
    assert (Hnext : snd (serve e commit_raises row) = Some "pending"%string \/
                    snd (serve e commit_raises row) = Some "cancelled"%string).
    { destruct Hrow as [-> | ->]; destruct e, commit_raises; cbn; tauto. }
    destruct (serve e commit_raises row) as [code row'].
    specialize (IH row' Hnext).
    destruct (serve_all requests row') as [codes row'']. exact IH. }
  apply H. now left.
Qed.

Lemma finished_job_stays_witness :
  serve_all [(Resume, false); (Cancel, false); (Pause, true)] (Some "completed"%string) =
  (List.map (fun _ => 400) [(Resume, false); (Cancel, false); (Pause, true)],
   Some "completed"%string).
Proof. apply finished_job_stays. reflexivity. Defined.

(** * The CSV export *)

Lemma flattened_value_scalar (R : Runtime) (json_dumps : value -> pystr) (v : value) :
  scalar (flattened_value R json_dumps v) = true.
Proof. destruct v as [| | | | |l|d]; reflexivity. Qed.

Lemma flattened_value_same (R : Runtime) (json_dumps : value -> pystr) (v : value) :
  scalar v = true -> flattened_value R json_dumps v = v.
Proof. destruct v as [| | | | |l|d]; intros H; try discriminate; reflexivity. Qed.

(** X17.  [_flatten_product_data] keeps the keys of a record, leaves
    no list and no dict among its values, keeps every value that is
    neither as it is, and flattening a flattened record changes
    nothing. *)
Theorem flatten_product_data_flat (R : Runtime) (json_dumps : value -> pystr)
  (p : product) :
  dom (_flatten_product_data R json_dumps p) = dom p /\
  (forall k v, _flatten_product_data R json_dumps p !! k = Some v -> scalar v = true) /\
  (forall k v, p !! k = Some v -> scalar v = true ->
     _flatten_product_data R json_dumps p !! k = Some v) /\
  _flatten_product_data R json_dumps (_flatten_product_data R json_dumps p) =
    _flatten_product_data R json_dumps p.
Proof.
  unfold _flatten_product_data. repeat apply conj.
  - apply dom_fmap_L.
  - intros k v. rewrite lookup_fmap. destruct (p !! k) as [w|]; [|discriminate].
    cbn. intros [= <-]. apply flattened_value_scalar.
  - intros k v Hk Hv. rewrite lookup_fmap, Hk. cbn. now rewrite flattened_value_same.
  - apply map_eq. intros k. rewrite !lookup_fmap.
    destruct (p !! k) as [w|]; [|reflexivity]. cbn.
    now rewrite flattened_value_same by apply flattened_value_scalar.
Qed.
